(** * Forecal: daily occupancy aggregation, calendar features and the
    forecast combiner

    A shallow embedding of [backend/scripts/data_extraction.py] and
    [backend/scripts/forecast.py].

    Conventions of the embedding.
    - A pandas [Timestamp] is its number of nanoseconds since the epoch, a
      [Z]; a [datetime.date] is its day number since the epoch, a [Z].
    - A table is the list of its rows, in row order.
    - A missing cell ([None], [NaN], [NaT]) is [None] of an option type.
    - Rates and quotients are exact rationals kept in lowest terms.
    - Text is ASCII: [upper], [lower] and [strip] act on ASCII letters and
      ASCII white space. *)

From Stdlib Require Import ZArith QArith Qreduction List String Ascii Bool Lia.
From Stdlib Require Import Sorting.Sorted Sorting.Permutation.
From Stdlib Require Import Structures.OrderedTypeEx FinFun Qminmax.
Import ListNotations.

Open Scope Z_scope.

(** ** Dates and timestamps *)

Module Time.

(** Nanoseconds in one day, [pd.Timedelta(days=1)]. *)
Definition day_ns : Z := 86400000000000.

(** [Timestamp.normalize()]: midnight of the same day. *)
Definition normalize (t : Z) : Z := t / day_ns * day_ns.

(** [Timestamp.date()], as a day number. *)
Definition date (t : Z) : Z := t / day_ns.

(** [pd.to_datetime] of a [datetime.date]: its midnight. *)
Definition of_date (d : Z) : Z := d * day_ns.

(** [weekday()], Monday = 0; day 0 (1970-01-01) is a Thursday. *)
Definition weekday_of_date (d : Z) : Z := (d + 3) mod 7.
Definition weekday (t : Z) : Z := weekday_of_date (date t).

(** Day number of a proleptic Gregorian calendar date. *)
Definition ymd (y m d : Z) : Z :=
  let y' := if m <=? 2 then y - 1 else y in
  let era := y' / 400 in
  let yoe := y' - era * 400 in
  let mp := (m + 9) mod 12 in
  let doy := (153 * mp + 2) / 5 + d - 1 in
  let doe := yoe * 365 + yoe / 4 - yoe / 100 + doy in
  era * 146097 + doe - 719468.

(** Year, month and day of a day number. *)
Definition civil (z : Z) : Z * Z * Z :=
  let z := z + 719468 in
  let era := z / 146097 in
  let doe := z - era * 146097 in
  let yoe := (doe - doe / 1460 + doe / 36524 - doe / 146096) / 365 in
  let y := yoe + era * 400 in
  let doy := doe - (365 * yoe + yoe / 4 - yoe / 100) in
  let mp := (5 * doy + 2) / 153 in
  let d := doy - (153 * mp + 2) / 5 + 1 in
  let m := if mp <? 10 then mp + 3 else mp - 9 in
  (if m <=? 2 then y + 1 else y, m, d).

(** [pd.date_range(start, end, freq="D")]: [start], [start] + 1 day, ...
    as long as [end] is not passed. *)
Definition date_range (start stop : Z) : list Z :=
  map (fun k => start + Z.of_nat k * day_ns)
      (seq 0 (Z.to_nat ((stop - start) / day_ns + 1))).

End Time.

(** ** Text helpers *)

Module Text.

Definition is_lower (c : ascii) : bool :=
  let n := nat_of_ascii c in (97 <=? n)%nat && (n <=? 122)%nat.
Definition is_upper (c : ascii) : bool :=
  let n := nat_of_ascii c in (65 <=? n)%nat && (n <=? 90)%nat.

Definition upper_char (c : ascii) : ascii :=
  if is_lower c then ascii_of_nat (nat_of_ascii c - 32) else c.
Definition lower_char (c : ascii) : ascii :=
  if is_upper c then ascii_of_nat (nat_of_ascii c + 32) else c.

Fixpoint map_string (f : ascii -> ascii) (s : string) : string :=
  match s with
  | EmptyString => EmptyString
  | String c s' => String (f c) (map_string f s')
  end.

(** [str.upper()] and [str.lower()]. *)
Definition upper : string -> string := map_string upper_char.
Definition lower : string -> string := map_string lower_char.

(** White space as [str.strip()] sees it: tab to carriage return, the
    four separators 28..31, and the space. *)
Definition is_space (c : ascii) : bool :=
  let n := nat_of_ascii c in
  ((9 <=? n)%nat && (n <=? 13)%nat) || ((28 <=? n)%nat && (n <=? 32)%nat).

Fixpoint lstrip (s : string) : string :=
  match s with
  | EmptyString => EmptyString
  | String c s' => if is_space c then lstrip s' else s
  end.

(** Drops trailing white space: a character is kept when something
    non-blank follows it or it is itself not white space. *)
Fixpoint rstrip (s : string) : string :=
  match s with
  | EmptyString => EmptyString
  | String c s' =>
      match rstrip s' with
      | EmptyString => if is_space c then EmptyString else String c EmptyString
      | r => String c r
      end
  end.

(** [str.strip()]. *)
Definition strip (s : string) : string := rstrip (lstrip s).

(** [s[:1]]. *)
Definition first1 (s : string) : string :=
  match s with
  | EmptyString => EmptyString
  | String c _ => String c EmptyString
  end.

Definition mem (s : string) (l : list string) : bool :=
  existsb (String.eqb s) l.

End Text.

(** ** data_extraction.py *)

Module Stay.

(** A raw cell of an object column: missing, a [str], or some other
    object, of which only its [str()] text matters. *)
Inductive cell : Type :=
| Null
| Str (s : string)
| Obj (repr : string).

(** One reservation of the source table. The date columns are held as
    [pd.to_datetime(..., errors="coerce")] leaves them: [None] is [NaT].
    [room_rate] is [None] when the cell is missing or [float()] fails. *)
Record t : Type := mk {
  room_number : option string;
  room_type : cell;
  arrangement : option string;
  arrival_date : option Z;
  depart_date : option Z;
  room_rate : option Q;
  segment : option string
}.

Definition notna (c : cell) : bool :=
  match c with Null => false | _ => true end.

(** [str(c)]. *)
Definition str (c : cell) : string :=
  match c with Null => "None" | Str s => s | Obj r => r end.

End Stay.

Module Daily.

(** One row of the expanded daily table. *)
Record t : Type := mk {
  date : Z;
  room_type : option string;
  arrangement : option string;
  room_number : option string;
  segment : option string;
  nightly_rate : option Q
}.

End Daily.

Definition _map_room_type (raw : Stay.cell) : option string :=
  match raw with
  | Stay.Str s =>
      if (String.length s =? 0)%nat then None
      else
        let first := Text.first1 (Text.upper (Text.strip s)) in
        if (first =? "D")%string then Some "Deluxe"%string
        else if (first =? "E")%string then Some "Executive Suite"%string
        else if (first =? "S")%string then Some "Suite"%string
        else if (first =? "B")%string then Some "Executive Suite"%string
        else if (first =? "F")%string then Some "Family Suite"%string
        else None
  | _ => None
  end.

(** The fixed category set. *)
Definition room_categories : list string :=
  ["Deluxe"; "Executive Suite"; "Suite"; "Family Suite"]%string.

(** [final_room] of the loop body: the mapped category, else the stripped
    raw text when the cell is present and not blank, else missing. *)
Definition final_room (raw_room : Stay.cell) : option string :=
  match _map_room_type raw_room with
  | Some mapped_room => Some mapped_room
  | None =>
      if Stay.notna raw_room
         && negb (Text.strip (Stay.str raw_room) =? "")%string
      then Some (Text.strip (Stay.str raw_room))
      else None
  end.

(** The body of the loop over [work.iterrows()], for one row whose two
    dates are present. *)
Definition stay_rows (row : Stay.t) (arrival depart : Z) : list Daily.t :=
  if depart <=? arrival then []
  else
    let d_range :=
      Time.date_range (Time.normalize arrival)
                      (Time.normalize (depart - Time.day_ns)) in
    map (fun d =>
           Daily.mk (Time.date d) (final_room (Stay.room_type row))
                    (Stay.arrangement row) (Stay.room_number row)
                    (Stay.segment row) (Stay.room_rate row))
        d_range.

Definition dates_present (row : Stay.t) : bool :=
  match Stay.arrival_date row, Stay.depart_date row with
  | Some _, Some _ => true
  | _, _ => false
  end.

Definition expand_row (row : Stay.t) : list Daily.t :=
  match Stay.arrival_date row, Stay.depart_date row with
  | Some a, Some d => stay_rows row a d
  | _, _ => []
  end.

Definition room_type_notna (r : Daily.t) : bool :=
  match Daily.room_type r with Some _ => true | None => false end.

Definition expand_stays_to_daily_rows (df : list Stay.t) : list Daily.t :=
  let work := filter dates_present df in
  let rows := flat_map expand_row work in
  filter room_type_notna rows.

(** *** pandas helpers *)

Module Frame.

Section Generic.
Context {A : Type}.

(** [Series.unique()]: the distinct values, in order of first appearance. *)
Fixpoint unique_from (eqb : A -> A -> bool) (seen l : list A) : list A :=
  match l with
  | [] => []
  | x :: xs =>
      if existsb (eqb x) seen then unique_from eqb seen xs
      else x :: unique_from eqb (x :: seen) xs
  end.

Definition unique (eqb : A -> A -> bool) (l : list A) : list A :=
  unique_from eqb [] l.

(** [dropna()] of one column. *)
Fixpoint dropna (l : list (option A)) : list A :=
  match l with
  | [] => []
  | Some x :: xs => x :: dropna xs
  | None :: xs => dropna xs
  end.

(** Stable sort by a "less or equal" test, as [sort_values] on several
    columns and the key order of [groupby] are. *)
Fixpoint insert_sorted (leb : A -> A -> bool) (x : A) (l : list A) : list A :=
  match l with
  | [] => [x]
  | y :: ys => if leb x y then x :: y :: ys else y :: insert_sorted leb x ys
  end.

Fixpoint sort_by (leb : A -> A -> bool) (l : list A) : list A :=
  match l with
  | [] => []
  | x :: xs => insert_sorted leb x (sort_by leb xs)
  end.

(** Missing values sort last. *)
Definition opt_leb (leb : A -> A -> bool) (a b : option A) : bool :=
  match a, b with
  | _, None => true
  | None, Some _ => false
  | Some x, Some y => leb x y
  end.

Definition opt_eqb (eqb : A -> A -> bool) (a b : option A) : bool :=
  match a, b with
  | None, None => true
  | Some x, Some y => eqb x y
  | _, _ => false
  end.

End Generic.

(** [nunique()] of a column of identifiers after [dropna]. *)
Definition nunique (l : list (option string)) : Z :=
  Z.of_nat (List.length (unique String.eqb (dropna l))).

End Frame.

Module Maint.

(** One row of the maintenance table. *)
Record t : Type := mk {
  Date : Z;
  Room_Type : string;
  Quantity : Z
}.

End Maint.

Module DailyOcc.

(** One entry of [daily_occ_data]. *)
Record t : Type := mk {
  date : Z;
  daily_occupancy_rate : Q;
  total_rooms_sold : Z;
  total_rooms_blocked : Z;
  total_rooms_maintenance : Z;
  total_inventory : Z;
  available_inventory : Z
}.

End DailyOcc.

Module Agg.

(** One row of the daily aggregate table. The columns taken from the
    occupancy table are missing when the left merge finds no partner. *)
Record t : Type := mk {
  Date : Z;
  Room_Type : option string;
  Arrangement : string;
  Average_Room_Rate : Q;
  Occupancy_Rate : option Q;
  Rooms_Sold : option Z;
  Rooms_Excluded : option Z;
  Rooms_Maintenance : option Z;
  Room_Inventory : option Z;
  Available_Inventory : option Z
}.

End Agg.

(** [set([s.upper() for s in (excluded_segments or ["COMP", "HU"])])]. *)
Definition excluded_set (excluded_segments : option (list string)) : list string :=
  map Text.upper
      (match excluded_segments with
       | Some (s :: l) => s :: l
       | _ => ["COMP"; "HU"]%string
       end).

(** [daily["segment"].astype(str).str.upper()]. *)
Definition segment_up (r : Daily.t) : string :=
  Text.upper (match Daily.segment r with Some s => s | None => "None"%string end).

Definition paid_flag (excluded : list string) (r : Daily.t) : bool :=
  negb (Text.mem (segment_up r) excluded).

Definition valid_rate_flag (excluded : list string) (r : Daily.t) : bool :=
  match Daily.nightly_rate r with
  | Some _ => paid_flag excluded r
  | None => false
  end.

(** Python's [max(1, x)] and [min(1.0, x)]. *)
Definition available_of (total_inventory blocked maintenance : Z) : Z :=
  Z.max 1 (total_inventory - blocked - maintenance).

Definition rate_of (sold available : Z) : Q :=
  let x := Qred (inject_Z sold / inject_Z available) in
  if Qle_bool 1 x then 1%Q else x.

Definition sum_Z (l : list Z) : Z := fold_right Z.add 0 l.

(** Rooms out of order on [date]; 0 without a (non-empty) table. *)
Definition maintenance_on (maintenance_df : option (list Maint.t)) (date : Z) : Z :=
  match maintenance_df with
  | Some (m :: l) =>
      sum_Z (map Maint.Quantity
                 (filter (fun r => Time.date (Maint.Date r) =? date) (m :: l)))
  | _ => 0
  end.

(** The body of the loop over [daily["date"].unique()]. *)
Definition daily_occ_entry (excluded : list string)
    (inventory_per_room_type : option (list (string * Z)))
    (maintenance_df : option (list Maint.t))
    (daily : list Daily.t) (date : Z) : DailyOcc.t :=
  let date_data := filter (fun r => Daily.date r =? date) daily in
  let total_rooms_sold :=
    Frame.nunique (map Daily.room_number (filter (paid_flag excluded) date_data)) in
  let total_rooms_blocked :=
    Frame.nunique
      (map Daily.room_number
           (filter (fun r => negb (paid_flag excluded r)) date_data)) in
  let total_rooms_maintenance := maintenance_on maintenance_df date in
  let total_inventory :=
    match inventory_per_room_type with
    | Some (e :: m) => sum_Z (map snd (e :: m))
    | _ => Frame.nunique (map Daily.room_number date_data)
    end in
  let available_inventory :=
    available_of total_inventory total_rooms_blocked total_rooms_maintenance in
  let daily_occupancy_rate := rate_of total_rooms_sold available_inventory in
  DailyOcc.mk date daily_occupancy_rate total_rooms_sold total_rooms_blocked
              total_rooms_maintenance total_inventory available_inventory.

Definition daily_occ_data (excluded : list string)
    (inventory_per_room_type : option (list (string * Z)))
    (maintenance_df : option (list Maint.t))
    (daily : list Daily.t) : list DailyOcc.t :=
  map (daily_occ_entry excluded inventory_per_room_type maintenance_df daily)
      (Frame.unique Z.eqb (map Daily.date daily)).

(** Group key of the rate aggregation: (date, room_type, arrangement). *)
Definition adr_key : Type := Z * option string * option string.

Definition key_of (r : Daily.t) : adr_key :=
  (Daily.date r, Daily.room_type r, Daily.arrangement r).

Definition adr_key_eqb (a b : adr_key) : bool :=
  let '(d1, t1, a1) := a in
  let '(d2, t2, a2) := b in
  (d1 =? d2) && Frame.opt_eqb String.eqb t1 t2 && Frame.opt_eqb String.eqb a1 a2.

(** Lexicographic order of the group keys, missing values last. *)
Definition adr_key_leb (a b : adr_key) : bool :=
  let '(d1, t1, a1) := a in
  let '(d2, t2, a2) := b in
  if d1 <? d2 then true
  else if d2 <? d1 then false
  else if Frame.opt_eqb String.eqb t1 t2 then Frame.opt_leb String.leb a1 a2
  else Frame.opt_leb String.leb t1 t2.

Definition sum_Q (l : list Q) : Q := fold_right Qplus 0%Q l.

Definition mean (l : list Q) : Q :=
  Qred (sum_Q l / inject_Z (Z.of_nat (List.length l))).

(** [adr_agg]: mean nightly rate of the paid rows with a rate, per
    (date, room_type, arrangement), keys in sorted order. *)
Definition adr_agg (excluded : list string) (daily : list Daily.t)
  : list (adr_key * Q) :=
  let adr_paid := filter (valid_rate_flag excluded) daily in
  let keys := Frame.sort_by adr_key_leb
                (Frame.unique adr_key_eqb (map key_of adr_paid)) in
  map (fun k =>
         (k, mean (Frame.dropna
                     (map Daily.nightly_rate
                          (filter (fun r => adr_key_eqb (key_of r) k) adr_paid)))))
      keys.

(** [arrangement.fillna("")]. *)
Definition fill_arrangement (a : option string) : string :=
  match a with Some s => s | None => ""%string end.

(** [adr_agg.merge(daily_occ_df, on="date", how="left")], with the columns
    renamed as in the final table. *)
Definition merge_row (k : adr_key) (avg : Q) (o : option DailyOcc.t) : Agg.t :=
  let '(d, rt, arr) := k in
  Agg.mk d rt (fill_arrangement arr) avg
         (option_map DailyOcc.daily_occupancy_rate o)
         (option_map DailyOcc.total_rooms_sold o)
         (option_map DailyOcc.total_rooms_blocked o)
         (option_map DailyOcc.total_rooms_maintenance o)
         (option_map DailyOcc.total_inventory o)
         (option_map DailyOcc.available_inventory o).

Definition merge_on_date (adr : list (adr_key * Q)) (daily_occ_df : list DailyOcc.t)
  : list Agg.t :=
  flat_map
    (fun ka : adr_key * Q =>
       let '(k, avg) := ka in
       match filter (fun o => DailyOcc.date o =? fst (fst k)) daily_occ_df with
       | [] => [merge_row k avg None]
       | ms => map (fun o => merge_row k avg (Some o)) ms
       end)
    adr.

(** Order of [sort_values(["Date", "Room Type"])]. *)
Definition agg_leb (a b : Agg.t) : bool :=
  if Agg.Date a <? Agg.Date b then true
  else if Agg.Date b <? Agg.Date a then false
  else Frame.opt_leb String.leb (Agg.Room_Type a) (Agg.Room_Type b).

(** [build_feature_dataset]. The calendar flag columns of the result
    (weekend, holiday, event, fasting) are lookups in the given date sets
    and are not part of this model. *)
Definition build_feature_dataset (source_df : list Stay.t)
    (excluded_segments : option (list string))
    (inventory_per_room_type : option (list (string * Z)))
    (maintenance_df : option (list Maint.t)) : list Agg.t :=
  let excluded := excluded_set excluded_segments in
  let daily := expand_stays_to_daily_rows source_df in
  match daily with
  | [] => []
  | _ =>
      let daily_occ_df :=
        daily_occ_data excluded inventory_per_room_type maintenance_df daily in
      let agg := merge_on_date (adr_agg excluded daily) daily_occ_df in
      Frame.sort_by agg_leb agg
  end.

(** ** forecast.py: calendar features *)

Module Cal.

(** One row of the daily frame the feature code works on. The occupancy
    column exists in the historical frame only. *)
Record t : Type := mk {
  Date : Z;
  Occupancy_Rate : option Q;
  Is_NationalHoliday : bool;
  Is_Weekend : bool;
  Is_Event : bool;
  Is_SchoolHoliday : bool
}.

End Cal.

Module Feat.

(** One row of the enriched frame. *)
Record t : Type := mk {
  Date : Z;
  Occupancy_Rate : option Q;
  Is_NationalHoliday : bool;
  Is_Weekend : bool;
  Is_Event : bool;
  Is_SchoolHoliday : bool;
  Is_Bridge : bool;
  Is_Holiday : bool;
  Holiday_Duration : Z;
  Days_of_Holiday : Z;
  Distance_to_Holiday : Z;
  Day_of_Week : Z;
  Day_of_Month : Z;
  Month : Z;
  Year : Z
}.

End Feat.

Module Np.

(** Element-wise operation on two arrays. *)
Fixpoint zip_with {A B C : Type} (f : A -> B -> C) (l1 : list A) (l2 : list B)
  : list C :=
  match l1, l2 with
  | x :: xs, y :: ys => f x y :: zip_with f xs ys
  | _, _ => []
  end.

Definition band : list bool -> list bool -> list bool := zip_with andb.
Definition bor : list bool -> list bool -> list bool := zip_with orb.
Definition bnot : list bool -> list bool := map negb.

(** [np.r_[False, a[:-1]]]: the left neighbour of every position. *)
Definition shift_right (a : list bool) : list bool := false :: removelast a.

(** [np.r_[a[1:], False]]: the right neighbour of every position. *)
Definition shift_left (a : list bool) : list bool := tl a ++ [false].

(** [(~a).cumsum()], starting from [acc]. *)
Fixpoint cumsum_not (acc : Z) (a : list bool) : list Z :=
  match a with
  | [] => []
  | h :: t => let acc' := if h then acc else acc + 1 in acc' :: cumsum_not acc' t
  end.

End Np.

Definition INF : Z := 10 ^ 9.

Arguments INF : simpl never.

Definition seed_of (r : Cal.t) : bool :=
  Cal.Is_NationalHoliday r || Cal.Is_Weekend r.

Definition is_bridge_of (seed_hol : list bool) : list bool :=
  let left_seed := Np.shift_right seed_hol in
  let right_seed := Np.shift_left seed_hol in
  Np.band (Np.band (Np.bnot seed_hol) left_seed) right_seed.

Definition base_of (is_nat is_br : list bool) : list bool := Np.bor is_nat is_br.

(** One expansion pass: weekend days next to a marked day. *)
Definition weekend_pass (is_we marked : list bool) : list bool :=
  let left_m := Np.shift_right marked in
  let right_m := Np.shift_left marked in
  Np.band is_we (Np.bor left_m right_m).

Definition is_holiday_final_of (is_nat is_we is_br : list bool) : list bool :=
  let base := base_of is_nat is_br in
  let wk1 := weekend_pass is_we base in
  let wk2 := weekend_pass is_we wk1 in
  Np.bor (Np.bor base wk1) wk2.

(** The first loop: distance back to the latest holiday seen so far. *)
Fixpoint dist_fwd_from (is_hol : list bool) (i last : Z) : list Z :=
  match is_hol with
  | [] => []
  | h :: t =>
      let last' := if h then i else last in
      (i - last') :: dist_fwd_from t (i + 1) last'
  end.

Definition dist_fwd (is_hol : list bool) : list Z := dist_fwd_from is_hol 0 (- INF).

(** The second loop runs from the last index down; the value of [last]
    after index [i] is returned with the distances from [i] on. *)
Fixpoint dist_bwd_from (is_hol : list bool) (i : Z) : list Z * Z :=
  match is_hol with
  | [] => ([], INF)
  | h :: t =>
      let '(rest, last) := dist_bwd_from t (i + 1) in
      let last' := if h then i else last in
      ((last' - i) :: rest, last')
  end.

Definition dist_bwd (is_hol : list bool) : list Z := fst (dist_bwd_from is_hol 0).

Definition distance_of (is_hol : list bool) : list Z :=
  let dist := Np.zip_with Z.min (dist_fwd is_hol) (dist_bwd is_hol) in
  Np.zip_with (fun (h : bool) d => if h then 0 else d) is_hol dist.

(** Block sizing: holiday positions are grouped by [block_id]; the size
    of the group and the 1-based rank in it are written to the holiday
    positions, the others keep 0. *)
Definition count_same (b : Z) (l : list (bool * Z)) : Z :=
  Z.of_nat (List.length (filter (fun hb : bool * Z => fst hb && (snd hb =? b)) l)).

Fixpoint block_columns_from (seen rest : list (bool * Z)) (total : list (bool * Z))
  : list (Z * Z) :=
  match rest with
  | [] => []
  | (h, b) :: t =>
      (if h then (count_same b total, count_same b seen + 1) else (0, 0))
        :: block_columns_from (seen ++ [(h, b)]) t total
  end.

Definition block_columns (is_holiday_final : list bool) : list (Z * Z) :=
  let block_id := Np.cumsum_not 0 is_holiday_final in
  let tagged := combine is_holiday_final block_id in
  block_columns_from [] tagged tagged.

(** The feature code shared, line for line, by
    [_build_enrich_calendar_features] and [_future_calendar_2026]. *)
Definition calendar_features (rows : list Cal.t) : list Feat.t :=
  let is_nat := map Cal.Is_NationalHoliday rows in
  let is_we := map Cal.Is_Weekend rows in
  let is_br := is_bridge_of (map seed_of rows) in
  let is_hol := is_holiday_final_of is_nat is_we is_br in
  let blocks := block_columns is_hol in
  let dist := distance_of is_hol in
  Np.zip_with
    (fun (r : Cal.t) (c : bool * bool * (Z * Z) * Z) =>
       let '(br, hol, (duration, days), dst) := c in
       let '(y, m, d) := Time.civil (Time.date (Cal.Date r)) in
       Feat.mk (Cal.Date r) (Cal.Occupancy_Rate r) (Cal.Is_NationalHoliday r)
               (Cal.Is_Weekend r) (Cal.Is_Event r) (Cal.Is_SchoolHoliday r)
               br hol duration days dst (Time.weekday (Cal.Date r)) d m y)
    rows
    (combine (combine (combine is_br is_hol) blocks) dist).

Module Hist.

(** One row of the historical daily frame handed to the feature builder. *)
Record t : Type := mk {
  Date : Z;
  Occupancy_Rate : option Q;
  Is_Holiday : bool;
  Is_Weekend : bool;
  Is_Event : bool;
  Is_SchoolHoliday : bool
}.

End Hist.

Definition lex (c1 c2 : comparison) : comparison :=
  match c1 with Eq => c2 | _ => c1 end.

Definition bool_compare (a b : bool) : comparison :=
  match a, b with
  | false, true => Lt
  | true, false => Gt
  | _, _ => Eq
  end.

Definition rate_compare (a b : option Q) : comparison :=
  match a, b with
  | Some x, Some y => Qcompare x y
  | Some _, None => Lt
  | None, Some _ => Gt
  | None, None => Eq
  end.

(** Order of the group keys of
    [groupby(['Date', 'Occupancy Rate', 'Is_Holiday', 'Is_Weekend',
    'Is_Event', 'Is_SchoolHoliday'])]. *)
Definition hist_compare (a b : Hist.t) : comparison :=
  lex (Hist.Date a ?= Hist.Date b)
   (lex (rate_compare (Hist.Occupancy_Rate a) (Hist.Occupancy_Rate b))
    (lex (bool_compare (Hist.Is_Holiday a) (Hist.Is_Holiday b))
     (lex (bool_compare (Hist.Is_Weekend a) (Hist.Is_Weekend b))
      (lex (bool_compare (Hist.Is_Event a) (Hist.Is_Event b))
           (bool_compare (Hist.Is_SchoolHoliday a) (Hist.Is_SchoolHoliday b)))))).

Definition hist_eqb (a b : Hist.t) : bool :=
  match hist_compare a b with Eq => true | _ => false end.

Definition hist_leb (a b : Hist.t) : bool :=
  match hist_compare a b with Gt => false | _ => true end.

(** The rename of [Is_Holiday] to [Is_NationalHoliday]. *)
Definition rename_holiday (r : Hist.t) : Cal.t :=
  Cal.mk (Hist.Date r) (Hist.Occupancy_Rate r) (Hist.Is_Holiday r)
         (Hist.Is_Weekend r) (Hist.Is_Event r) (Hist.Is_SchoolHoliday r).

(** One row per distinct combination of the six columns (rows with a
    missing key are left out by [groupby]), in the order of the group
    keys, then [sort_values('Date')]. That sort is on one column, where
    pandas uses a quicksort that need not keep the order of rows of one
    date: it is the argument [sort_values], of which the theorems ask only
    that it returns its rows in ascending order of [Date]. *)
Definition enrich_rows (sort_values : list Cal.t -> list Cal.t)
    (df : list Hist.t) : list Cal.t :=
  let present :=
    filter (fun r => match Hist.Occupancy_Rate r with Some _ => true | None => false end)
           df in
  let groups := Frame.sort_by hist_leb (Frame.unique hist_eqb present) in
  sort_values (map rename_holiday groups).

Definition _build_enrich_calendar_features (sort_values : list Cal.t -> list Cal.t)
    (df : list Hist.t) : list Feat.t :=
  calendar_features (enrich_rows sort_values df).

Module Holiday.

(** One row of the holiday table: the parsed date ([None] when it is
    [NaT]) and the text of the kind. *)
Record t : Type := mk {
  Date : option Z;
  Kind : string
}.

End Holiday.

Definition national_kinds : list string :=
  ["national"; "joint"; "national holiday"; "joint holiday"]%string.
Definition school_kinds : list string := ["school"; "school holiday"]%string.
Definition event_kinds : list string := ["event"]%string.

(** [holidays[holidays['Date'] == date]]. *)
Definition holiday_info (holidays : list Holiday.t) (date : Z) : list Holiday.t :=
  filter (fun h => match Holiday.Date h with Some t => t =? date | None => false end)
         holidays.

(** The body of the loop over [future_cal]. *)
Definition future_row (holidays : list Holiday.t) (date : Z) : Cal.t :=
  let is_weekend := 5 <=? Time.weekday date in
  let info := holiday_info holidays date in
  match info with
  | [] => Cal.mk date None false is_weekend false false
  | first :: _ =>
      let kind := Text.lower (Holiday.Kind first) in
      let is_nat := Text.mem kind national_kinds in
      let is_school := Text.mem kind school_kinds in
      let is_event := Text.mem kind event_kinds in
      Cal.mk date None is_nat is_weekend is_event is_school
  end.

Definition start_2026 (start_date : option Z) : Z :=
  match start_date with
  | None => Time.of_date (Time.ymd 2026 1 1)
  | Some s => s
  end.

Definition end_2026 : Z := Time.of_date (Time.ymd 2026 12 31).

Definition future_rows (holidays : list Holiday.t) (start_date : option Z)
  : list Cal.t :=
  map (future_row holidays) (Time.date_range (start_2026 start_date) end_2026).

(** [_future_calendar_2026]. With no date in range the frame built from
    the rows has no columns and the first column access raises: [None]. *)
Definition _future_calendar_2026 (holidays : list Holiday.t)
    (start_date : option Z) : option (list Feat.t) :=
  match future_rows holidays start_date with
  | [] => None
  | rows => Some (calendar_features rows)
  end.

(** ** forecast.py: the combiner *)

Module Df.

(** A cell. Numbers are rationals, integers among them; [VNull] stands
    for [None], [NaN] and [NaT]. *)
Inductive value : Type :=
| VNull
| VBool (b : bool)
| VNum (q : Q)
| VStr (s : string)
| VTime (t : Z).

(** A frame with named columns; every row lists its cells in column
    order. *)
Record frame : Type := mk {
  columns : list string;
  data : list (list value)
}.

(** The cell of row [vals] under label [k], if the column exists. *)
Fixpoint lookup (k : string) (cols : list string) (vals : list value)
  : option value :=
  match cols, vals with
  | c :: cs, v :: vs => if (k =? c)%string then Some v else lookup k cs vs
  | _, _ => None
  end.

(** [r.get(k, default)]; [r.get(k)] has default [None]. *)
Definition get_or (default : value) (cols : list string) (vals : list value)
    (k : string) : value :=
  match lookup k cols vals with Some v => v | None => default end.

Definition get (cols : list string) (vals : list value) (k : string) : value :=
  get_or VNull cols vals k.

(** Replace the cell under label [k]. *)
Fixpoint set (k : string) (v : value) (cols : list string) (vals : list value)
  : list value :=
  match cols, vals with
  | c :: cs, x :: xs => if (k =? c)%string then v :: xs else x :: set k v cs xs
  | _, _ => vals
  end.

(** [pd.to_datetime] of one cell. Dates are held parsed: a timestamp or a
    missing value passes; other cells are outside this model. *)
Definition to_datetime (v : value) : option value :=
  match v with
  | VTime t => Some (VTime t)
  | VNull => Some VNull
  | _ => None
  end.

(** All-or-nothing [map]. *)
Fixpoint traverse {A B : Type} (f : A -> option B) (l : list A) : option (list B) :=
  match l with
  | [] => Some []
  | x :: xs =>
      match f x, traverse f xs with
      | Some y, Some ys => Some (y :: ys)
      | _, _ => None
      end
  end.

(** [df['Date'] = pd.to_datetime(df['Date'])] on a copy; [None] when the
    column is missing. *)
Definition with_dates (df : frame) : option frame :=
  if Text.mem "Date" (columns df) then
    option_map (mk (columns df))
      (traverse (fun vals =>
                   option_map (fun d => set "Date" d (columns df) vals)
                              (to_datetime (get (columns df) vals "Date")))
                (data df))
  else None.

Definition value_eqb (a b : value) : bool :=
  match a, b with
  | VNull, VNull => true
  | VBool x, VBool y => Bool.eqb x y
  | VNum x, VNum y => Qeq_bool x y
  | VStr x, VStr y => String.eqb x y
  | VTime x, VTime y => x =? y
  | _, _ => false
  end.

End Df.

Import Df.

(** The columns of the combined table, in the order of the row literal. *)
Definition combined_columns : list string :=
  ["Date"; "Room Type"; "Average Room Rate"; "Occ"; "Forecasted ARR";
   "Forecasted Occ"; "Error ARR"; "Error Occ"; "Is_Holiday"; "Is_Weekend";
   "Is_SchoolHoliday"; "Is_Event"; "holiday_block_length"; "Is_Bridge"]%string.

(** The row appended for one historical row [r]. *)
Definition historical_row (cols : list string) (r : list value) : list value :=
  [ get cols r "Date";
    get cols r "Room Type";
    get cols r "Average Room Rate";
    get cols r "Occupancy Rate";
    get cols r "Average Room Rate";
    get cols r "Occupancy Rate";
    VNum 0;
    VNum 0;
    get_or (VBool false) cols r "Is_Holiday";
    get_or (VBool false) cols r "Is_Weekend";
    get_or (VBool false) cols r "Is_SchoolHoliday";
    get_or (VBool false) cols r "Is_Event";
    VNum 0;
    VBool false ].

(** The row appended for one row [r] of the merged forecast frame. *)
Definition forecast_row (cols : list string) (r : list value) : list value :=
  [ get cols r "Date";
    get cols r "Room Type";
    VNull;
    VNull;
    get cols r "Forecasted_ARR";
    get cols r "Forecasted_Occ";
    VNull;
    VNull;
    get cols r "Is_Holiday";
    get cols r "Is_Weekend";
    get cols r "Is_SchoolHoliday";
    get cols r "Is_Event";
    get_or (VNum 0) cols r "holiday_block_length";
    get_or (VBool false) cols r "Is_Bridge" ].

(** The cells of a right row that the merge appends: all but the key. *)
Fixpoint without_date (cols : list string) (vals : list value) : list value :=
  match cols, vals with
  | c :: cs, v :: vs =>
      if (c =? "Date")%string then without_date cs vs else v :: without_date cs vs
  | _, _ => []
  end.

(** [arr.merge(occ, on='Date', how='left', suffixes=('', '_occ'))]. *)
Definition merge_left_on_date (arr occ : frame) : frame :=
  let right_cols := filter (fun c => negb (c =? "Date")%string) (columns occ) in
  let renamed :=
    map (fun c => if Text.mem c (columns arr) then (c ++ "_occ")%string else c)
        right_cols in
  let missing := map (fun _ => VNull) right_cols in
  mk (columns arr ++ renamed)
     (flat_map
        (fun a =>
           match filter (fun o => value_eqb (get (columns occ) o "Date")
                                            (get (columns arr) a "Date"))
                        (data occ) with
           | [] => [a ++ missing]
           | ms => map (fun o => a ++ without_date (columns occ) o) ms
           end)
        (data arr)).

(** The rows of the first loop, or [None] where the code raises. *)
Definition historical_part (historical_df : frame) : option (list (list value)) :=
  option_map (fun hist_df => map (historical_row (columns hist_df)) (data hist_df))
             (with_dates historical_df).

(** The rows of the second loop, or [None] where the code raises. *)
Definition forecast_part (occupancy_forecast arr_forecast : frame)
  : option (list (list value)) :=
  match with_dates occupancy_forecast, with_dates arr_forecast with
  | Some occ, Some arr =>
      let merged := merge_left_on_date arr occ in
      Some (map (forecast_row (columns merged)) (data merged))
  | _, _ => None
  end.

(** Sort key of [sort_values(['Date', 'Room Type'])]: missing values
    last. Room types are text or missing; other kinds are outside this
    model. *)
Definition sort_key (r : list value) : option (option Z * option string) :=
  match get combined_columns r "Date", get combined_columns r "Room Type" with
  | VTime t, VStr s => Some (Some t, Some s)
  | VTime t, VNull => Some (Some t, None)
  | VNull, VStr s => Some (None, Some s)
  | VNull, VNull => Some (None, None)
  | _, _ => None
  end.

Definition opt_ltb (a b : option Z) : bool :=
  match a, b with
  | Some x, Some y => x <? y
  | Some _, None => true
  | None, _ => false
  end.

Definition key_leb (a b : option Z * option string) : bool :=
  if opt_ltb (fst a) (fst b) then true
  else if opt_ltb (fst b) (fst a) then false
  else Frame.opt_leb String.leb (snd a) (snd b).

Definition row_leb (a b : list value) : bool :=
  match sort_key a, sort_key b with
  | Some ka, Some kb => key_leb ka kb
  | _, _ => true
  end.

(** [combine_forecasts]. With no row at all the combined frame has no
    columns and the sort raises. *)
Definition combine_forecasts (occupancy_forecast arr_forecast historical_df : frame)
  : option frame :=
  match historical_part historical_df,
        forecast_part occupancy_forecast arr_forecast with
  | Some hist_rows, Some fc_rows =>
      let final_rows := hist_rows ++ fc_rows in
      match final_rows with
      | [] => None
      | _ =>
          if forallb (fun r => match sort_key r with Some _ => true | None => false end)
                     final_rows
          then Some (mk combined_columns (Frame.sort_by row_leb final_rows))
          else None
      end
  | _, _ => None
  end.

(** ** data_extraction.py: the overall occupancy series *)

(** A column sum; missing cells are skipped. *)
Definition sum_present (l : list (option Z)) : Z := sum_Z (Frame.dropna l).

(** [Series.clip(0.0, 1.0)] of one value. *)
Definition clip01 (x : Q) : Q :=
  if Qle_bool x 0 then 0%Q else if Qle_bool 1 x then 1%Q else x.

(** [(sold / available).clip(0.0, 1.0)] of one row. A division by zero
    does not raise: 0/0 is missing, and the infinities are clipped. *)
Definition overall_ratio (sold available : Z) : option Q :=
  if available =? 0 then
    if sold =? 0 then None
    else if 0 <? sold then Some 1%Q else Some 0%Q
  else Some (clip01 (Qred (inject_Z sold / inject_Z available))).

(** [build_overall_occupancy_series], on the rows of the dataset file,
    taken to hold the aggregate table as [build_feature_dataset] returned
    it: per date, in date order, the summed rooms sold over the summed
    available inventory. *)
Definition build_overall_occupancy_series (df : list Agg.t)
  : list (Z * option Q) :=
  let dates := Frame.sort_by Z.leb (Frame.unique Z.eqb (map Agg.Date df)) in
  map (fun d =>
         let rows := filter (fun r => Agg.Date r =? d) df in
         (d, overall_ratio (sum_present (map Agg.Rooms_Sold rows))
                           (sum_present (map Agg.Available_Inventory rows))))
      dates.

(** ** forecast.py: the dates that are forecast *)

(** [pd.to_datetime(enrich['Date'].max()) + pd.Timedelta(days=1)]; there
    is none for an empty frame. *)
Definition latest_hist_date (enrich : list Feat.t) : option Z :=
  match map Feat.Date enrich with
  | [] => None
  | d :: ds => Some (fold_left Z.max ds d + Time.day_ns)
  end.

(** The calendar [ml_predict_occupancy_and_arr] predicts on: the enriched
    history, then the future calendar from the day after its latest date.
    Fitting the regressors, which are not part of this model, fails on a
    history without rows: [None]. *)
Definition forecast_calendar (sort_values : list Cal.t -> list Cal.t)
    (hist_df : list Hist.t) (holidays : list Holiday.t)
  : option (list Feat.t) :=
  match latest_hist_date (_build_enrich_calendar_features sort_values hist_df) with
  | None => None
  | Some start => _future_calendar_2026 holidays (Some start)
  end.

(** ** Sample data and specification predicates *)

(** The reservation of the scenario: room 101, Deluxe, arriving 2024-01-01,
    leaving 2024-01-03, at rate 100. *)
Definition scenario_stay : Stay.t :=
  Stay.mk (Some "101"%string) (Stay.Str "Deluxe") (Some "RB"%string)
          (Some (Time.of_date (Time.ymd 2024 1 1)))
          (Some (Time.of_date (Time.ymd 2024 1 3)))
          (Some 100%Q) (Some "FIT"%string).


(** A stay whose room type is outside the first-letter table. *)
Definition presidential_stay : Stay.t :=
  Stay.mk (Some "900"%string) (Stay.Str " Presidential ") (Some "RO"%string)
          (Some (Time.of_date (Time.ymd 2024 1 1)))
          (Some (Time.of_date (Time.ymd 2024 1 2)))
          (Some 500%Q) (Some "FIT"%string).

(** The aggregate row of [presidential_stay]. *)
Definition presidential_row : Agg.t :=
  Agg.mk (Time.ymd 2024 1 1) (Some "Presidential"%string) "RO" 500%Q
         (Some 1%Q) (Some 2) (Some 0) (Some 0) (Some 2) (Some 2).


(** "[n] is the count of distinct room identifiers of the rows of [daily]
    dated [d] that satisfy [p]": [n] is the length of a duplicate-free
    list holding exactly those identifiers. *)
Definition distinct_rooms (p : Daily.t -> bool) (daily : list Daily.t)
    (d : Z) (n : Z) : Prop :=
  exists ids : list string,
    NoDup ids /\
    (forall x, In x ids <->
               exists r, In r daily /\ Daily.date r = d /\ p r = true /\
                         Daily.room_number r = Some x) /\
    n = Z.of_nat (List.length ids).

(** One night, 2024-01-01: rooms 101 to 108 sold, room 109 given away
    complimentary, one room out of order, ten rooms in the inventory. *)
Definition one_night (room seg : string) : Stay.t :=
  Stay.mk (Some room) (Stay.Str "Deluxe") (Some "RB"%string)
          (Some (Time.of_date (Time.ymd 2024 1 1)))
          (Some (Time.of_date (Time.ymd 2024 1 2)))
          (Some 100%Q) (Some seg).

Definition full_house : list Stay.t :=
  map (fun room => one_night room "FIT")
      ["101"; "102"; "103"; "104"; "105"; "106"; "107"; "108"]%string
  ++ [one_night "109" "comp"].

Definition full_house_inventory : option (list (string * Z)) :=
  Some [("Deluxe", 8); ("Suite", 2)]%string.

Definition full_house_maintenance : option (list Maint.t) :=
  Some [Maint.mk (Time.of_date (Time.ymd 2024 1 1)) "Deluxe" 1].

(** The aggregate row of [scenario_stay] on its first night, in the table
    built from [scenario_stay] and [presidential_stay]. *)
Definition deluxe_row : Agg.t :=
  Agg.mk (Time.ymd 2024 1 1) (Some "Deluxe"%string) "RB" 100%Q
         (Some 1%Q) (Some 2) (Some 0) (Some 0) (Some 2) (Some 2).

(** The calendar flags, position by position, in the words of the
    specification. Positions outside the sequence carry no flag. *)
Module CalSpec.

Section Flags.
Variable rows : list Cal.t.

Definition national (i : nat) : bool :=
  match nth_error rows i with Some r => Cal.Is_NationalHoliday r | None => false end.

Definition weekend (i : nat) : bool :=
  match nth_error rows i with Some r => Cal.Is_Weekend r | None => false end.

(** A seed day: a national holiday or a weekend day. *)
Definition seed (i : nat) : bool := national i || weekend i.

(** The flag of the position just before, and just after. *)
Definition prev (f : nat -> bool) (i : nat) : bool :=
  match i with O => false | S j => f j end.

Definition next (f : nat -> bool) (i : nat) : bool := f (S i).

(** Not a seed day, and both neighbours are seed days. *)
Definition bridge (i : nat) : bool :=
  negb (seed i) && prev seed i && next seed i.

Definition base (i : nat) : bool := national i || bridge i.

(** A weekend day next to a base day. *)
Definition pass1 (i : nat) : bool := weekend i && (prev base i || next base i).

(** A weekend day next to a day marked by the first pass. *)
Definition pass2 (i : nat) : bool := weekend i && (prev pass1 i || next pass1 i).

End Flags.

(** Column [c] of length [n] holds [f i] at every position [i]. *)
Definition agrees (n : nat) (c : list bool) (f : nat -> bool) : Prop :=
  List.length c = n /\ forall i, (i < n)%nat -> nth i c false = f i.

(** [f] carries no flag from position [n] on. *)
Definition vanishes (n : nat) (f : nat -> bool) : Prop :=
  forall i, (n <= i)%nat -> f i = false.


(** The final holiday flag of position [i] of the enriched frame. *)
Definition holiday_at (rows : list Cal.t) (i : nat) : bool :=
  match nth_error (calendar_features rows) i with
  | Some r => Feat.Is_Holiday r
  | None => false
  end.

(** A contiguous daily sequence of timestamps: each row is one day after
    the row before it, and every date is a 64-bit nanosecond count, as a
    pandas [Timestamp] is. *)
Definition contiguous_daily (rows : list Cal.t) : Prop :=
  (forall i a b,
      nth_error rows i = Some a -> nth_error rows (S i) = Some b ->
      Cal.Date b = Cal.Date a + Time.day_ns) /\
  (forall a, In a rows -> - 2 ^ 63 < Cal.Date a < 2 ^ 63).

End CalSpec.

(** Three days: a holiday, an ordinary day, a holiday. *)
Definition plain_day (d : Z) (national weekend : bool) : Cal.t :=
  Cal.mk (Time.of_date d) None national weekend false false.

Definition sandwich : list Cal.t :=
  [ plain_day (Time.ymd 2025 9 2) true false;
    plain_day (Time.ymd 2025 9 3) false false;
    plain_day (Time.ymd 2025 9 4) true false ].

(** A Wednesday national holiday followed by a run of weekend-flagged
    days: the flag reaches the first two of them and stops. *)
Definition long_weekend : list Cal.t :=
  [ plain_day 0 false false;
    plain_day 1 true false;
    plain_day 2 false true;
    plain_day 3 false true;
    plain_day 4 false true;
    plain_day 5 false true ].

(** Distances to the nearest holiday, in the words of the specification.
    [hol] is the final holiday flag by position. *)
Module DistSpec.

(** [back] is the distance from position [i] back to the most recent
    holiday at or before it, or a sentinel of at least [INF] when there is
    none. *)
Definition back_distance (hol : nat -> bool) (i : nat) (back : Z) : Prop :=
  (exists j, (j <= i)%nat /\ hol j = true /\
             (forall m, (j < m <= i)%nat -> hol m = false) /\
             back = Z.of_nat i - Z.of_nat j) \/
  ((forall m, (m <= i)%nat -> hol m = false) /\ back = Z.of_nat i + INF).

(** [ahead] is the distance from position [i] on to the next holiday at
    or after it, or the sentinel [INF - i] when there is none. *)
Definition ahead_distance (hol : nat -> bool) (i : nat) (ahead : Z) : Prop :=
  (exists j, (i <= j)%nat /\ hol j = true /\
             (forall m, (i <= m < j)%nat -> hol m = false) /\
             ahead = Z.of_nat j - Z.of_nat i) \/
  ((forall m, (i <= m)%nat -> hol m = false) /\ ahead = INF - Z.of_nat i).

End DistSpec.

(** A week around a Wednesday national holiday, 2025-09-03. *)
Definition midweek : list Cal.t :=
  [ plain_day (Time.ymd 2025 9 1) false false;
    plain_day (Time.ymd 2025 9 2) false false;
    plain_day (Time.ymd 2025 9 3) true false;
    plain_day (Time.ymd 2025 9 4) false false;
    plain_day (Time.ymd 2025 9 5) false false ].

(** The last day of 2026 listed twice in the holiday table, as a school
    holiday first and as a national holiday second. *)
Definition year_end_holidays : list Holiday.t :=
  [ Holiday.mk (Some (Time.of_date (Time.ymd 2026 12 31))) "School";
    Holiday.mk (Some (Time.of_date (Time.ymd 2026 12 31))) "National";
    Holiday.mk None "event" ].

Definition year_end_start : option Z := Some (Time.of_date (Time.ymd 2026 12 30)).

(** The calendar row of 2026-12-31 built from [year_end_holidays]. *)
Definition year_end_row : Feat.t :=
  Feat.mk (Time.of_date (Time.ymd 2026 12 31)) None false false false true
          false false 0 0 999999999 3 31 12 2026.

(** Number of flags set among three. *)
Definition flags_set (a b c : bool) : nat :=
  ((if a then 1 else 0) + (if b then 1 else 0) + (if c then 1 else 0))%nat.

(** The row of the combined table with its two occupancy cells emptied. *)
Definition null_occ (r : list value) : list value :=
  Df.set "Occ" VNull combined_columns
         (Df.set "Forecasted Occ" VNull combined_columns r).

(** A cell that [pd.to_datetime] leaves as it is. *)
Definition is_date (v : value) : Prop := v = VNull \/ exists t, v = VTime t.

Definition has_key (r : list value) : Prop := sort_key r <> None.

(** A frame with a Date column and no row. *)
Definition empty_forecast : frame := Df.mk ["Date"; "Room Type"]%string [].

(** One historical row, with an occupancy and with bridge and block
    columns of its own. *)
Definition history_sample : frame :=
  Df.mk ["Date"; "Room Type"; "Average Room Rate"; "Occupancy Rate";
         "Is_Holiday"; "Is_Weekend"; "Is_SchoolHoliday"; "Is_Event";
         "holiday_block_length"; "Is_Bridge"]%string
        [[VTime (Time.of_date (Time.ymd 2025 9 3)); VStr "Deluxe"; VNum 100;
          VNum (1 # 2); VBool true; VBool false; VBool false; VBool false;
          VNum 3; VBool true]].

(** The combined row of [history_sample]. *)
Definition history_combined_row : list value :=
  [VTime (Time.of_date (Time.ymd 2025 9 3)); VStr "Deluxe"; VNum 100;
   VNum (1 # 2); VNum 100; VNum (1 # 2); VNum 0; VNum 0;
   VBool true; VBool false; VBool false; VBool false; VNum 0; VBool false].

(** A forecast for 2026-01-02, a bridge day in a block of three. *)
Definition arr_sample : frame :=
  Df.mk ["Date"; "Room Type"; "Forecasted_ARR"; "Predicted_Occupancy";
         "Is_Holiday"; "Is_Weekend"; "Is_SchoolHoliday"; "Is_Event";
         "Is_Bridge"; "holiday_block_length"]%string
        [[VTime (Time.of_date (Time.ymd 2026 1 2)); VStr "Deluxe"; VNum 120;
          VNum (3 # 4); VBool true; VBool false; VBool false; VBool false;
          VBool true; VNum 3]].

Definition occ_sample : frame :=
  Df.mk ["Date"; "Forecasted_Occ"; "Is_Holiday"; "Is_Weekend";
         "Is_SchoolHoliday"; "Is_Event"]%string
        [[VTime (Time.of_date (Time.ymd 2026 1 2)); VNum (3 # 4); VBool true;
          VBool false; VBool false; VBool false]].

(** The combined row of that forecast. *)
Definition forecast_combined_row : list value :=
  [VTime (Time.of_date (Time.ymd 2026 1 2)); VStr "Deluxe"; VNull; VNull;
   VNum 120; VNum (3 # 4); VNull; VNull;
   VBool true; VBool false; VBool false; VBool false; VNum 3; VBool true].


(** Row [a] may stand before row [b] in the combined table: if [b] has a
    date then [a] has one too and it is not later, and on the same date
    with [b]'s room type a text, [a]'s is a text that is not greater. *)
Definition stands_before (a b : list value) : Prop :=
  forall tb,
    Df.get combined_columns b "Date" = VTime tb ->
    exists ta,
      Df.get combined_columns a "Date" = VTime ta /\ ta <= tb /\
      (ta = tb ->
       forall sb,
         Df.get combined_columns b "Room Type" = VStr sb ->
         exists sa, Df.get combined_columns a "Room Type" = VStr sa /\
                    String.leb sa sb = true).

(** A room type cell the sort can handle: a text or a missing value. *)
Definition text_or_missing (v : value) : Prop := v = VNull \/ exists s, v = VStr s.

(** The frame has a Date column and every row a date in it. *)
Definition dated (df : frame) : Prop :=
  Text.mem "Date" (columns df) = true /\
  forall v, In v (data df) ->
            exists d, Df.lookup "Date" (columns df) v = Some d /\ is_date d.

(** Every row has a room type cell, a text or missing. *)
Definition typed_rooms (df : frame) : Prop :=
  forall v, In v (data df) ->
            exists t, Df.lookup "Room Type" (columns df) v = Some t /\
                      text_or_missing t.

(** Every row of the frame has one cell per column. *)
Definition rectangular (df : frame) : Prop :=
  forall v, In v (data df) -> List.length v = List.length (columns df).

(** Rows [o] and [a] carry the same date. *)
Definition same_date (occ arr : frame) (o a : list value) : bool :=
  value_eqb (Df.get (columns occ) o "Date") (Df.get (columns arr) a "Date").

(** The date cells of a frame, row by row. *)
Definition date_cells (df : frame) : list value :=
  map (fun v => Df.get (columns df) v "Date") (data df).

(** A three-way comparison that orders its arguments: swapping them
    reverses the result, equal arguments compare alike, and "less" is
    transitive. *)
Definition ordering {A : Type} (cmp : A -> A -> comparison) : Prop :=
  (forall a b, cmp b a = CompOpp (cmp a b)) /\
  (forall a b c, cmp a b = Eq -> cmp a c = cmp b c) /\
  (forall a b c, cmp a b = Lt -> cmp b c = Lt -> cmp a c = Lt).

(** The historical row has an occupancy rate. *)
Definition rated (r : Hist.t) : Prop := Hist.Occupancy_Rate r <> None.

(** Two days of history, the first listed once per room type, and a day
    without a rate. *)
Definition hist_days : list Hist.t :=
  [ Hist.mk (Time.of_date (Time.ymd 2025 9 2)) (Some (1 # 2)) false false false false;
    Hist.mk (Time.of_date (Time.ymd 2025 9 1)) (Some (3 # 4)) false false false false;
    Hist.mk (Time.of_date (Time.ymd 2025 9 2)) (Some (2 # 4)) false false false false;
    Hist.mk (Time.of_date (Time.ymd 2025 9 3)) None false false false false ].

(** What the theorems ask of [sort_values('Date')]: the same rows, in
    ascending order of date. *)
Definition sorts_by_date (sort_values : list Cal.t -> list Cal.t) : Prop :=
  forall l, Permutation (sort_values l) l /\
            StronglySorted (fun a b => Cal.Date a <= Cal.Date b) (sort_values l).

(** One such sort: insertion by date, which keeps the order of rows of
    one date. *)
Definition insertion_by_date : list Cal.t -> list Cal.t :=
  Frame.sort_by (fun a b => Cal.Date a <=? Cal.Date b).

(** Another: the same with rows of one date in the opposite order. *)
Definition insertion_by_date_rev (l : list Cal.t) : list Cal.t :=
  Frame.sort_by (fun a b => Cal.Date a <=? Cal.Date b) (rev l).

(** One night with rooms 101, 102 and 103 sold, an inventory map without
    entries and a maintenance row of quantity -5. *)
Definition three_rooms : list Stay.t :=
  map (fun room => one_night room "FIT") ["101"; "102"; "103"]%string.

Definition empty_inventory : option (list (string * Z)) := Some [].

Definition negative_maintenance : option (list Maint.t) :=
  Some [Maint.mk (Time.of_date (Time.ymd 2024 1 1)) "Deluxe" (-5)].

(** The inventory as C1 words it: the sum of the map when a map is
    supplied, else the count of distinct rooms seen. *)
Definition stated_inventory (inv : option (list (string * Z))) (seen : Z) : Z :=
  match inv with
  | Some m => sum_Z (map snd m)
  | None => seen
  end.

(** The rate as C1 words it. *)
Definition stated_rate (sold blocked maintenance inventory : Z) : Q :=
  Qmin 1 (inject_Z sold / inject_Z (Z.max 1 (inventory - blocked - maintenance))).

(** One date listed with two different occupancy rates. *)
Definition hist_tie : list Hist.t :=
  [ Hist.mk (Time.of_date (Time.ymd 2025 9 1)) (Some (1 # 4)) false false false false;
    Hist.mk (Time.of_date (Time.ymd 2025 9 1)) (Some (3 # 4)) false false false false ].
(** * Properties *)

Module TimeFacts.
Import Time.

Lemma day_ns_pos : 0 < day_ns.
Proof. reflexivity. Qed.

Lemma date_of_date d : date (of_date d) = d.
Proof. unfold date, of_date. apply Z.div_mul. discriminate. Qed.

Lemma date_normalize t : date (normalize t) = date t.
Proof. unfold date, normalize. apply Z.div_mul. discriminate. Qed.




Example ymd_epoch : ymd 1970 1 1 = 0.
Proof. reflexivity. Qed.

Example ymd_2024_01_01 : ymd 2024 1 1 = 19723 /\ weekday_of_date (ymd 2024 1 1) = 0.
Proof. split; reflexivity. Qed.

End TimeFacts.

Module TextFacts.
Import Text.

Lemma mem_In s l : mem s l = true <-> In s l.
Proof.
  unfold mem. rewrite existsb_exists. split.
  - intros [x [Hx He]]. apply String.eqb_eq in He. now subst.
  - intros H. exists s. split; [exact H | apply String.eqb_refl].
Qed.

Example strip_ex : strip "  deluxe king  " = "deluxe king"%string.
Proof. reflexivity. Qed.

Example upper_ex : upper "Comp" = "COMP"%string /\ lower "National" = "national"%string.
Proof. split; reflexivity. Qed.

End TextFacts.

(** ** Facts about the pandas helpers *)

Module FrameFacts.
Import Frame.

Section Unique.
Context {A : Type} (eqb : A -> A -> bool).
Hypothesis eqb_eq : forall x y, eqb x y = true <-> x = y.

Lemma existsb_eqb_In x l : existsb (eqb x) l = true <-> In x l.
Proof.
  rewrite existsb_exists. split.
  - intros [y [Hy He]]. apply eqb_eq in He. now subst.
  - intros H. exists x. split; [exact H | now apply eqb_eq].
Qed.

Lemma In_unique_from x seen l :
  In x (unique_from eqb seen l) <-> In x l /\ ~ In x seen.
Proof.
  revert seen. induction l as [|y ys IH]; intros seen; simpl.
  - tauto.
  - destruct (existsb (eqb y) seen) eqn:E.
    + apply existsb_eqb_In in E. rewrite IH. split.
      * intros [H1 H2]. auto.
      * intros [[->|H1] H2]; [contradiction | auto].
    + assert (Hn : ~ In y seen).
      { intros H. apply existsb_eqb_In in H. congruence. }
      simpl. rewrite IH. simpl. split.
      * intros [->|[H1 H2]]; auto.
      * intros [[->|H1] H2]; auto.
        destruct (eqb y x) eqn:Eyx.
        -- apply eqb_eq in Eyx. auto.
        -- right. split; auto. intros [->|H3]; auto.
           assert (eqb x x = true) by now apply eqb_eq. congruence.
Qed.

Lemma NoDup_unique_from seen l : NoDup (unique_from eqb seen l).
Proof.
  revert seen. induction l as [|y ys IH]; intros seen; simpl.
  - constructor.
  - destruct (existsb (eqb y) seen); [apply IH|].
    constructor; [|apply IH].
    rewrite In_unique_from. simpl. tauto.
Qed.

Lemma In_unique x l : In x (unique eqb l) <-> In x l.
Proof. unfold unique. rewrite In_unique_from. simpl. tauto. Qed.

Lemma NoDup_unique l : NoDup (unique eqb l).
Proof. apply NoDup_unique_from. Qed.

End Unique.

Section Sort.
Context {A : Type} (leb : A -> A -> bool).

Lemma In_insert_sorted x y l : In x (insert_sorted leb y l) <-> x = y \/ In x l.
Proof.
  induction l as [|z zs IH]; simpl.
  - intuition.
  - destruct (leb y z); simpl; rewrite ?IH; intuition.
Qed.

Lemma In_sort_by x l : In x (sort_by leb l) <-> In x l.
Proof.
  induction l as [|y ys IH]; simpl; [tauto|].
  rewrite In_insert_sorted, IH. intuition.
Qed.

Lemma length_insert_sorted y l :
  List.length (insert_sorted leb y l) = S (List.length l).
Proof.
  induction l as [|z zs IH]; simpl; [reflexivity|].
  destruct (leb y z); simpl; congruence.
Qed.

Lemma length_sort_by l : List.length (sort_by leb l) = List.length l.
Proof.
  induction l as [|y ys IH]; simpl; [reflexivity|].
  rewrite length_insert_sorted. congruence.
Qed.

End Sort.

Lemma In_dropna {A : Type} (x : A) l : In x (dropna l) <-> In (Some x) l.
Proof.
  induction l as [|[y|] ys IH]; simpl.
  - tauto.
  - rewrite IH. split; [intros [->|H]; auto | intros [H|H]; [left; congruence | auto]].
  - rewrite IH. split; [auto | intros [H|H]; [discriminate | auto]].
Qed.

Lemma Zeqb_eq x y : (x =? y) = true <-> x = y.
Proof. apply Z.eqb_eq. Qed.

End FrameFacts.

(** ** Expansion of stays into daily rows *)

Module ExpandFacts.
Import TimeFacts.







End ExpandFacts.

Example expand_scenario :
  expand_stays_to_daily_rows [scenario_stay] =
  [ Daily.mk (Time.ymd 2024 1 1) (Some "Deluxe"%string) (Some "RB"%string)
             (Some "101"%string) (Some "FIT"%string) (Some 100%Q);
    Daily.mk (Time.ymd 2024 1 2) (Some "Deluxe"%string) (Some "RB"%string)
             (Some "101"%string) (Some "FIT"%string) (Some 100%Q) ].
Proof. vm_compute. reflexivity. Qed.




(** ** The daily aggregate table *)

Module AggFacts.
Import FrameFacts.

Lemma opt_eqb_string_eq (a b : option string) :
  Frame.opt_eqb String.eqb a b = true <-> a = b.
Proof.
  destruct a as [x|], b as [y|]; simpl; try (split; [discriminate|congruence]).
  - rewrite String.eqb_eq. split; congruence.
  - tauto.
Qed.

Lemma adr_key_eqb_eq (a b : adr_key) : adr_key_eqb a b = true <-> a = b.
Proof.
  destruct a as [[d1 t1] a1], b as [[d2 t2] a2]. unfold adr_key_eqb.
  rewrite !andb_true_iff, Z.eqb_eq, !opt_eqb_string_eq.
  split; [intros [[-> ->] ->]; reflexivity | intros H; inversion H; auto].
Qed.


(** Where a row of the rate aggregation comes from. *)
Lemma In_adr_agg excluded daily k avg :
  In (k, avg) (adr_agg excluded daily) ->
  exists dr, In dr daily /\ valid_rate_flag excluded dr = true /\ key_of dr = k.
Proof.
  unfold adr_agg. intros H. apply in_map_iff in H.
  destruct H as [k' [Hk' H]]. injection Hk' as Hk1 Hk2. subst k'.
  apply (proj1 (In_sort_by _ _ _)) in H.
  apply (proj1 (In_unique adr_key_eqb adr_key_eqb_eq _ _)) in H.
  apply in_map_iff in H. destruct H as [dr [Hdr H]].
  apply filter_In in H. destruct H as [Hin Hflag]. eauto.
Qed.

(** Where a row of the merged table comes from. *)
Lemma In_merge_on_date r adr occ :
  In r (merge_on_date adr occ) ->
  exists k avg,
    In (k, avg) adr /\
    ((filter (fun o => DailyOcc.date o =? fst (fst k)) occ = [] /\
      r = merge_row k avg None) \/
     (exists o, In o occ /\ DailyOcc.date o = fst (fst k) /\
                r = merge_row k avg (Some o))).
Proof.
  unfold merge_on_date. intros H. apply in_flat_map in H.
  destruct H as [[k avg] [Hk H]]. exists k, avg. split; [exact Hk|].
  destruct (filter (fun o => DailyOcc.date o =? fst (fst k)) occ) as [|m ms] eqn:E.
  - left. destruct H as [<-|[]]. auto.
  - right. apply in_map_iff in H. destruct H as [o [<- Ho]].
    rewrite <- E in Ho. apply filter_In in Ho. destruct Ho as [Ho1 Ho2].
    apply Z.eqb_eq in Ho2. eauto.
Qed.

Lemma merge_row_fields k avg o :
  Agg.Date (merge_row k avg o) = fst (fst k) /\
  Agg.Room_Type (merge_row k avg o) = snd (fst k) /\
  Agg.Occupancy_Rate (merge_row k avg o) =
    option_map DailyOcc.daily_occupancy_rate o.
Proof. destruct k as [[d t] a]. repeat split. Qed.

(** Every row of the aggregate table stems from a paid daily row with a
    rate, and takes its occupancy columns from the entry of its date. *)
Lemma In_build r src excl inv maint :
  In r (build_feature_dataset src excl inv maint) ->
  let excluded := excluded_set excl in
  let daily := expand_stays_to_daily_rows src in
  exists dr,
    In dr daily /\ valid_rate_flag excluded dr = true /\
    Agg.Date r = Daily.date dr /\ Agg.Room_Type r = Daily.room_type dr /\
    Agg.Occupancy_Rate r =
      Some (DailyOcc.daily_occupancy_rate
              (daily_occ_entry excluded inv maint daily (Agg.Date r))).
Proof.
  intros H excluded daily. unfold build_feature_dataset in H.
  fold daily in H. fold excluded in H.
  assert (H' : In r (merge_on_date (adr_agg excluded daily)
                        (daily_occ_data excluded inv maint daily))).
  { destruct daily; [contradiction|]. now apply (proj1 (In_sort_by _ _ _)) in H. }
  clear H. apply In_merge_on_date in H'.
  destruct H' as [k [avg [Hk Hr]]].
  apply In_adr_agg in Hk. destruct Hk as [dr [Hdr [Hv Hkey]]].
  exists dr. split; [exact Hdr|]. split; [exact Hv|].
  destruct (merge_row_fields k avg None) as [Fd0 [Ft0 Fo0]].
  assert (Hd : fst (fst k) = Daily.date dr) by (now subst k).
  assert (Ht : snd (fst k) = Daily.room_type dr) by (now subst k).
  destruct Hr as [[Hnil ->]|[o [Ho [Hod ->]]]].
  - exfalso.
    assert (Hin : In (daily_occ_entry excluded inv maint daily (Daily.date dr))
                     (filter (fun o => DailyOcc.date o =? fst (fst k))
                             (daily_occ_data excluded inv maint daily))).
    { apply filter_In. split.
      - unfold daily_occ_data. apply in_map.
        apply (In_unique Z.eqb Zeqb_eq). now apply in_map.
      - simpl. rewrite Hd. apply Z.eqb_refl. }
    rewrite Hnil in Hin. contradiction.
  - destruct (merge_row_fields k avg (Some o)) as [Fd [Ft Fo]].
    rewrite Fd, Ft, Fo. repeat split; try assumption.
    simpl. unfold daily_occ_data in Ho. apply in_map_iff in Ho.
    destruct Ho as [d' [<- _]]. simpl in Hod. now subst d'.
Qed.

End AggFacts.

(** ** Room types *)

Module RoomFacts.

Lemma map_room_type_category raw m :
  _map_room_type raw = Some m -> In m room_categories.
Proof.
  unfold _map_room_type, room_categories.
  destruct raw as [|s|r]; try discriminate.
  destruct (String.length s =? 0)%nat; [discriminate|].
  repeat match goal with
         | |- (if ?c then _ else _) = Some _ -> _ => destruct c
         end;
    intros H; inversion H; simpl; auto 6.
Qed.

Lemma final_room_cases raw rt :
  final_room raw = Some rt ->
  In rt room_categories \/
  (_map_room_type raw = None /\ Stay.notna raw = true /\
   rt = Text.strip (Stay.str raw) /\ rt <> ""%string).
Proof.
  unfold final_room.
  destruct (_map_room_type raw) as [m|] eqn:E.
  - intros H. inversion H; subst. left. eapply map_room_type_category; eauto.
  - destruct (Stay.notna raw) eqn:En; simpl; [|discriminate].
    destruct (Text.strip (Stay.str raw) =? "")%string eqn:Es; simpl; [discriminate|].
    intros H. inversion H; subst. right. repeat split.
    now apply String.eqb_neq.
Qed.



End RoomFacts.




(** ** Daily occupancy *)

Module OccFacts.
Import FrameFacts.

Lemma filter_map_comm {A B : Type} (p : B -> bool) (f : A -> B) l :
  filter p (map f l) = map f (filter (fun x => p (f x)) l).
Proof.
  induction l as [|x xs IH]; simpl; [reflexivity|].
  destruct (p (f x)); simpl; congruence.
Qed.

Lemma filter_none {A : Type} (p : A -> bool) l :
  (forall x, In x l -> p x = false) -> filter p l = [].
Proof.
  induction l as [|x xs IH]; simpl; intros H; [reflexivity|].
  rewrite (H x) by auto. apply IH. auto.
Qed.

Lemma filter_eqb_NoDup l d :
  NoDup l -> In d l -> filter (fun x => x =? d) l = [d].
Proof.
  induction 1 as [|x xs Hx Hnd IH]; simpl; [contradiction|].
  intros [->|Hin].
  - rewrite Z.eqb_refl. f_equal. apply filter_none.
    intros y Hy. apply Z.eqb_neq. intros ->. contradiction.
  - destruct (x =? d) eqn:E.
    + apply Z.eqb_eq in E. subst. contradiction.
    + auto.
Qed.

(** The occupancy table has exactly one entry per date of the daily table. *)
Lemma entry_of_date excluded inv maint daily d :
  In d (map Daily.date daily) ->
  filter (fun o => DailyOcc.date o =? d) (daily_occ_data excluded inv maint daily) =
  [daily_occ_entry excluded inv maint daily d].
Proof.
  intros Hd. unfold daily_occ_data. rewrite filter_map_comm. simpl.
  rewrite filter_eqb_NoDup; [reflexivity | |].
  - apply (NoDup_unique Z.eqb Zeqb_eq).
  - now apply (In_unique Z.eqb Zeqb_eq).
Qed.

(** [nunique] counts distinct identifiers. *)
Lemma nunique_distinct_rooms p daily d :
  distinct_rooms p daily d
    (Frame.nunique
       (map Daily.room_number
            (filter p (filter (fun r => Daily.date r =? d) daily)))).
Proof.
  unfold distinct_rooms, Frame.nunique.
  eexists. split; [apply (NoDup_unique String.eqb String.eqb_eq)|].
  split; [|reflexivity].
  intros x. rewrite (In_unique String.eqb String.eqb_eq), In_dropna, in_map_iff.
  split.
  - intros [r [Hr Hin]]. apply filter_In in Hin. destruct Hin as [Hin Hp].
    apply filter_In in Hin. destruct Hin as [Hin Hdate].
    apply Z.eqb_eq in Hdate. exists r. auto.
  - intros [r [Hin [Hdate [Hp Hr]]]]. exists r. split; [exact Hr|].
    apply filter_In. split; [|exact Hp]. apply filter_In. split; [exact Hin|].
    now apply Z.eqb_eq.
Qed.

Lemma filter_true {A : Type} (l : list A) : filter (fun _ => true) l = l.
Proof. induction l; simpl; congruence. Qed.

(** [rate_of] is min(1, sold / available). *)
Lemma rate_of_Qmin sold available :
  (rate_of sold available == Qmin 1 (inject_Z sold / inject_Z available))%Q.
Proof.
  unfold rate_of.
  destruct (Qle_bool 1 (Qred (inject_Z sold / inject_Z available))) eqn:E.
  - apply Qle_bool_iff in E. rewrite Qred_correct in E.
    symmetry. apply Q.min_l. exact E.
  - rewrite Qred_correct. symmetry. apply Q.min_r.
    destruct (Qlt_le_dec (inject_Z sold / inject_Z available) 1) as [H|H].
    + now apply Qlt_le_weak.
    + rewrite <- (Qred_correct (inject_Z sold / inject_Z available)) in H.
      apply Qle_bool_iff in H. congruence.
Qed.

End OccFacts.

Example full_house_entry :
  daily_occ_data (excluded_set None) full_house_inventory full_house_maintenance
                 (expand_stays_to_daily_rows full_house) =
  [DailyOcc.mk (Time.ymd 2024 1 1) 1%Q 8 1 1 10 8].
Proof. vm_compute. reflexivity. Qed.

(** C1. For every date of the expanded daily table there is exactly one
    occupancy entry, and in it: rooms sold is the count of distinct room
    identifiers of the paid rows of that date; rooms blocked the count of
    distinct identifiers of the rows in an excluded segment; maintenance
    the summed quantity of the maintenance rows of that date, 0 without a
    table; inventory the sum of the inventory map, or the count of
    distinct identifiers seen on that date when there is no map (an empty
    map counts as none); available inventory is
    max(1, inventory - blocked - maintenance) and the occupancy rate is
    min(1, sold / available). With inventory 10, 8 sold, 1 blocked and 1
    under maintenance this gives 8 available and occupancy 1. *)
Theorem daily_occupancy_formula (src : list Stay.t)
    (excl : option (list string)) (inv : option (list (string * Z)))
    (maint : option (list Maint.t)) (d : Z) :
  let excluded := excluded_set excl in
  let daily := expand_stays_to_daily_rows src in
  In d (map Daily.date daily) ->
  (exists e,
      filter (fun o => DailyOcc.date o =? d)
             (daily_occ_data excluded inv maint daily) = [e] /\
      let sold := DailyOcc.total_rooms_sold e in
      let blocked := DailyOcc.total_rooms_blocked e in
      let maintenance := DailyOcc.total_rooms_maintenance e in
      let inventory := DailyOcc.total_inventory e in
      let available := DailyOcc.available_inventory e in
      distinct_rooms (paid_flag excluded) daily d sold /\
      distinct_rooms (fun r => negb (paid_flag excluded r)) daily d blocked /\
      maintenance =
        match maint with
        | Some table =>
            sum_Z (map Maint.Quantity
                       (filter (fun m => Time.date (Maint.Date m) =? d) table))
        | None => 0
        end /\
      match inv with
      | Some (entry :: more) => inventory = sum_Z (map snd (entry :: more))
      | _ => distinct_rooms (fun _ => true) daily d inventory
      end /\
      available = Z.max 1 (inventory - blocked - maintenance) /\
      (DailyOcc.daily_occupancy_rate e ==
       Qmin 1 (inject_Z sold / inject_Z available))%Q) /\
  available_of 10 1 1 = 8 /\ rate_of 8 (available_of 10 1 1) = 1%Q.
Proof.
  intros excluded daily Hd. split; [|split; reflexivity].
  exists (daily_occ_entry excluded inv maint daily d).
  split; [now apply OccFacts.entry_of_date|].
  unfold daily_occ_entry. simpl.
  split; [apply OccFacts.nunique_distinct_rooms|].
  split; [apply OccFacts.nunique_distinct_rooms|].
  split; [|split; [|split]].
  - unfold maintenance_on. destruct maint as [[|m l]|]; reflexivity.
  - assert (Hall : distinct_rooms (fun _ => true) daily d
                     (Frame.nunique
                        (map Daily.room_number
                             (filter (fun r => Daily.date r =? d) daily)))).
    { rewrite <- (OccFacts.filter_true
                    (filter (fun r => Daily.date r =? d) daily)) at 1.
      apply OccFacts.nunique_distinct_rooms. }
    destruct inv as [[|entry more]|]; [exact Hall | reflexivity | exact Hall].
  - reflexivity.
  - apply OccFacts.rate_of_Qmin.
Qed.

Lemma daily_occupancy_formula_witness :
  exists e,
    filter (fun o => DailyOcc.date o =? Time.ymd 2024 1 1)
           (daily_occ_data (excluded_set None) full_house_inventory
                           full_house_maintenance
                           (expand_stays_to_daily_rows full_house)) = [e] /\
    DailyOcc.total_inventory e = 10 /\
    DailyOcc.available_inventory e = 8 /\
    (DailyOcc.daily_occupancy_rate e == 1)%Q.
Proof.
  assert (Hd : In (Time.ymd 2024 1 1)
                  (map Daily.date (expand_stays_to_daily_rows full_house))).
  { vm_compute. auto. }
  destruct (daily_occupancy_formula full_house None full_house_inventory
              full_house_maintenance (Time.ymd 2024 1 1) Hd)
    as [[e [He [_ [_ [_ [Hinv [Hav Hrate]]]]]]] _].
  exists e. split; [exact He|].
  rewrite full_house_entry in He. simpl in He.
  injection He as <-. repeat split.
Defined.

(** C1 as first stated fails for a supplied map without entries: the code
    then infers the inventory from the rooms seen, 3, where the claim has
    the sum of the map, 0. With three rooms sold, none blocked and a
    maintenance quantity of -5 the code stores the rate 3/8 and the
    claim's formula gives 3/5. *)
Lemma daily_occupancy_empty_inventory_map :
  daily_occ_data (excluded_set None) empty_inventory negative_maintenance
                 (expand_stays_to_daily_rows three_rooms) =
  [DailyOcc.mk (Time.ymd 2024 1 1) (3 # 8) 3 0 (-5) 3 8] /\
  stated_inventory empty_inventory 3 = 0 /\
  (stated_rate 3 0 (-5) (stated_inventory empty_inventory 3) == 3 # 5)%Q /\
  ~ (3 # 8 == stated_rate 3 0 (-5) (stated_inventory empty_inventory 3))%Q.
Proof.
  split; [vm_compute; reflexivity|].
  split; [reflexivity|].
  split; [vm_compute; reflexivity|].
  intros H. vm_compute in H. discriminate.
Qed.

Module InventoryFacts.
Import FrameFacts.

Lemma nunique_nonneg l : 0 <= Frame.nunique l.
Proof. unfold Frame.nunique. lia. Qed.

(** Rooms seen on a date are sold or blocked. *)
Lemma nunique_split (p : Daily.t -> bool) (rows : list Daily.t) :
  Frame.nunique (map Daily.room_number rows) <=
  Frame.nunique (map Daily.room_number (filter p rows)) +
  Frame.nunique (map Daily.room_number (filter (fun r => negb (p r)) rows)).
Proof.
  unfold Frame.nunique. rewrite <- Nat2Z.inj_add, <- length_app.
  apply inj_le. apply NoDup_incl_length.
  - apply (NoDup_unique String.eqb String.eqb_eq).
  - intros x Hx. apply (proj1 (In_unique String.eqb String.eqb_eq _ _)) in Hx.
    apply (proj1 (In_dropna _ _)) in Hx. apply in_map_iff in Hx.
    destruct Hx as [r [Hr Hin]].
    assert (Hgen : forall q, q r = true ->
              In x (Frame.unique String.eqb
                      (Frame.dropna (map Daily.room_number (filter q rows))))).
    { intros q Hq. apply (proj2 (In_unique String.eqb String.eqb_eq _ _)).
      apply (proj2 (In_dropna _ _)). apply in_map_iff. exists r.
      split; [exact Hr|]. apply filter_In. auto. }
    apply in_or_app. destruct (p r) eqn:Ep; [left|right]; apply Hgen; auto.
    now rewrite Ep.
Qed.

Lemma Qmin_one_div_ge sold available :
  0 < available -> available <= sold ->
  (Qmin 1 (inject_Z sold / inject_Z available) == 1)%Q.
Proof.
  intros Hpos Hle. apply Q.min_l. apply Qle_shift_div_l.
  - change 0%Q with (inject_Z 0). rewrite <- Zlt_Qlt. exact Hpos.
  - rewrite Qmult_1_l. rewrite <- Zle_Qle. exact Hle.
Qed.

Lemma Qmin_one_div_zero available :
  (Qmin 1 (inject_Z 0 / inject_Z available) == 0)%Q.
Proof.
  assert (H : (inject_Z 0 / inject_Z available == 0)%Q).
  { unfold Qdiv. apply Qmult_0_l. }
  rewrite H. apply Q.min_r. discriminate.
Qed.

(** An empty inventory map is falsy, so the inventory is inferred from
    the rooms seen. With no negative maintenance quantity the occupancy
    rate is the same as with an inventory of 0, the sum of the empty map. *)
Lemma empty_inventory_map_rate excluded maint daily d :
  0 <= maintenance_on maint d ->
  let e := daily_occ_entry excluded (Some []) maint daily d in
  (DailyOcc.daily_occupancy_rate e ==
   Qmin 1 (inject_Z (DailyOcc.total_rooms_sold e) /
           inject_Z (Z.max 1 (0 - DailyOcc.total_rooms_blocked e -
                              DailyOcc.total_rooms_maintenance e))))%Q.
Proof.
  intros Hm e. unfold e, daily_occ_entry. cbn [DailyOcc.daily_occupancy_rate
    DailyOcc.total_rooms_sold DailyOcc.total_rooms_blocked
    DailyOcc.total_rooms_maintenance].
  set (dd := filter (fun r => Daily.date r =? d) daily).
  set (S := Frame.nunique (map Daily.room_number (filter (paid_flag excluded) dd))).
  set (B := Frame.nunique (map Daily.room_number
                             (filter (fun r => negb (paid_flag excluded r)) dd))).
  set (I := Frame.nunique (map Daily.room_number dd)).
  set (M := maintenance_on maint d) in *.
  assert (HS : 0 <= S) by apply nunique_nonneg.
  assert (HB : 0 <= B) by apply nunique_nonneg.
  assert (HI : I <= S + B) by apply nunique_split.
  rewrite OccFacts.rate_of_Qmin. unfold available_of.
  replace (Z.max 1 (0 - B - M)) with 1 by lia.
  destruct (Z.eq_dec S 0) as [->|Hne].
  - now rewrite !Qmin_one_div_zero.
  - rewrite !Qmin_one_div_ge by lia. reflexivity.
Qed.

End InventoryFacts.

(** C2. Every row of the daily aggregate table carries the occupancy rate
    of the entry of its date, whatever its room type or arrangement; so
    any two rows of the table with the same Date have the same Occupancy
    Rate. *)
Theorem occupancy_hotel_wide (src : list Stay.t)
    (excl : option (list string)) (inv : option (list (string * Z)))
    (maint : option (list Maint.t)) (r1 r2 : Agg.t) :
  In r1 (build_feature_dataset src excl inv maint) ->
  In r2 (build_feature_dataset src excl inv maint) ->
  Agg.Date r1 = Agg.Date r2 ->
  Agg.Occupancy_Rate r1 = Agg.Occupancy_Rate r2 /\
  Agg.Occupancy_Rate r1 =
    Some (DailyOcc.daily_occupancy_rate
            (daily_occ_entry (excluded_set excl) inv maint
                             (expand_stays_to_daily_rows src) (Agg.Date r1))).
Proof.
  intros H1 H2 Hdate.
  apply AggFacts.In_build in H1. destruct H1 as [dr1 [_ [_ [_ [_ E1]]]]].
  apply AggFacts.In_build in H2. destruct H2 as [dr2 [_ [_ [_ [_ E2]]]]].
  split; [|exact E1]. rewrite E1, E2, Hdate. reflexivity.
Qed.

Lemma occupancy_hotel_wide_witness :
  Agg.Room_Type deluxe_row <> Agg.Room_Type presidential_row /\
  Agg.Occupancy_Rate deluxe_row = Agg.Occupancy_Rate presidential_row.
Proof.
  split; [discriminate|].
  refine (proj1 (occupancy_hotel_wide [scenario_stay; presidential_stay]
                   None None None deluxe_row presidential_row _ _ eq_refl));
    vm_compute; auto.
Defined.

(** ** Array helpers *)

Module NpFacts.
Import Np.

Lemma length_zip_with {A B C : Type} (f : A -> B -> C) l1 l2 :
  List.length (zip_with f l1 l2) = Nat.min (List.length l1) (List.length l2).
Proof.
  revert l2. induction l1 as [|x xs IH]; intros [|y ys]; simpl; auto.
Qed.

Lemma nth_error_zip_with {A B C : Type} (f : A -> B -> C) l1 l2 i :
  nth_error (zip_with f l1 l2) i =
  match nth_error l1 i, nth_error l2 i with
  | Some a, Some b => Some (f a b)
  | _, _ => None
  end.
Proof.
  revert l2 i. induction l1 as [|x xs IH]; intros [|y ys] [|i]; simpl; auto;
    destruct (nth_error xs i); reflexivity.
Qed.

Lemma nth_error_combine {A B : Type} (l1 : list A) (l2 : list B) i :
  nth_error (combine l1 l2) i =
  match nth_error l1 i, nth_error l2 i with
  | Some a, Some b => Some (a, b)
  | _, _ => None
  end.
Proof.
  revert l2 i. induction l1 as [|x xs IH]; intros [|y ys] [|i]; simpl; auto;
    destruct (nth_error xs i); reflexivity.
Qed.

(** Reading a boolean array with [false] outside its range. *)
Lemma nth_zip_with_bool (f : bool -> bool -> bool) l1 l2 i :
  f false false = false ->
  List.length l1 = List.length l2 ->
  nth i (zip_with f l1 l2) false = f (nth i l1 false) (nth i l2 false).
Proof.
  intros Hf. revert l2 i.
  induction l1 as [|x xs IH]; intros [|y ys] i Hlen; simpl in *; try discriminate.
  - destruct i; auto.
  - destruct i; auto.
Qed.

Lemma length_removelast {A : Type} (a : list A) :
  List.length (removelast a) = pred (List.length a).
Proof.
  induction a as [|x [|y ys] IH]; [reflexivity | reflexivity |].
  change (removelast (x :: y :: ys)) with (x :: removelast (y :: ys)).
  simpl List.length in *. now rewrite IH.
Qed.

Lemma length_shift_right a : a <> [] -> List.length (shift_right a) = List.length a.
Proof.
  intros Ha. unfold shift_right. simpl. rewrite length_removelast.
  destruct a; [congruence | reflexivity].
Qed.

Lemma length_shift_left a : a <> [] -> List.length (shift_left a) = List.length a.
Proof.
  intros Ha. unfold shift_left. destruct a as [|x xs]; [congruence|].
  simpl. rewrite length_app. simpl. lia.
Qed.

Lemma nth_removelast (a : list bool) j :
  (S j < List.length a)%nat -> nth j (removelast a) false = nth j a false.
Proof.
  revert j. induction a as [|x xs IH]; intros j Hj; simpl in Hj; [lia|].
  destruct xs as [|y ys]; [simpl in Hj; lia|].
  change (removelast (x :: y :: ys)) with (x :: removelast (y :: ys)).
  destruct j as [|j]; [reflexivity|].
  simpl nth at 1. rewrite IH by (simpl in *; lia). reflexivity.
Qed.

(** The left neighbour, inside the array. *)
Lemma nth_shift_right a i :
  (i < List.length a)%nat ->
  nth i (shift_right a) false =
  match i with O => false | S j => nth j a false end.
Proof.
  intros Hi. unfold shift_right. destruct i as [|j]; [reflexivity|].
  simpl. now apply nth_removelast.
Qed.

(** The right neighbour. *)
Lemma nth_shift_left a i : nth i (shift_left a) false = nth (S i) a false.
Proof.
  unfold shift_left. destruct a as [|x xs]; simpl.
  - destruct i as [|[|i]]; reflexivity.
  - destruct (Nat.lt_ge_cases i (List.length xs)) as [H|H].
    + now rewrite app_nth1.
    + rewrite app_nth2 by exact H. rewrite (nth_overflow xs) by exact H.
      destruct (i - List.length xs)%nat as [|[|k]]; reflexivity.
Qed.

End NpFacts.

(** ** Calendar flags *)

Module CalFacts.
Import Np NpFacts CalSpec.

Lemma nth_error_lt {A : Type} (l : list A) i x :
  nth_error l i = Some x -> (i < List.length l)%nat.
Proof. intros H. apply nth_error_Some. congruence. Qed.

Lemma agrees_ext n c f g :
  (forall i, (i < n)%nat -> f i = g i) -> agrees n c f -> agrees n c g.
Proof.
  intros H [Hl Hn]. split; [exact Hl|]. intros i Hi. rewrite Hn by exact Hi. auto.
Qed.

Lemma agrees_map (g : Cal.t -> bool) rows :
  agrees (List.length rows) (map g rows)
         (fun i => match nth_error rows i with Some r => g r | None => false end).
Proof.
  split; [apply length_map|]. intros i Hi.
  destruct (nth_error rows i) as [r|] eqn:E.
  - rewrite (nth_indep _ false (g r)) by (now rewrite length_map).
    rewrite map_nth. now rewrite (nth_error_nth _ _ _ E).
  - apply nth_error_None in E. lia.
Qed.

Lemma agrees_zip (op : bool -> bool -> bool) n c1 c2 f1 f2 :
  op false false = false ->
  agrees n c1 f1 -> agrees n c2 f2 ->
  agrees n (zip_with op c1 c2) (fun i => op (f1 i) (f2 i)).
Proof.
  intros Hop [L1 H1] [L2 H2]. split.
  - rewrite length_zip_with, L1, L2. apply Nat.min_id.
  - intros i Hi. rewrite nth_zip_with_bool by congruence.
    now rewrite H1, H2.
Qed.

Lemma agrees_bnot n c f : agrees n c f -> agrees n (bnot c) (fun i => negb (f i)).
Proof.
  intros [L H]. unfold bnot. split; [now rewrite length_map|].
  intros i Hi. rewrite (nth_indep _ false (negb false)) by (rewrite length_map; lia).
  rewrite map_nth. now rewrite H.
Qed.

Lemma agrees_shift_right n c f :
  (0 < n)%nat -> agrees n c f -> agrees n (shift_right c) (prev f).
Proof.
  intros Hn [L H]. split.
  - rewrite length_shift_right; [exact L|]. destruct c; simpl in *; [lia|discriminate].
  - intros i Hi. rewrite nth_shift_right by lia.
    destruct i as [|j]; [reflexivity|]. simpl. apply H. lia.
Qed.

Lemma agrees_shift_left n c f :
  (0 < n)%nat -> vanishes n f -> agrees n c f -> agrees n (shift_left c) (next f).
Proof.
  intros Hn Hv [L H]. split.
  - rewrite length_shift_left; [exact L|]. destruct c; simpl in *; [lia|discriminate].
  - intros i Hi. rewrite nth_shift_left. unfold next.
    destruct (Nat.lt_ge_cases (S i) n) as [Hlt|Hge].
    + now apply H.
    + rewrite nth_overflow by lia. symmetry. now apply Hv.
Qed.

Section Columns.
Variable rows : list Cal.t.
Local Abbreviation n := (List.length rows).

Lemma national_vanishes : vanishes n (national rows).
Proof.
  intros i Hi. unfold national.
  destruct (nth_error rows i) eqn:E; [|reflexivity].
  apply nth_error_lt in E. lia.
Qed.

Lemma weekend_vanishes : vanishes n (weekend rows).
Proof.
  intros i Hi. unfold weekend.
  destruct (nth_error rows i) eqn:E; [|reflexivity].
  apply nth_error_lt in E. lia.
Qed.

Lemma seed_vanishes : vanishes n (seed rows).
Proof.
  intros i Hi. unfold seed.
  now rewrite national_vanishes, weekend_vanishes.
Qed.

Lemma bridge_vanishes : vanishes n (bridge rows).
Proof.
  intros i Hi. unfold bridge, next.
  rewrite (seed_vanishes (S i)) by lia. apply andb_false_r.
Qed.

Lemma base_vanishes : vanishes n (base rows).
Proof.
  intros i Hi. unfold base. now rewrite national_vanishes, bridge_vanishes.
Qed.

Lemma pass1_vanishes : vanishes n (pass1 rows).
Proof. intros i Hi. unfold pass1. now rewrite weekend_vanishes. Qed.

Lemma seed_column : agrees n (map seed_of rows) (seed rows).
Proof.
  eapply agrees_ext; [|apply agrees_map].
  intros i _. unfold seed, national, weekend, seed_of.
  destruct (nth_error rows i); reflexivity.
Qed.

Lemma bridge_column : agrees n (is_bridge_of (map seed_of rows)) (bridge rows).
Proof.
  destruct (Nat.eq_0_gt_0_cases n) as [H0|Hn].
  { split; [|intros i Hi; lia]. unfold is_bridge_of, band, bnot.
    now rewrite !length_zip_with, !length_map, H0. }
  unfold is_bridge_of, band.
  apply (agrees_zip andb); [reflexivity | |].
  - apply (agrees_zip andb n _ _ (fun i => negb (seed rows i)) (prev (seed rows)));
      [reflexivity | |].
    + apply agrees_bnot, seed_column.
    + apply agrees_shift_right; [exact Hn | apply seed_column].
  - apply agrees_shift_left; [exact Hn | apply seed_vanishes | apply seed_column].
Qed.

Lemma base_column :
  agrees n (base_of (map Cal.Is_NationalHoliday rows)
                    (is_bridge_of (map seed_of rows)))
         (base rows).
Proof.
  unfold base_of, bor.
  apply (agrees_zip orb n _ _ (national rows) (bridge rows)); [reflexivity | |].
  - apply agrees_map.
  - apply bridge_column.
Qed.

Lemma weekend_pass_column marked f :
  vanishes n f -> agrees n marked f ->
  agrees n (weekend_pass (map Cal.Is_Weekend rows) marked)
         (fun i => weekend rows i && (prev f i || next f i)).
Proof.
  intros Hv Hm.
  destruct (Nat.eq_0_gt_0_cases n) as [H0|Hn].
  { split; [|intros i Hi; lia]. unfold weekend_pass, band.
    now rewrite length_zip_with, length_map, H0. }
  unfold weekend_pass, band, bor.
  apply (agrees_zip andb n _ _ (weekend rows) (fun i => prev f i || next f i));
    [reflexivity | apply agrees_map |].
  apply (agrees_zip orb n _ _ (prev f) (next f)); [reflexivity | |].
  - now apply agrees_shift_right.
  - now apply agrees_shift_left.
Qed.

Lemma holiday_column :
  agrees n (is_holiday_final_of (map Cal.Is_NationalHoliday rows)
                                (map Cal.Is_Weekend rows)
                                (is_bridge_of (map seed_of rows)))
         (fun i => base rows i || pass1 rows i || pass2 rows i).
Proof.
  unfold is_holiday_final_of, bor.
  assert (H1 : agrees n (weekend_pass (map Cal.Is_Weekend rows)
                           (base_of (map Cal.Is_NationalHoliday rows)
                                    (is_bridge_of (map seed_of rows))))
                      (pass1 rows)).
  { apply (weekend_pass_column _ (base rows)); [apply base_vanishes | apply base_column]. }
  apply (agrees_zip orb n _ _ (fun i => base rows i || pass1 rows i) (pass2 rows));
    [reflexivity | |].
  - apply (agrees_zip orb n _ _ (base rows) (pass1 rows));
      [reflexivity | apply base_column | exact H1].
  - apply (weekend_pass_column _ (pass1 rows)); [apply pass1_vanishes | exact H1].
Qed.

End Columns.

End CalFacts.

Module FeatFacts.
Import Np NpFacts CalSpec CalFacts.

(** The final holiday column of the rows. *)
Lemma holiday_column_of rows :
  agrees (List.length rows)
         (is_holiday_final_of (map Cal.Is_NationalHoliday rows)
                              (map Cal.Is_Weekend rows)
                              (is_bridge_of (map seed_of rows)))
         (fun i => base rows i || pass1 rows i || pass2 rows i).
Proof. apply holiday_column. Qed.

(** Every enriched row takes its derived cells from the columns, at its
    own position. *)
Lemma features_nth rows i r :
  nth_error (calendar_features rows) i = Some r ->
  let is_hol := is_holiday_final_of (map Cal.Is_NationalHoliday rows)
                                    (map Cal.Is_Weekend rows)
                                    (is_bridge_of (map seed_of rows)) in
  exists c,
    nth_error rows i = Some c /\
    Feat.Date r = Cal.Date c /\
    Feat.Is_NationalHoliday r = Cal.Is_NationalHoliday c /\
    Feat.Is_Weekend r = Cal.Is_Weekend c /\
    Feat.Is_Bridge r = nth i (is_bridge_of (map seed_of rows)) false /\
    Feat.Is_Holiday r = nth i is_hol false /\
    nth_error (distance_of is_hol) i = Some (Feat.Distance_to_Holiday r).
Proof.
  intros H is_hol. unfold calendar_features in H. fold is_hol in H.
  rewrite nth_error_zip_with, !nth_error_combine in H.
  destruct (nth_error rows i) as [c|] eqn:Ec; [|discriminate].
  destruct (nth_error (is_bridge_of (map seed_of rows)) i) as [br|] eqn:Ebr;
    [|discriminate].
  destruct (nth_error is_hol i) as [hol|] eqn:Eh; [|discriminate].
  destruct (nth_error (block_columns is_hol) i) as [[du da]|] eqn:Eb; [|discriminate].
  destruct (nth_error (distance_of is_hol) i) as [dst|] eqn:Ed; [|discriminate].
  destruct (Time.civil (Time.date (Cal.Date c))) as [[y m] d] eqn:Eciv.
  injection H as <-. simpl.
  exists c. repeat split.
  - symmetry. now apply nth_error_nth.
  - symmetry. now apply nth_error_nth.
Qed.

End FeatFacts.

Module LengthFacts.
Import Np NpFacts.

Lemma length_dist_fwd_from is_hol i last :
  List.length (dist_fwd_from is_hol i last) = List.length is_hol.
Proof.
  revert i last. induction is_hol as [|h t IH]; intros i last; simpl; [reflexivity|].
  now rewrite IH.
Qed.

Lemma length_dist_bwd_from is_hol i :
  List.length (fst (dist_bwd_from is_hol i)) = List.length is_hol.
Proof.
  revert i. induction is_hol as [|h t IH]; intros i; simpl; [reflexivity|].
  specialize (IH (i + 1)). destruct (dist_bwd_from t (i + 1)) as [rest last].
  simpl in *. now rewrite IH.
Qed.

Lemma length_distance_of is_hol :
  List.length (distance_of is_hol) = List.length is_hol.
Proof.
  unfold distance_of, dist_fwd, dist_bwd.
  rewrite !length_zip_with, length_dist_fwd_from, length_dist_bwd_from.
  now rewrite !Nat.min_id.
Qed.

Lemma length_cumsum_not acc a : List.length (cumsum_not acc a) = List.length a.
Proof.
  revert acc. induction a as [|h t IH]; intros acc; simpl; [reflexivity|].
  now rewrite IH.
Qed.

Lemma length_block_columns_from seen rest total :
  List.length (block_columns_from seen rest total) = List.length rest.
Proof.
  revert seen. induction rest as [|[h b] t IH]; intros seen; simpl; [reflexivity|].
  now rewrite IH.
Qed.

Lemma length_block_columns is_hol :
  List.length (block_columns is_hol) = List.length is_hol.
Proof.
  unfold block_columns.
  rewrite length_block_columns_from, length_combine, length_cumsum_not.
  apply Nat.min_id.
Qed.

(** The enriched frame has one row per input row. *)
Lemma length_calendar_features rows :
  List.length (calendar_features rows) = List.length rows.
Proof.
  unfold calendar_features.
  rewrite length_zip_with, !length_combine, length_distance_of,
    length_block_columns.
  destruct (CalFacts.holiday_column rows) as [Lh _].
  destruct (CalFacts.bridge_column rows) as [Lb _].
  rewrite Lh, Lb. now rewrite !Nat.min_id.
Qed.

Lemma features_defined rows i c :
  nth_error rows i = Some c -> exists r, nth_error (calendar_features rows) i = Some r.
Proof.
  intros H. apply CalFacts.nth_error_lt in H.
  destruct (nth_error (calendar_features rows) i) as [r|] eqn:E; [eauto|].
  apply nth_error_None in E. rewrite length_calendar_features in E. lia.
Qed.

End LengthFacts.

Module BridgeFacts.
Import CalSpec CalFacts.




End BridgeFacts.

Example sandwich_bridge :
  map Feat.Is_Bridge (calendar_features sandwich) = [false; true; false].
Proof. vm_compute. reflexivity. Qed.



Module HolidayFacts.
Import CalSpec CalFacts.

Lemma prev_true f i : prev f i = true -> exists j, i = S j /\ f j = true.
Proof. destruct i as [|j]; simpl; [discriminate | eauto]. Qed.

(** A first-pass day has a base day next to it. *)
Lemma pass1_near rows k :
  pass1 rows k = true ->
  exists j, base rows j = true /\ (j <= k + 1)%nat /\ (k <= j + 1)%nat.
Proof.
  unfold pass1. rewrite andb_true_iff, orb_true_iff.
  intros [_ [H|H]].
  - apply prev_true in H. destruct H as [j [-> H]]. exists j. repeat split; [exact H|lia|lia].
  - unfold next in H. exists (S k). repeat split; [exact H|lia|lia].
Qed.

(** A marked day has a base day at most two positions away. *)
Lemma marked_near rows i :
  base rows i || pass1 rows i || pass2 rows i = true ->
  exists j, base rows j = true /\ (j <= i + 2)%nat /\ (i <= j + 2)%nat.
Proof.
  rewrite !orb_true_iff. intros [[H|H]|H].
  - exists i. repeat split; [exact H|lia|lia].
  - apply pass1_near in H. destruct H as [j [Hj [H1 H2]]].
    exists j. repeat split; [exact Hj|lia|lia].
  - unfold pass2 in H. rewrite andb_true_iff, orb_true_iff in H.
    destruct H as [_ [H|H]].
    + apply prev_true in H. destruct H as [k [-> H]].
      apply pass1_near in H. destruct H as [j [Hj [H1 H2]]].
      exists j. repeat split; [exact Hj|lia|lia].
    + unfold next in H. apply pass1_near in H. destruct H as [j [Hj [H1 H2]]].
      exists j. repeat split; [exact Hj|lia|lia].
Qed.

End HolidayFacts.

Example long_weekend_flags :
  map Feat.Is_Holiday (calendar_features long_weekend) =
  [false; true; true; true; false; false].
Proof. vm_compute. reflexivity. Qed.

(** C4. At every position the final holiday flag is base OR pass 1 OR
    pass 2, where base is national holiday OR bridge, pass 1 marks exactly
    the weekend days with a base day just before or just after, and pass 2
    exactly the weekend days with a pass-1 day just before or just after.
    So a marked day has a base day at most two positions away, and a day
    with no base day within two positions is not marked. *)
Theorem holiday_three_passes (rows : list Cal.t) (i : nat) (c : Cal.t) :
  nth_error rows i = Some c ->
  exists r,
    nth_error (calendar_features rows) i = Some r /\
    Feat.Is_Holiday r =
      CalSpec.base rows i || CalSpec.pass1 rows i || CalSpec.pass2 rows i /\
    CalSpec.base rows i = Cal.Is_NationalHoliday c || Feat.Is_Bridge r /\
    (CalSpec.pass1 rows i = true <->
     Cal.Is_Weekend c = true /\
     (CalSpec.prev (CalSpec.base rows) i = true \/
      CalSpec.next (CalSpec.base rows) i = true)) /\
    (CalSpec.pass2 rows i = true <->
     Cal.Is_Weekend c = true /\
     (CalSpec.prev (CalSpec.pass1 rows) i = true \/
      CalSpec.next (CalSpec.pass1 rows) i = true)) /\
    (Feat.Is_Holiday r = true ->
     exists j, CalSpec.base rows j = true /\ (j <= i + 2)%nat /\ (i <= j + 2)%nat) /\
    ((forall j, (j <= i + 2)%nat -> (i <= j + 2)%nat -> CalSpec.base rows j = false) ->
     Feat.Is_Holiday r = false).
Proof.
  intros Hc. destruct (LengthFacts.features_defined rows i c Hc) as [r Hr].
  exists r. split; [exact Hr|].
  destruct (FeatFacts.features_nth rows i r Hr) as [c' [Hc' [_ [_ [_ [Hb [Hh _]]]]]]].
  assert (c' = c) by congruence. subst c'.
  assert (Hi : (i < List.length rows)%nat) by (eapply CalFacts.nth_error_lt; eauto).
  destruct (CalFacts.bridge_column rows) as [_ Hbc].
  destruct (CalFacts.holiday_column rows) as [_ Hhc].
  rewrite Hbc in Hb by exact Hi. rewrite Hhc in Hh by exact Hi.
  assert (Hwe : CalSpec.weekend rows i = Cal.Is_Weekend c).
  { unfold CalSpec.weekend. now rewrite Hc. }
  split; [exact Hh|]. split; [|split; [|split; [|split]]].
  - unfold CalSpec.base at 1. rewrite Hb. unfold CalSpec.national. now rewrite Hc.
  - unfold CalSpec.pass1 at 1. now rewrite andb_true_iff, orb_true_iff, Hwe.
  - unfold CalSpec.pass2 at 1. now rewrite andb_true_iff, orb_true_iff, Hwe.
  - rewrite Hh. apply HolidayFacts.marked_near.
  - intros Hfar. rewrite Hh.
    destruct (CalSpec.base rows i || CalSpec.pass1 rows i || CalSpec.pass2 rows i)
      eqn:E; [|reflexivity].
    apply HolidayFacts.marked_near in E.
    destruct E as [j [Hj [H1 H2]]]. rewrite (Hfar j H1 H2) in Hj. discriminate.
Qed.

(** The third weekend-flagged day after the holiday is not marked. *)
Lemma holiday_three_passes_witness :
  exists r,
    nth_error (calendar_features long_weekend) 4 = Some r /\
    Feat.Is_Weekend r = true /\ Feat.Is_Holiday r = false.
Proof.
  destruct (holiday_three_passes long_weekend 4 (plain_day 4 false true) eq_refl)
    as [r [Hr [_ [_ [_ [_ [_ Hfar]]]]]]].
  exists r. split; [exact Hr|]. split.
  - vm_compute in Hr. injection Hr as <-. reflexivity.
  - apply Hfar. intros j H1 H2.
    do 7 (destruct j as [|j]; [try reflexivity; lia|]). lia.
Defined.

(** ** Distance to the nearest holiday *)

Module DistFacts.
Import Np NpFacts DistSpec.

Local Abbreviation at_ hol := (fun m : nat => nth m hol false).

(** The forward loop. *)
Lemma fwd_spec hol : forall i last k d,
  nth_error (dist_fwd_from hol i last) k = Some d ->
  (exists j, (j <= k)%nat /\ at_ hol j = true /\
             (forall m, (j < m <= k)%nat -> at_ hol m = false) /\
             d = Z.of_nat k - Z.of_nat j) \/
  ((forall m, (m <= k)%nat -> at_ hol m = false) /\ d = i + Z.of_nat k - last).
Proof.
  induction hol as [|h t IH]; intros i last k d H.
  - destruct k; discriminate.
  - destruct k as [|k]; simpl in H.
    + injection H as <-. destruct h.
      * left. exists 0%nat. repeat split; [lia | intros m Hm; lia | lia].
      * right. split; [|lia]. intros m Hm. replace m with 0%nat by lia. reflexivity.
    + apply IH in H. destruct H as [[j [Hj [Hh [Hno Hd]]]]|[Hno Hd]].
      * left. exists (S j). repeat split; [lia | exact Hh | | lia].
        intros m Hm. destruct m as [|m]; [lia|]. apply Hno. lia.
      * destruct h.
        -- left. exists 0%nat. repeat split; [lia | | lia].
           intros m Hm. destruct m as [|m]; [lia|]. apply Hno. lia.
        -- right. split; [|lia]. intros m Hm.
           destruct m as [|m]; [reflexivity|]. apply Hno. lia.
Qed.

(** The backward loop: the value of [last] it ends with, and its
    distances. *)
Lemma bwd_spec hol : forall i,
  ((snd (dist_bwd_from hol i) = INF /\ forall m, at_ hol m = false) \/
   (exists j, at_ hol j = true /\ (forall m, (m < j)%nat -> at_ hol m = false) /\
              snd (dist_bwd_from hol i) = i + Z.of_nat j)) /\
  forall k d,
    nth_error (fst (dist_bwd_from hol i)) k = Some d ->
    (exists j, (k <= j)%nat /\ at_ hol j = true /\
               (forall m, (k <= m < j)%nat -> at_ hol m = false) /\
               d = Z.of_nat j - Z.of_nat k) \/
    ((forall m, (k <= m)%nat -> at_ hol m = false) /\ d = INF - (i + Z.of_nat k)).
Proof.
  induction hol as [|h t IH]; intros i.
  - cbn [dist_bwd_from fst snd]. split.
    + left. split; [reflexivity|]. intros m. destruct m; reflexivity.
    + intros k d H. destruct k; discriminate.
  - cbn [dist_bwd_from]. destruct (IH (i + 1)) as [Hlast Hdist].
    destruct (dist_bwd_from t (i + 1)) as [rest last].
    cbn [fst snd] in *.
    assert (Hlast' :
      ((if h then i else last) = INF /\ (forall m, at_ (h :: t) m = false)) \/
      (exists j, at_ (h :: t) j = true /\
                 (forall m, (m < j)%nat -> at_ (h :: t) m = false) /\
                 (if h then i else last) = i + Z.of_nat j)).
    { destruct h.
      - right. exists 0%nat. repeat split; [intros m Hm; lia | cbn [Z.of_nat]; lia].
      - destruct Hlast as [[Hl Hno]|[j [Hj [Hno Hl]]]].
        + left. split; [exact Hl|]. intros m. destruct m as [|m]; [reflexivity|apply Hno].
        + right. exists (S j). repeat split; [exact Hj | | lia].
          intros m Hm. destruct m as [|m]; [reflexivity|]. apply Hno. lia. }
    split; [exact Hlast'|].
    intros k d H. destruct k as [|k]; cbn [nth_error] in H.
    + injection H as <-.
      destruct Hlast' as [[Hl Hno]|[j [Hj [Hno Hl]]]].
      * right. split; [intros m _; apply Hno | lia].
      * left. exists j. repeat split; [lia | exact Hj | | lia].
        intros m Hm. apply Hno. lia.
    + apply Hdist in H. destruct H as [[j [Hkj [Hj [Hno Hd]]]]|[Hno Hd]].
      * left. exists (S j). repeat split; [lia | exact Hj | | lia].
        intros m Hm. destruct m as [|m]; [lia|]. apply Hno. lia.
      * right. split; [|lia]. intros m Hm.
        destruct m as [|m]; [lia|]. apply Hno. lia.
Qed.

(** The stored distance: 0 on a holiday, else the smaller of the two. *)
Lemma distance_of_nth hol k d :
  nth_error (distance_of hol) k = Some d ->
  exists h f b,
    nth_error hol k = Some h /\
    nth_error (dist_fwd hol) k = Some f /\
    nth_error (dist_bwd hol) k = Some b /\
    d = if h then 0 else Z.min f b.
Proof.
  unfold distance_of. rewrite !nth_error_zip_with.
  destruct (nth_error hol k) as [h|]; [|discriminate].
  destruct (nth_error (dist_fwd hol) k) as [f|]; [|discriminate].
  destruct (nth_error (dist_bwd hol) k) as [b|]; [|discriminate].
  intros H. injection H as <-. exists h, f, b. auto.
Qed.

(** The distance column against the specification. *)
Lemma distance_spec hol k d :
  nth_error (distance_of hol) k = Some d ->
  (at_ hol k = true -> d = 0) /\
  (at_ hol k = false ->
   exists back ahead,
     back_distance (at_ hol) k back /\ ahead_distance (at_ hol) k ahead /\
     d = Z.min back ahead).
Proof.
  intros H. apply distance_of_nth in H.
  destruct H as [h [f [b [Hh [Hf [Hb ->]]]]]].
  rewrite (nth_error_nth _ _ false Hh).
  split; [intros ->; reflexivity|]. intros ->.
  exists f, b. split; [|split; [|reflexivity]].
  - unfold dist_fwd in Hf. apply fwd_spec in Hf.
    destruct Hf as [Hf|[Hno Hd]]; [left; exact Hf|].
    right. split; [exact Hno | lia].
  - unfold dist_bwd in Hb. apply (proj2 (bwd_spec hol 0)) in Hb.
    destruct Hb as [Hb|[Hno Hd]]; [left; exact Hb|].
    right. split; [exact Hno | lia].
Qed.

(** Off a holiday the stored distance is positive, as long as the
    sequence is shorter than the sentinel. *)
Lemma distance_positive hol k d :
  Z.of_nat (List.length hol) <= INF ->
  nth_error (distance_of hol) k = Some d ->
  at_ hol k = false -> 0 < d.
Proof.
  intros Hlen H Hk.
  assert (Hlt : (k < List.length hol)%nat).
  { apply CalFacts.nth_error_lt in H. now rewrite LengthFacts.length_distance_of in H. }
  destruct (distance_spec hol k d H) as [_ Hspec].
  destruct (Hspec Hk) as [back [ahead [Hb [Ha ->]]]].
  assert (0 < back).
  { destruct Hb as [[j [Hj [Hh [_ ->]]]]|[_ ->]].
    - assert (j <> k) by (intros ->; congruence). lia.
    - unfold INF. lia. }
  assert (0 < ahead).
  { destruct Ha as [[j [Hj [Hh [_ ->]]]]|[_ ->]].
    - assert (j <> k) by (intros ->; congruence). lia.
    - lia. }
  lia.
Qed.

End DistFacts.

Module ContiguousFacts.
Import CalSpec.

Lemma nth_error_defined {A : Type} (l : list A) i :
  (i < List.length l)%nat -> exists x, nth_error l i = Some x.
Proof.
  intros H. destruct (nth_error l i) eqn:E; [eauto|].
  apply nth_error_None in E. lia.
Qed.

(** In a contiguous sequence the row at position [i] is [i] days after
    the first. *)
Lemma contiguous_dates rows a0 :
  contiguous_daily rows -> nth_error rows 0 = Some a0 ->
  forall i a, nth_error rows i = Some a ->
              Cal.Date a = Cal.Date a0 + Z.of_nat i * Time.day_ns.
Proof.
  intros [Hstep _] H0. induction i as [|i IH]; intros a Ha.
  - assert (a = a0) by congruence. subst. simpl. ring.
  - destruct (nth_error_defined rows i) as [b Hb].
    { apply CalFacts.nth_error_lt in Ha. lia. }
    rewrite (Hstep i b a Hb Ha), (IH b Hb). lia.
Qed.

(** It is far shorter than the sentinel of the distance loops. *)
Lemma contiguous_length rows :
  contiguous_daily rows -> Z.of_nat (List.length rows) <= INF.
Proof.
  intros Hc. destruct rows as [|a0 rs] eqn:E; [simpl; unfold INF; lia|].
  rewrite <- E in *.
  assert (H0 : nth_error rows 0 = Some a0) by (now rewrite E).
  destruct (nth_error_defined rows (List.length rows - 1)) as [z Hz].
  { rewrite E. simpl. lia. }
  pose proof (contiguous_dates rows a0 Hc H0 _ _ Hz) as Hd.
  destruct Hc as [_ Hrange].
  assert (Ha0 := Hrange a0 (nth_error_In _ _ H0)).
  assert (Hzr := Hrange z (nth_error_In _ _ Hz)).
  unfold Time.day_ns in Hd. unfold INF.
  change (2 ^ 63) with 9223372036854775808 in *.
  change (10 ^ 9) with 1000000000.
  assert (Hn : (0 < List.length rows)%nat) by (rewrite E; simpl; lia).
  lia.
Qed.

Lemma holiday_at_nth rows m :
  holiday_at rows m =
  nth m (is_holiday_final_of (map Cal.Is_NationalHoliday rows)
                             (map Cal.Is_Weekend rows)
                             (is_bridge_of (map seed_of rows))) false.
Proof.
  unfold holiday_at.
  destruct (nth_error (calendar_features rows) m) as [r|] eqn:E.
  - now destruct (FeatFacts.features_nth rows m r E) as [c [_ [_ [_ [_ [_ [Hh _]]]]]]].
  - apply nth_error_None in E. rewrite LengthFacts.length_calendar_features in E.
    symmetry. apply nth_overflow.
    destruct (CalFacts.holiday_column rows) as [L _]. now rewrite L.
Qed.

Lemma back_distance_ext f g i x :
  (forall m, f m = g m) ->
  DistSpec.back_distance f i x -> DistSpec.back_distance g i x.
Proof.
  intros He [[j [H1 [H2 [H3 H4]]]]|[H1 H2]].
  - left. exists j. rewrite <- He. repeat split; auto.
    intros m Hm. rewrite <- He. auto.
  - right. split; [|exact H2]. intros m Hm. rewrite <- He. auto.
Qed.

Lemma ahead_distance_ext f g i x :
  (forall m, f m = g m) ->
  DistSpec.ahead_distance f i x -> DistSpec.ahead_distance g i x.
Proof.
  intros He [[j [H1 [H2 [H3 H4]]]]|[H1 H2]].
  - left. exists j. rewrite <- He. repeat split; auto.
    intros m Hm. rewrite <- He. auto.
  - right. split; [|exact H2]. intros m Hm. rewrite <- He. auto.
Qed.

End ContiguousFacts.

Example midweek_columns :
  map (fun r => (Feat.Is_Holiday r, Feat.Holiday_Duration r,
                 Feat.Distance_to_Holiday r, Feat.Day_of_Week r))
      (calendar_features midweek) =
  [ (false, 0, 2, 0); (false, 0, 1, 1); (true, 1, 0, 2);
    (false, 0, 1, 3); (false, 0, 2, 4) ].
Proof. vm_compute. reflexivity. Qed.

(** C5. In a contiguous daily sequence the stored distance to a holiday
    is 0 exactly on the dates whose final holiday flag is set. On every
    other date it is strictly positive: the smaller of the distance back
    to the most recent holiday and the distance on to the next one, each
    replaced by a sentinel of about [INF] when there is no holiday on that
    side. Positions apart are days apart. *)
Theorem distance_zero_iff_holiday (rows : list Cal.t) (i : nat) (c : Cal.t) :
  CalSpec.contiguous_daily rows ->
  nth_error rows i = Some c ->
  exists r,
    nth_error (calendar_features rows) i = Some r /\
    (Feat.Distance_to_Holiday r = 0 <-> Feat.Is_Holiday r = true) /\
    (Feat.Is_Holiday r = false ->
     0 < Feat.Distance_to_Holiday r /\
     exists back ahead,
       DistSpec.back_distance (CalSpec.holiday_at rows) i back /\
       DistSpec.ahead_distance (CalSpec.holiday_at rows) i ahead /\
       Feat.Distance_to_Holiday r = Z.min back ahead) /\
    (forall j rj,
        nth_error (calendar_features rows) j = Some rj ->
        Time.date (Feat.Date rj) - Time.date (Feat.Date r) =
        Z.of_nat j - Z.of_nat i).
Proof.
  intros Hcont Hc. destruct (LengthFacts.features_defined rows i c Hc) as [r Hr].
  exists r. split; [exact Hr|].
  destruct (FeatFacts.features_nth rows i r Hr)
    as [c' [Hc' [Hdate [_ [_ [_ [Hh Hd]]]]]]].
  assert (c' = c) by congruence. subst c'.
  set (is_hol := is_holiday_final_of (map Cal.Is_NationalHoliday rows)
                   (map Cal.Is_Weekend rows) (is_bridge_of (map seed_of rows))) in *.
  assert (Hlen : Z.of_nat (List.length is_hol) <= INF).
  { destruct (CalFacts.holiday_column rows) as [L _]. unfold is_hol. rewrite L.
    now apply ContiguousFacts.contiguous_length. }
  destruct (DistFacts.distance_spec is_hol i _ Hd) as [Hzero Hpos].
  assert (Hgt : Feat.Is_Holiday r = false -> 0 < Feat.Distance_to_Holiday r).
  { intros Hf. apply (DistFacts.distance_positive is_hol i _ Hlen Hd). congruence. }
  split; [|split].
  - split.
    + intros H0. destruct (Feat.Is_Holiday r) eqn:E; [reflexivity|].
      specialize (Hgt eq_refl). lia.
    + intros Ht. apply Hzero. congruence.
  - intros Hf. split; [now apply Hgt|].
    destruct Hpos as [back [ahead [Hb [Ha He]]]]; [congruence|].
    exists back, ahead. split; [|split; [|exact He]].
    + eapply ContiguousFacts.back_distance_ext; [|exact Hb].
      intros m. symmetry. apply ContiguousFacts.holiday_at_nth.
    + eapply ContiguousFacts.ahead_distance_ext; [|exact Ha].
      intros m. symmetry. apply ContiguousFacts.holiday_at_nth.
  - intros j rj Hj.
    destruct (FeatFacts.features_nth rows j rj Hj) as [cj [Hcj [Hdj _]]].
    destruct (ContiguousFacts.nth_error_defined rows 0) as [a0 Ha0].
    { apply CalFacts.nth_error_lt in Hc. lia. }
    rewrite Hdate, Hdj.
    rewrite (ContiguousFacts.contiguous_dates rows a0 Hcont Ha0 _ _ Hc).
    rewrite (ContiguousFacts.contiguous_dates rows a0 Hcont Ha0 _ _ Hcj).
    unfold Time.date. rewrite !Z.div_add by discriminate. ring.
Qed.

(** The week around a Wednesday holiday: distance 0 on the holiday only,
    and 1 on the day before it. *)
Lemma distance_zero_iff_holiday_witness :
  exists r,
    nth_error (calendar_features midweek) 1 = Some r /\
    (Feat.Distance_to_Holiday r = 0 <-> Feat.Is_Holiday r = true) /\
    Feat.Is_Holiday r = false /\
    0 < Feat.Distance_to_Holiday r.
Proof.
  assert (Hcont : CalSpec.contiguous_daily midweek).
  { split.
    - intros i a b Ha Hb.
      do 5 (destruct i as [|i];
            [simpl in Ha, Hb; try discriminate;
             injection Ha as <-; injection Hb as <-; reflexivity|]).
      destruct i; discriminate.
    - intros a Ha. simpl in Ha.
      repeat (destruct Ha as [<-|Ha]; [vm_compute; split; reflexivity|]).
      contradiction. }
  destruct (distance_zero_iff_holiday midweek 1
              (plain_day (Time.ymd 2025 9 2) false false) Hcont eq_refl)
    as [r [Hr [Hiff [Hpos _]]]].
  exists r. split; [exact Hr|]. split; [exact Hiff|].
  assert (Hf : Feat.Is_Holiday r = false).
  { vm_compute in Hr. injection Hr as <-. reflexivity. }
  split; [exact Hf|]. exact (proj1 (Hpos Hf)).
Defined.

(** ** The future calendar *)

Module FutureFacts.

Lemma features_nth_flags rows i r :
  nth_error (calendar_features rows) i = Some r ->
  exists c,
    nth_error rows i = Some c /\
    Feat.Date r = Cal.Date c /\
    Feat.Is_NationalHoliday r = Cal.Is_NationalHoliday c /\
    Feat.Is_SchoolHoliday r = Cal.Is_SchoolHoliday c /\
    Feat.Is_Event r = Cal.Is_Event c /\
    Feat.Is_Weekend r = Cal.Is_Weekend c.
Proof.
  intros H. unfold calendar_features in H.
  rewrite NpFacts.nth_error_zip_with in H.
  destruct (nth_error rows i) as [c|] eqn:Ec; [|discriminate].
  match type of H with
  | match ?x with _ => _ end = _ => destruct x as [[[[br hol] [du da]] dst]|]; [|discriminate]
  end.
  destruct (Time.civil (Time.date (Cal.Date c))) as [[y m] d] eqn:Eciv.
  injection H as <-. exists c. repeat split.
Qed.

(** A row of the future calendar is the loop body at its own date. *)
Lemma future_row_of holidays start_date feats r :
  _future_calendar_2026 holidays start_date = Some feats ->
  In r feats ->
  Feat.Is_NationalHoliday r = Cal.Is_NationalHoliday (future_row holidays (Feat.Date r)) /\
  Feat.Is_SchoolHoliday r = Cal.Is_SchoolHoliday (future_row holidays (Feat.Date r)) /\
  Feat.Is_Event r = Cal.Is_Event (future_row holidays (Feat.Date r)).
Proof.
  unfold _future_calendar_2026. intros H Hin.
  assert (Hf : feats = calendar_features (future_rows holidays start_date)).
  { destruct (future_rows holidays start_date); [discriminate | now injection H]. }
  subst feats. apply In_nth_error in Hin. destruct Hin as [i Hi].
  apply features_nth_flags in Hi.
  destruct Hi as [c [Hc [Hd [Hn [Hs [He _]]]]]].
  apply nth_error_In in Hc. unfold future_rows in Hc.
  apply in_map_iff in Hc. destruct Hc as [date [<- _]].
  assert (Hdate : Cal.Date (future_row holidays date) = date).
  { unfold future_row. destruct (holiday_info holidays date); reflexivity. }
  rewrite Hd, Hdate. auto.
Qed.

(** The three kind lists share no text. *)
Lemma kinds_exclusive kind :
  (flags_set (Text.mem kind national_kinds) (Text.mem kind school_kinds)
             (Text.mem kind event_kinds) <= 1)%nat.
Proof.
  destruct (Text.mem kind national_kinds) eqn:En.
  - apply TextFacts.mem_In in En. unfold national_kinds in En. simpl in En.
    repeat (destruct En as [<-|En]; [cbv; lia|]). contradiction.
  - destruct (Text.mem kind school_kinds) eqn:Es.
    + apply TextFacts.mem_In in Es. unfold school_kinds in Es. simpl in Es.
      repeat (destruct Es as [<-|Es]; [cbv; lia|]). contradiction.
    + unfold flags_set. destruct (Text.mem kind event_kinds); simpl; lia.
Qed.

(** The rows of the table for one date, when the first of them is known. *)
Lemma holiday_info_first before h after date :
  Holiday.Date h = Some date ->
  (forall b, In b before -> Holiday.Date b <> Some date) ->
  holiday_info (before ++ h :: after) date = h :: holiday_info after date.
Proof.
  intros Hh Hb. unfold holiday_info. rewrite filter_app.
  rewrite (OccFacts.filter_none _ before).
  - simpl. rewrite Hh, Z.eqb_refl. reflexivity.
  - intros b Hin. specialize (Hb b Hin).
    destruct (Holiday.Date b) as [t|]; [|reflexivity].
    apply Z.eqb_neq. congruence.
Qed.

End FutureFacts.

Example year_end_calendar :
  _future_calendar_2026 year_end_holidays year_end_start =
  Some [ Feat.mk (Time.of_date (Time.ymd 2026 12 30)) None false false false false
                 false false 0 0 1000000000 2 30 12 2026;
         year_end_row ].
Proof. vm_compute. reflexivity. Qed.

(** C9. In the future calendar the three kind flags of a date come from
    one row of the holiday table at most, the first row listed for that
    date: with no such row all three are unset; otherwise they are the
    membership of that row's lower-cased kind in the national, school and
    event lists, whatever rows for the same date follow. The three lists
    being disjoint, at most one of the flags is set. *)
Theorem future_flags_first_match (holidays : list Holiday.t)
    (start_date : option Z) (feats : list Feat.t) (r : Feat.t) :
  _future_calendar_2026 holidays start_date = Some feats ->
  In r feats ->
  (holiday_info holidays (Feat.Date r) = [] ->
   Feat.Is_NationalHoliday r = false /\ Feat.Is_SchoolHoliday r = false /\
   Feat.Is_Event r = false) /\
  (forall before first after,
      holidays = before ++ first :: after ->
      Holiday.Date first = Some (Feat.Date r) ->
      (forall b, In b before -> Holiday.Date b <> Some (Feat.Date r)) ->
      let kind := Text.lower (Holiday.Kind first) in
      Feat.Is_NationalHoliday r = Text.mem kind national_kinds /\
      Feat.Is_SchoolHoliday r = Text.mem kind school_kinds /\
      Feat.Is_Event r = Text.mem kind event_kinds) /\
  (flags_set (Feat.Is_NationalHoliday r) (Feat.Is_SchoolHoliday r)
             (Feat.Is_Event r) <= 1)%nat.
Proof.
  intros H Hin.
  destruct (FutureFacts.future_row_of holidays start_date feats r H Hin)
    as [Hn [Hs He]].
  rewrite Hn, Hs, He. clear Hn Hs He.
  split; [|split].
  - intros Hnone. unfold future_row. rewrite Hnone. auto.
  - intros before first after -> Hd Hb kind.
    unfold future_row.
    rewrite (FutureFacts.holiday_info_first before first after _ Hd Hb).
    auto.
  - unfold future_row.
    destruct (holiday_info holidays (Feat.Date r)) as [|first rest].
    + unfold flags_set. simpl. lia.
    + simpl. apply FutureFacts.kinds_exclusive.
Qed.

(** A date listed as school holiday first and national holiday second
    gets the school flag only. *)
Lemma future_flags_first_match_witness :
  Feat.Is_NationalHoliday year_end_row = false /\
  Feat.Is_SchoolHoliday year_end_row = true /\
  Feat.Is_Event year_end_row = false.
Proof.
  assert (Hin : In year_end_row
                   [ Feat.mk (Time.of_date (Time.ymd 2026 12 30)) None false false
                             false false false false 0 0 1000000000 2 30 12 2026;
                     year_end_row ]) by (right; left; reflexivity).
  destruct (future_flags_first_match year_end_holidays year_end_start _
              year_end_row year_end_calendar Hin) as [_ [Hfirst _]].
  apply (Hfirst [] (Holiday.mk (Some (Time.of_date (Time.ymd 2026 12 31))) "School")
                [ Holiday.mk (Some (Time.of_date (Time.ymd 2026 12 31))) "National";
                  Holiday.mk None "event" ]).
  - reflexivity.
  - reflexivity.
  - intros b [].
Defined.

(** ** Sorting by a total order *)

Module SortFacts.
Import Frame FrameFacts.

Section SortOn.
Context {A : Type} (leb : A -> A -> bool) (P : A -> Prop).
Hypothesis leb_total : forall a b, P a -> P b -> leb a b = false -> leb b a = true.
Hypothesis leb_trans :
  forall a b c, P a -> P b -> P c ->
                leb a b = true -> leb b c = true -> leb a c = true.

Local Abbreviation sorted := (StronglySorted (fun a b => leb a b = true)).

Lemma insert_sorted_strongly x l :
  P x -> Forall P l -> sorted l -> sorted (insert_sorted leb x l).
Proof.
  intros Hx Hl Hs. induction Hs as [|y ys Hys IH Hy]; simpl.
  - constructor; constructor.
  - inversion Hl as [|? ? Py Pys]; subst.
    destruct (leb x y) eqn:E.
    + constructor; [constructor; assumption|].
      constructor; [exact E|].
      rewrite Forall_forall in *. intros z Hz.
      apply (leb_trans x y z); auto.
    + constructor; [apply IH; assumption|].
      rewrite Forall_forall in *. intros z Hz.
      apply In_insert_sorted in Hz. destruct Hz as [->|Hz]; auto.
Qed.

Lemma sort_by_strongly l : Forall P l -> sorted (sort_by leb l).
Proof.
  induction l as [|x xs IH]; intros H; simpl; [constructor|].
  inversion H; subst. apply insert_sorted_strongly; auto.
  rewrite Forall_forall in *. intros z Hz. apply In_sort_by in Hz. auto.
Qed.

End SortOn.

Section Sorted.
Context {A : Type} (leb : A -> A -> bool).

Local Abbreviation sorted := (StronglySorted (fun a b => leb a b = true)).

(** Sorting a sorted list leaves it as it is. *)
Lemma sort_by_sorted l : sorted l -> sort_by leb l = l.
Proof.
  induction 1 as [|x xs Hxs IH Hx]; simpl; [reflexivity|].
  rewrite IH. destruct xs as [|y ys]; [reflexivity|].
  simpl. inversion Hx; subst. now rewrite H1.
Qed.

Lemma sorted_filter (p : A -> bool) l : sorted l -> sorted (filter p l).
Proof.
  induction 1 as [|x xs Hxs IH Hx]; simpl; [constructor|].
  destruct (p x); [|exact IH]. constructor; [exact IH|].
  rewrite Forall_forall in *. intros z Hz. apply filter_In in Hz. apply Hx, Hz.
Qed.

Lemma sorted_map (f : A -> A) l :
  (forall a b, leb (f a) (f b) = leb a b) -> sorted l -> sorted (map f l).
Proof.
  intros Hf. induction 1 as [|x xs Hxs IH Hx]; simpl; constructor; [exact IH|].
  rewrite Forall_forall in *. intros z Hz. apply in_map_iff in Hz.
  destruct Hz as [y [<- Hy]]. rewrite Hf. auto.
Qed.

End Sorted.

(** The order on strings. *)
Lemma string_leb_trans a b c :
  String.leb a b = true -> String.leb b c = true -> String.leb a c = true.
Proof.
  unfold String.leb.
  destruct (String.compare a b) eqn:E1; try discriminate;
    destruct (String.compare b c) eqn:E2; try discriminate; intros _ _.
  - apply String.compare_eq_iff in E1, E2. subst.
    pose proof (proj2 (String_as_OT.cmp_eq c c) eq_refl) as H.
    unfold String_as_OT.cmp in H. now rewrite H.
  - apply String.compare_eq_iff in E1. subst. now rewrite E2.
  - apply String.compare_eq_iff in E2. subst. now rewrite E1.
  - apply String_as_OT.cmp_lt in E1, E2.
    pose proof (String_as_OT.lt_trans _ _ _ E1 E2) as H.
    apply String_as_OT.cmp_lt in H. unfold String_as_OT.cmp in H. now rewrite H.
Qed.

Lemma string_leb_total a b : String.leb a b = false -> String.leb b a = true.
Proof.
  intros H. destruct (String.leb_total a b) as [H'|H']; congruence.
Qed.

Lemma opt_leb_string_trans (a b c : option string) :
  opt_leb String.leb a b = true -> opt_leb String.leb b c = true ->
  opt_leb String.leb a c = true.
Proof.
  destruct a, b, c; simpl; try discriminate; try reflexivity.
  apply string_leb_trans.
Qed.

Lemma opt_leb_string_total (a b : option string) :
  opt_leb String.leb a b = false -> opt_leb String.leb b a = true.
Proof.
  destruct a, b; simpl; try discriminate; try reflexivity.
  apply string_leb_total.
Qed.

Lemma key_leb_total a b : key_leb a b = false -> key_leb b a = true.
Proof.
  destruct a as [[x|] s], b as [[y|] t]; unfold key_leb; simpl.
  - destruct (x <? y) eqn:E1; [discriminate|].
    destruct (y <? x) eqn:E2; [reflexivity|]. apply opt_leb_string_total.
  - discriminate.
  - reflexivity.
  - apply opt_leb_string_total.
Qed.

Lemma key_leb_trans a b c :
  key_leb a b = true -> key_leb b c = true -> key_leb a c = true.
Proof.
  destruct a as [[x|] s], b as [[y|] t], c as [[z|] u]; unfold key_leb; simpl;
    try discriminate; try reflexivity; try apply opt_leb_string_trans.
  destruct (x <? y) eqn:E1, (y <? x) eqn:E2, (y <? z) eqn:E3, (z <? y) eqn:E4,
    (x <? z) eqn:E5, (z <? x) eqn:E6;
    try discriminate; try reflexivity;
    rewrite ?Z.ltb_lt, ?Z.ltb_ge in *; try lia;
    apply opt_leb_string_trans.
Qed.

Lemma row_leb_total a b :
  has_key a -> has_key b -> row_leb a b = false -> row_leb b a = true.
Proof.
  unfold has_key, row_leb. intros Ha Hb.
  destruct (sort_key a) as [ka|]; [|congruence].
  destruct (sort_key b) as [kb|]; [|congruence].
  apply key_leb_total.
Qed.

Lemma row_leb_trans a b c :
  has_key a -> has_key b -> has_key c ->
  row_leb a b = true -> row_leb b c = true -> row_leb a c = true.
Proof.
  unfold has_key, row_leb. intros Ha Hb Hc.
  destruct (sort_key a) as [ka|]; [|congruence].
  destruct (sort_key b) as [kb|]; [|congruence].
  destruct (sort_key c) as [kc|]; [|congruence].
  apply key_leb_trans.
Qed.

End SortFacts.

(** ** The combiner *)

Module CombineFacts.
Import Frame FrameFacts SortFacts.

Lemma traverse_spec {A B : Type} (f : A -> option B) l l' :
  traverse f l = Some l' ->
  List.length l' = List.length l /\
  forall y, In y l' -> exists x, In x l /\ f x = Some y.
Proof.
  revert l'. induction l as [|x xs IH]; intros l' H; simpl in H.
  - injection H as <-. split; [reflexivity | intros y []].
  - destruct (f x) as [y0|] eqn:Ef; [|discriminate].
    destruct (traverse f xs) as [ys|]; [|discriminate].
    injection H as <-. destruct (IH ys eq_refl) as [Hl Hin].
    split; [simpl; congruence|].
    intros y [<-|Hy]; [exists x; simpl; auto|].
    destruct (Hin y Hy) as [x' [Hx' Hf]]. exists x'. simpl. auto.
Qed.

Lemma traverse_id {A : Type} (f : A -> option A) l :
  (forall x, In x l -> f x = Some x) -> traverse f l = Some l.
Proof.
  induction l as [|x xs IH]; intros H; simpl; [reflexivity|].
  rewrite (H x) by (simpl; auto). rewrite IH; [reflexivity|].
  intros y Hy. apply H. simpl. auto.
Qed.

Lemma to_datetime_date v d : to_datetime v = Some d -> is_date d.
Proof.
  destruct v; simpl; try discriminate; intros H; injection H as <-.
  - left. reflexivity.
  - right. eauto.
Qed.

Lemma to_datetime_fixed d : is_date d -> to_datetime d = Some d.
Proof. intros [->|[t ->]]; reflexivity. Qed.

Lemma get_set_same k d cols vals :
  Df.get cols (Df.set k d cols vals) k =
  match Df.lookup k cols vals with Some _ => d | None => VNull end.
Proof.
  unfold Df.get, Df.get_or. revert vals.
  induction cols as [|c cs IH]; intros [|v vs]; simpl; try reflexivity.
  destruct (k =? c)%string eqn:E; simpl; rewrite ?E; [reflexivity | apply IH].
Qed.

(** The rows of the first loop: one per historical row, each built from
    a row whose Date cell is a date. *)
Lemma historical_part_rows hist hs :
  historical_part hist = Some hs ->
  List.length hs = List.length (data hist) /\
  forall r, In r hs ->
            exists cols v, r = historical_row cols v /\ is_date (Df.get cols v "Date").
Proof.
  unfold historical_part, with_dates. intros H.
  destruct (Text.mem "Date" (columns hist)); [|discriminate].
  destruct (traverse _ (data hist)) as [rows'|] eqn:Et; [|discriminate].
  simpl in H. injection H as <-.
  apply traverse_spec in Et. destruct Et as [Hl Hin].
  split; [now rewrite length_map|].
  intros r Hr. apply in_map_iff in Hr. destruct Hr as [v' [<- Hv']].
  destruct (Hin v' Hv') as [v [_ Hf]].
  exists (columns hist), v'. split; [reflexivity|].
  destruct (to_datetime (Df.get (columns hist) v "Date")) as [d|] eqn:Ed;
    [|discriminate].
  simpl in Hf. injection Hf as <-. rewrite get_set_same.
  destruct (Df.lookup "Date" (columns hist) v); [|left; reflexivity].
  eapply to_datetime_date; eauto.
Qed.

(** What the combiner makes of one of its own historical rows. *)
Lemma historical_row_again cols v :
  is_date (Df.get cols v "Date") ->
  let r := historical_row cols v in
  to_datetime (Df.get combined_columns r "Date") = Some (Df.get combined_columns r "Date") /\
  Df.set "Date" (Df.get combined_columns r "Date") combined_columns r = r /\
  historical_row combined_columns r = null_occ r /\
  sort_key (null_occ r) = sort_key r.
Proof.
  intros Hd r. unfold r, historical_row.
  repeat split; try reflexivity.
  change (to_datetime (Df.get cols v "Date") = Some (Df.get cols v "Date")).
  now apply to_datetime_fixed.
Qed.

(** The parts of a successful run. *)
Lemma combine_inv occ arr hist out :
  combine_forecasts occ arr hist = Some out ->
  exists hs fs,
    historical_part hist = Some hs /\ forecast_part occ arr = Some fs /\
    hs ++ fs <> [] /\ Forall has_key (hs ++ fs) /\
    out = Df.mk combined_columns (sort_by row_leb (hs ++ fs)).
Proof.
  unfold combine_forecasts. intros H.
  destruct (historical_part hist) as [hs|]; [|discriminate].
  destruct (forecast_part occ arr) as [fs|]; [|discriminate].
  exists hs, fs. destruct (hs ++ fs) as [|x xs] eqn:E; [discriminate|].
  rewrite <- E in *.
  destruct (forallb _ (hs ++ fs)) eqn:Ef; [|discriminate].
  injection H as <-. repeat split; try reflexivity.
  - rewrite E. discriminate.
  - rewrite forallb_forall in Ef. apply Forall_forall. intros r Hr.
    specialize (Ef r Hr). unfold has_key. destruct (sort_key r); [discriminate|discriminate].
Qed.

Lemma empty_forecast_part eo ea :
  data eo = [] -> Text.mem "Date" (columns eo) = true ->
  data ea = [] -> Text.mem "Date" (columns ea) = true ->
  forecast_part eo ea = Some [].
Proof.
  intros Ho Co Ha Ca. unfold forecast_part, with_dates.
  rewrite Co, Ca, Ho, Ha. simpl. unfold merge_left_on_date. simpl. reflexivity.
Qed.

Lemma row_leb_null_occ a b :
  sort_key (null_occ a) = sort_key a -> sort_key (null_occ b) = sort_key b ->
  row_leb (null_occ a) (null_occ b) = row_leb a b.
Proof. unfold row_leb. now intros -> ->. Qed.

End CombineFacts.

Module RoundTripFacts.
Import Frame FrameFacts SortFacts CombineFacts.

(** Emptying the occupancy cells leaves the sort key alone. *)
Lemma sort_key_null_occ r : sort_key (null_occ r) = sort_key r.
Proof. do 6 (destruct r as [|? r]; [reflexivity|]). reflexivity. Qed.

Lemma row_leb_null a b : row_leb (null_occ a) (null_occ b) = row_leb a b.
Proof. unfold row_leb. now rewrite !sort_key_null_occ. Qed.

(** The cells of a row after [null_occ]. *)
Lemma null_occ_cells r :
  List.length r = 14%nat ->
  Df.get combined_columns (null_occ r) "Occ" = VNull /\
  Df.get combined_columns (null_occ r) "Forecasted Occ" = VNull /\
  forall k, k <> "Occ"%string -> k <> "Forecasted Occ"%string ->
            Df.get combined_columns (null_occ r) k = Df.get combined_columns r k.
Proof.
  intros Hl.
  do 14 (destruct r as [|? r]; [discriminate|]).
  destruct r; [|discriminate].
  split; [reflexivity|]. split; [reflexivity|].
  intros k H1 H2. unfold null_occ, Df.get, Df.get_or, combined_columns. simpl.
  repeat match goal with
         | |- context [(k =? ?s)%string] =>
             destruct (String.eqb_spec k s); [subst; try congruence; try reflexivity|]
         end.
  reflexivity.
Qed.

(** The combined table of a successful run is sorted, and all its rows
    have a sort key. *)
Lemma combined_sorted occ arr hist out :
  combine_forecasts occ arr hist = Some out ->
  StronglySorted (fun a b => row_leb a b = true) (data out) /\
  Forall has_key (data out).
Proof.
  intros H. apply combine_inv in H.
  destruct H as [hs [fs [_ [_ [_ [Hk ->]]]]]]. simpl. split.
  - apply (sort_by_strongly row_leb has_key row_leb_total row_leb_trans). exact Hk.
  - rewrite Forall_forall in *. intros r Hr. apply In_sort_by in Hr. auto.
Qed.

End RoundTripFacts.

Example combine_samples :
  combine_forecasts occ_sample arr_sample history_sample =
  Some (Df.mk combined_columns [history_combined_row; forecast_combined_row]).
Proof. vm_compute. reflexivity. Qed.

Example combine_history_only :
  combine_forecasts empty_forecast empty_forecast history_sample =
  Some (Df.mk combined_columns [history_combined_row]).
Proof. vm_compute. reflexivity. Qed.

(** C8, as amended. Feeding historical rows of a combined table back as
    the historical input, with forecast inputs that have no row, gives
    the same rows in the same order with every cell unchanged except Occ
    and Forecasted Occ, which come back empty: the combined table has no
    column named Occupancy Rate for the combiner to read. *)
Theorem combine_history_round_trip (occ arr hist out eo ea : frame)
    (hs : list (list value)) (keep : list value -> bool) :
  combine_forecasts occ arr hist = Some out ->
  historical_part hist = Some hs ->
  (forall r, In r (filter keep (data out)) -> In r hs) ->
  filter keep (data out) <> [] ->
  data eo = [] -> Text.mem "Date" (columns eo) = true ->
  data ea = [] -> Text.mem "Date" (columns ea) = true ->
  let back := Df.mk combined_columns (filter keep (data out)) in
  combine_forecasts eo ea back =
    Some (Df.mk combined_columns (map null_occ (data back))) /\
  forall r,
    In r (data back) ->
    Df.get combined_columns (null_occ r) "Occ" = VNull /\
    Df.get combined_columns (null_occ r) "Forecasted Occ" = VNull /\
    forall k, k <> "Occ"%string -> k <> "Forecasted Occ"%string ->
              Df.get combined_columns (null_occ r) k = Df.get combined_columns r k.
Proof.
  intros Hout Hhs Hkeep Hne Heo Hco Hea Hca back.
  set (H := filter keep (data out)) in *.
  assert (Hrows : forall r, In r H ->
            exists cols v, r = historical_row cols v /\ is_date (Df.get cols v "Date")).
  { intros r Hr. apply (proj2 (CombineFacts.historical_part_rows hist hs Hhs)). auto. }
  split.
  - assert (Hpart : historical_part back = Some (map null_occ H)).
    { unfold historical_part, with_dates, back. simpl columns. simpl data.
      change (Text.mem "Date" combined_columns) with true. cbv iota.
      rewrite (CombineFacts.traverse_id _ H).
      - simpl. f_equal. apply map_ext_in. intros r Hr.
        destruct (Hrows r Hr) as [cols [v [-> Hd]]].
        apply (CombineFacts.historical_row_again cols v Hd).
      - intros r Hr. destruct (Hrows r Hr) as [cols [v [-> Hd]]].
        destruct (CombineFacts.historical_row_again cols v Hd) as [H1 [H2 _]].
        rewrite H1. cbn [option_map]. now rewrite H2. }
    destruct (RoundTripFacts.combined_sorted occ arr hist out Hout) as [Hsorted Hkeys].
    unfold combine_forecasts.
    rewrite Hpart, (CombineFacts.empty_forecast_part eo ea Heo Hco Hea Hca), app_nil_r.
    destruct (map null_occ H) as [|x xs] eqn:E.
    { apply map_eq_nil in E. contradiction. }
    rewrite <- E.
    assert (Hall : forallb (fun r => match sort_key r with Some _ => true | None => false end)
                           (map null_occ H) = true).
    { apply forallb_forall. intros r Hr. apply in_map_iff in Hr.
      destruct Hr as [r0 [<- Hr0]]. rewrite RoundTripFacts.sort_key_null_occ.
      rewrite Forall_forall in Hkeys. unfold H in Hr0. apply filter_In in Hr0.
      specialize (Hkeys r0 (proj1 Hr0)). unfold has_key in Hkeys.
      destruct (sort_key r0); [reflexivity | congruence]. }
    rewrite Hall. do 2 f_equal.
    apply SortFacts.sort_by_sorted.
    apply SortFacts.sorted_map; [apply RoundTripFacts.row_leb_null|].
    now apply SortFacts.sorted_filter.
  - intros r Hr. apply RoundTripFacts.null_occ_cells.
    destruct (Hrows r Hr) as [cols [v [-> _]]]. reflexivity.
Qed.

Lemma combine_history_round_trip_witness :
  combine_forecasts empty_forecast empty_forecast
                    (Df.mk combined_columns [history_combined_row]) =
  Some (Df.mk combined_columns [null_occ history_combined_row]).
Proof.
  refine (proj1 (combine_history_round_trip
                   occ_sample arr_sample history_sample
                   (Df.mk combined_columns [history_combined_row; forecast_combined_row])
                   empty_forecast empty_forecast [history_combined_row]
                   (fun r => value_eqb (Df.get combined_columns r "Error ARR") (VNum 0))
                   combine_samples eq_refl _ _ eq_refl eq_refl eq_refl eq_refl)).
  - intros r Hr. exact Hr.
  - discriminate.
Defined.

(** C8 as first stated fails: the historical row that went in with
    occupancy 1/2 comes out of the second run with no occupancy. *)
Lemma combine_round_trip_loses_occupancy :
  combine_forecasts empty_forecast empty_forecast history_sample =
    Some (Df.mk combined_columns [history_combined_row]) /\
  combine_forecasts empty_forecast empty_forecast
                    (Df.mk combined_columns [history_combined_row]) =
    Some (Df.mk combined_columns [null_occ history_combined_row]) /\
  Df.get combined_columns history_combined_row "Occ" = VNum (1 # 2) /\
  Df.get combined_columns (null_occ history_combined_row) "Occ" = VNull /\
  null_occ history_combined_row <> history_combined_row.
Proof.
  split; [vm_compute; reflexivity|]. split; [vm_compute; reflexivity|].
  split; [reflexivity|]. split; [reflexivity|].
  vm_compute. discriminate.
Qed.

(** C10. Every historical input row yields one combined row, and that
    row has holiday_block_length 0 and Is_Bridge False whatever the input
    row held in columns of those names. A row of the combined table with
    another value in either cell is a forecast row. *)
Theorem historical_rows_defaults (occ arr hist out : frame) :
  combine_forecasts occ arr hist = Some out ->
  exists hs fs,
    historical_part hist = Some hs /\
    forecast_part occ arr = Some fs /\
    List.length hs = List.length (data hist) /\
    (forall r, In r hs ->
               In r (data out) /\
               Df.get combined_columns r "holiday_block_length" = VNum 0 /\
               Df.get combined_columns r "Is_Bridge" = VBool false) /\
    (forall r, In r (data out) -> In r hs \/ In r fs) /\
    (forall r, In r (data out) ->
               Df.get combined_columns r "holiday_block_length" <> VNum 0 \/
               Df.get combined_columns r "Is_Bridge" <> VBool false ->
               In r fs).
Proof.
  intros H. destruct (CombineFacts.combine_inv occ arr hist out H)
    as [hs [fs [Hhs [Hfs [_ [_ ->]]]]]].
  exists hs, fs. split; [exact Hhs|]. split; [exact Hfs|].
  destruct (CombineFacts.historical_part_rows hist hs Hhs) as [Hlen Hrows].
  split; [exact Hlen|].
  assert (Hdef : forall r, In r hs ->
            Df.get combined_columns r "holiday_block_length" = VNum 0 /\
            Df.get combined_columns r "Is_Bridge" = VBool false).
  { intros r Hr. destruct (Hrows r Hr) as [cols [v [-> _]]]. split; reflexivity. }
  assert (Hsplit : forall r, In r (Frame.sort_by row_leb (hs ++ fs)) ->
                             In r hs \/ In r fs).
  { intros r Hr. apply FrameFacts.In_sort_by in Hr. now apply in_app_or in Hr. }
  simpl data. split; [|split].
  - intros r Hr. split; [|now apply Hdef].
    apply FrameFacts.In_sort_by. apply in_or_app. now left.
  - exact Hsplit.
  - intros r Hr Hnd. destruct (Hsplit r Hr) as [Hh|Hf]; [|exact Hf].
    destruct (Hdef r Hh) as [H1 H2]. destruct Hnd; congruence.
Qed.

(** The historical row held a block length of 3 and a bridge flag; its
    combined row holds 0 and False, while the forecast row keeps its own. *)
Lemma historical_rows_defaults_witness :
  Df.get (columns history_sample) (hd [] (data history_sample)) "Is_Bridge" = VBool true /\
  In history_combined_row [history_combined_row; forecast_combined_row] /\
  Df.get combined_columns history_combined_row "holiday_block_length" = VNum 0 /\
  Df.get combined_columns history_combined_row "Is_Bridge" = VBool false /\
  Df.get combined_columns forecast_combined_row "Is_Bridge" = VBool true.
Proof.
  destruct (historical_rows_defaults occ_sample arr_sample history_sample _
              combine_samples) as [hs [fs [Hhs [_ [_ [Hdef _]]]]]].
  vm_compute in Hhs. injection Hhs as <-.
  destruct (Hdef history_combined_row (or_introl eq_refl)) as [Hin [H1 H2]].
  split; [reflexivity|]. split; [exact Hin|]. split; [exact H1|].
  split; [exact H2|]. reflexivity.
Defined.

(** * Further properties of the code *)

(** ** Bounds of the daily occupancy *)

Module BoundFacts.
Import FrameFacts.

(** Every row of the aggregate table carries all the occupancy columns of
    the entry of its date. *)
Lemma In_build_entry r src excl inv maint :
  In r (build_feature_dataset src excl inv maint) ->
  let e := daily_occ_entry (excluded_set excl) inv maint
                           (expand_stays_to_daily_rows src) (Agg.Date r) in
  Agg.Occupancy_Rate r = Some (DailyOcc.daily_occupancy_rate e) /\
  Agg.Rooms_Sold r = Some (DailyOcc.total_rooms_sold e) /\
  Agg.Rooms_Excluded r = Some (DailyOcc.total_rooms_blocked e) /\
  Agg.Rooms_Maintenance r = Some (DailyOcc.total_rooms_maintenance e) /\
  Agg.Room_Inventory r = Some (DailyOcc.total_inventory e) /\
  Agg.Available_Inventory r = Some (DailyOcc.available_inventory e).
Proof.
  intros H. unfold build_feature_dataset in H.
  set (excluded := excluded_set excl) in *.
  set (daily := expand_stays_to_daily_rows src) in *.
  assert (H' : In r (merge_on_date (adr_agg excluded daily)
                        (daily_occ_data excluded inv maint daily))).
  { destruct daily; [contradiction|]. now apply (proj1 (In_sort_by _ _ _)) in H. }
  clear H. apply AggFacts.In_merge_on_date in H'.
  destruct H' as [k [avg [Hk Hr]]].
  apply AggFacts.In_adr_agg in Hk. destruct Hk as [dr [Hdr [_ Hkey]]].
  assert (Hd : fst (fst k) = Daily.date dr) by (now subst k).
  destruct Hr as [[Hnil _]|[o [Ho [Hod ->]]]].
  - exfalso.
    assert (Hin : In (daily_occ_entry excluded inv maint daily (Daily.date dr))
                     (filter (fun o => DailyOcc.date o =? fst (fst k))
                             (daily_occ_data excluded inv maint daily))).
    { apply filter_In. split.
      - unfold daily_occ_data. apply in_map.
        apply (In_unique Z.eqb Zeqb_eq). now apply in_map.
      - simpl. rewrite Hd. apply Z.eqb_refl. }
    rewrite Hnil in Hin. contradiction.
  - unfold daily_occ_data in Ho. apply in_map_iff in Ho.
    destruct Ho as [d' [<- _]]. simpl in Hod. subst d'.
    destruct k as [[d t] a]. simpl. repeat split.
Qed.

Lemma rate_of_bounds sold available :
  0 <= sold -> 1 <= available ->
  (0 <= rate_of sold available)%Q /\ (rate_of sold available <= 1)%Q.
Proof.
  intros Hs Ha.
  assert (Hx : (0 <= inject_Z sold / inject_Z available)%Q).
  { apply Qle_shift_div_l.
    - change 0%Q with (inject_Z 0). rewrite <- Zlt_Qlt. lia.
    - rewrite Qmult_0_l. change 0%Q with (inject_Z 0). rewrite <- Zle_Qle. exact Hs. }
  rewrite OccFacts.rate_of_Qmin. split.
  - apply Q.min_glb; [discriminate | exact Hx].
  - apply Q.le_min_l.
Qed.

End BoundFacts.

(** X1. Every row of the daily aggregate table has an occupancy rate
    between 0 and 1, a count of rooms sold that is not negative and an
    available inventory of at least 1, whatever the inventory map and the
    maintenance table hold. *)
Theorem occupancy_rate_bounded (src : list Stay.t) (excl : option (list string))
    (inv : option (list (string * Z))) (maint : option (list Maint.t)) (r : Agg.t) :
  In r (build_feature_dataset src excl inv maint) ->
  exists rate sold available,
    Agg.Occupancy_Rate r = Some rate /\
    Agg.Rooms_Sold r = Some sold /\
    Agg.Available_Inventory r = Some available /\
    (0 <= rate)%Q /\ (rate <= 1)%Q /\ 0 <= sold /\ 1 <= available.
Proof.
  intros H. destruct (BoundFacts.In_build_entry r src excl inv maint H)
    as [Ho [Hs [_ [_ [_ Ha]]]]].
  eexists _, _, _. split; [exact Ho|]. split; [exact Hs|]. split; [exact Ha|].
  unfold daily_occ_entry. cbn [DailyOcc.daily_occupancy_rate
    DailyOcc.total_rooms_sold DailyOcc.available_inventory].
  assert (H1 : 1 <= available_of
                      match inv with
                      | Some (e :: m) => sum_Z (map snd (e :: m))
                      | _ => Frame.nunique
                               (map Daily.room_number
                                    (filter (fun r0 => Daily.date r0 =? Agg.Date r)
                                            (expand_stays_to_daily_rows src)))
                      end
                      (Frame.nunique
                         (map Daily.room_number
                              (filter (fun r0 => negb (paid_flag (excluded_set excl) r0))
                                      (filter (fun r0 => Daily.date r0 =? Agg.Date r)
                                              (expand_stays_to_daily_rows src)))))
                      (maintenance_on maint (Agg.Date r))).
  { unfold available_of. lia. }
  pose proof (InventoryFacts.nunique_nonneg
                (map Daily.room_number
                     (filter (paid_flag (excluded_set excl))
                             (filter (fun r0 => Daily.date r0 =? Agg.Date r)
                                     (expand_stays_to_daily_rows src))))) as H0.
  destruct (BoundFacts.rate_of_bounds _ _ H0 H1) as [Hlo Hhi].
  repeat split; assumption.
Qed.

Lemma occupancy_rate_bounded_witness :
  exists rate sold available,
    Agg.Occupancy_Rate presidential_row = Some rate /\
    Agg.Rooms_Sold presidential_row = Some sold /\
    Agg.Available_Inventory presidential_row = Some available /\
    (0 <= rate)%Q /\ (rate <= 1)%Q /\ 0 <= sold /\ 1 <= available.
Proof.
  apply (occupancy_rate_bounded [scenario_stay; presidential_stay] None None None).
  vm_compute. auto.
Defined.

(** ** Room type resolution *)

Module StripFacts.
Import Text.

Lemma rstrip_idem s : rstrip (rstrip s) = rstrip s.
Proof.
  induction s as [|c s' IH]; [reflexivity|].
  cbn [rstrip]. destruct (rstrip s') as [|c' r] eqn:E.
  - destruct (is_space c) eqn:Ec; [reflexivity|].
    cbn [rstrip]. now rewrite Ec.
  - cbn [rstrip]. cbn [rstrip] in IH. rewrite IH. reflexivity.
Qed.

Lemma rstrip_head c s :
  is_space c = false -> exists r, rstrip (String c s) = String c r.
Proof.
  intros Hc. cbn [rstrip]. destruct (rstrip s) as [|c' r].
  - rewrite Hc. eauto.
  - eauto.
Qed.

Lemma lstrip_head s :
  lstrip s = EmptyString \/ exists c t, lstrip s = String c t /\ is_space c = false.
Proof.
  induction s as [|c s' IH]; [left; reflexivity|].
  cbn [lstrip]. destruct (is_space c) eqn:Ec; [exact IH|].
  right. eauto.
Qed.

Lemma lstrip_strip s : lstrip (strip s) = strip s.
Proof.
  unfold strip. destruct (lstrip_head s) as [->|[c [t [-> Hc]]]]; [reflexivity|].
  destruct (rstrip_head c t Hc) as [r ->]. cbn [lstrip]. now rewrite Hc.
Qed.

(** Stripping twice is stripping once. *)
Lemma strip_idem s : strip (strip s) = strip s.
Proof.
  unfold strip at 1. rewrite lstrip_strip. unfold strip. apply rstrip_idem.
Qed.

End StripFacts.

(** X2. On a text cell the room type resolution is stable: what it
    returns is not blank, carries no white space around it, and resolves
    to itself when it is fed back, be it one of the four categories or a
    kept raw text. *)
Theorem final_room_stable (s rt : string) :
  final_room (Stay.Str s) = Some rt ->
  rt <> ""%string /\ Text.strip rt = rt /\ final_room (Stay.Str rt) = Some rt.
Proof.
  intros H. destruct (RoomFacts.final_room_cases _ _ H) as [Hc|[Hm [_ [Hs Hne]]]].
  - unfold room_categories in Hc. simpl in Hc.
    repeat (destruct Hc as [<-|Hc]; [repeat split; discriminate|]). contradiction.
  - assert (Hst : Text.strip rt = rt).
    { rewrite Hs. simpl. apply StripFacts.strip_idem. }
    split; [exact Hne|]. split; [exact Hst|].
    assert (Hmap : _map_room_type (Stay.Str rt) = None).
    { unfold _map_room_type in *.
      destruct (String.length rt =? 0)%nat; [reflexivity|].
      rewrite Hst. rewrite Hs. simpl Stay.str.
      destruct (String.length s =? 0)%nat eqn:El.
      - destruct s; [|discriminate]. exfalso. apply Hne. rewrite Hs. reflexivity.
      - exact Hm. }
    unfold final_room. rewrite Hmap. simpl Stay.notna. simpl Stay.str.
    rewrite Hst. apply String.eqb_neq in Hne. now rewrite Hne.
Qed.

Lemma final_room_stable_witness :
  final_room (Stay.Str "Presidential") = Some "Presidential"%string.
Proof.
  apply (final_room_stable " Presidential " "Presidential"). reflexivity.
Defined.

(** ** The daily table as a whole *)

Module DailyFacts.



End DailyFacts.



(** ** Shape of the aggregate table *)

Module ShapeFacts.
Import Frame FrameFacts.

Lemma NoDup_insert_sorted {A : Type} (leb : A -> A -> bool) x l :
  ~ In x l -> NoDup l -> NoDup (insert_sorted leb x l).
Proof.
  induction l as [|y ys IH]; intros Hx Hl; simpl.
  - constructor; [auto | constructor].
  - destruct (leb x y).
    + constructor; assumption.
    + inversion Hl; subst. constructor.
      * rewrite In_insert_sorted. intros [->|H]; [apply Hx; simpl; auto | contradiction].
      * apply IH; [intros H; apply Hx; simpl; auto | assumption].
Qed.

Lemma NoDup_sort_by {A : Type} (leb : A -> A -> bool) l :
  NoDup l -> NoDup (sort_by leb l).
Proof.
  induction 1 as [|x xs Hx Hxs IH]; simpl; [constructor|].
  apply NoDup_insert_sorted; [|exact IH]. now rewrite In_sort_by.
Qed.

(** The aggregate row made from one group of the rate aggregation. *)
Lemma merge_exact excluded inv maint daily adr :
  (forall k avg, In (k, avg) adr -> In (fst (fst k)) (map Daily.date daily)) ->
  merge_on_date adr (daily_occ_data excluded inv maint daily) =
  map (fun ka : adr_key * Q =>
         merge_row (fst ka) (snd ka)
                   (Some (daily_occ_entry excluded inv maint daily (fst (fst (fst ka))))))
      adr.
Proof.
  unfold merge_on_date. induction adr as [|[k avg] rest IH]; intros H; [reflexivity|].
  simpl. rewrite (OccFacts.entry_of_date excluded inv maint daily (fst (fst k))).
  - simpl. f_equal. apply IH. intros k' avg' Hin. apply (H k' avg'). now right.
  - apply (H k avg). now left.
Qed.

Lemma build_unfold src excl inv maint :
  build_feature_dataset src excl inv maint =
  sort_by agg_leb
    (map (fun ka : adr_key * Q =>
            merge_row (fst ka) (snd ka)
              (Some (daily_occ_entry (excluded_set excl) inv maint
                       (expand_stays_to_daily_rows src) (fst (fst (fst ka))))))
         (adr_agg (excluded_set excl) (expand_stays_to_daily_rows src))).
Proof.
  unfold build_feature_dataset.
  destruct (expand_stays_to_daily_rows src) as [|d0 ds] eqn:E; [reflexivity|].
  rewrite merge_exact; [reflexivity|].
  intros k avg Hin. apply AggFacts.In_adr_agg in Hin.
  destruct Hin as [dr [Hdr [_ <-]]].
  change (fst (fst (key_of dr))) with (Daily.date dr).
  apply (in_map Daily.date _ _ Hdr).
Qed.

End ShapeFacts.

(** X4. The aggregate table has exactly one row for every combination of
    date, room type and arrangement that occurs among the paid daily rows
    with a rate, and no other row: combinations without such a row are
    left out. The row carries the combination (a missing arrangement
    written as the empty text) and the mean nightly rate of the paid rows
    of that combination. *)
Theorem aggregate_rows_are_groups (src : list Stay.t) (excl : option (list string))
    (inv : option (list (string * Z))) (maint : option (list Maint.t)) :
  let paid := filter (valid_rate_flag (excluded_set excl))
                     (expand_stays_to_daily_rows src) in
  let group_mean := fun k =>
    mean (Frame.dropna
            (map Daily.nightly_rate
                 (filter (fun x => adr_key_eqb (key_of x) k) paid))) in
  let row_of := fun (k : adr_key) (r : Agg.t) =>
    Agg.Date r = fst (fst k) /\ Agg.Room_Type r = snd (fst k) /\
    Agg.Arrangement r = fill_arrangement (snd k) /\
    Agg.Average_Room_Rate r = group_mean k in
  (forall dr, In dr paid ->
              exists r, In r (build_feature_dataset src excl inv maint) /\
                        row_of (key_of dr) r) /\
  (forall r, In r (build_feature_dataset src excl inv maint) ->
             exists dr, In dr paid /\ row_of (key_of dr) r) /\
  exists keys,
    NoDup keys /\ (forall k, In k keys <-> exists dr, In dr paid /\ key_of dr = k) /\
    List.length (build_feature_dataset src excl inv maint) = List.length keys.
Proof.
  intros paid group_mean row_of.
  rewrite ShapeFacts.build_unfold.
  set (entry := daily_occ_entry (excluded_set excl) inv maint
                                (expand_stays_to_daily_rows src)).
  assert (Hrow : forall k avg, avg = group_mean k ->
            row_of k (merge_row k avg (Some (entry (fst (fst k)))))).
  { intros [[d t] a] avg ->. repeat split. }
  split; [|split].
  - intros dr Hdr.
    exists (merge_row (key_of dr) (group_mean (key_of dr))
                      (Some (entry (fst (fst (key_of dr)))))).
    split; [|now apply Hrow].
    apply FrameFacts.In_sort_by. apply in_map_iff.
    exists (key_of dr, group_mean (key_of dr)). split; [reflexivity|].
    unfold adr_agg. apply in_map_iff. exists (key_of dr). split; [reflexivity|].
    apply FrameFacts.In_sort_by.
    apply (FrameFacts.In_unique adr_key_eqb AggFacts.adr_key_eqb_eq).
    now apply in_map.
  - intros r Hr. apply (proj1 (FrameFacts.In_sort_by _ _ _)) in Hr.
    apply in_map_iff in Hr. destruct Hr as [[k avg] [<- Hk]].
    assert (Havg : avg = group_mean k).
    { unfold adr_agg in Hk. apply in_map_iff in Hk.
      destruct Hk as [k' [Heq _]]. now inversion Heq. }
    apply AggFacts.In_adr_agg in Hk. destruct Hk as [dr [Hdr [Hv <-]]].
    exists dr. split; [apply filter_In; auto|]. now apply Hrow.
  - exists (Frame.unique adr_key_eqb (map key_of paid)). split; [|split].
    + apply (FrameFacts.NoDup_unique adr_key_eqb AggFacts.adr_key_eqb_eq).
    + intros k. rewrite (FrameFacts.In_unique adr_key_eqb AggFacts.adr_key_eqb_eq).
      rewrite in_map_iff. split; intros [dr [H1 H2]]; exists dr; auto.
    + rewrite FrameFacts.length_sort_by, length_map. unfold adr_agg.
      now rewrite length_map, FrameFacts.length_sort_by.
Qed.

Lemma aggregate_rows_are_groups_witness :
  List.length (build_feature_dataset [scenario_stay; presidential_stay]
                                     None None None) = 3%nat.
Proof.
  destruct (aggregate_rows_are_groups [scenario_stay; presidential_stay]
              None None None) as [_ [_ [keys [Hnd [Hkeys Hlen]]]]].
  rewrite Hlen.
  set (k1 := (Time.ymd 2024 1 1, Some "Deluxe"%string, Some "RB"%string) : adr_key).
  set (k2 := (Time.ymd 2024 1 2, Some "Deluxe"%string, Some "RB"%string) : adr_key).
  set (k3 := (Time.ymd 2024 1 1, Some "Presidential"%string, Some "RO"%string) : adr_key).
  assert (Hpaid : map key_of
                    (filter (valid_rate_flag (excluded_set None))
                            (expand_stays_to_daily_rows
                               [scenario_stay; presidential_stay])) = [k1; k2; k3])
    by (vm_compute; reflexivity).
  assert (Hk : forall k, In k keys <-> In k [k1; k2; k3]).
  { intros k. rewrite Hkeys, <- Hpaid, in_map_iff.
    split; intros [dr [H1 H2]]; exists dr; auto. }
  change 3%nat with (List.length [k1; k2; k3]).
  apply Nat.le_antisymm.
  - apply (NoDup_incl_length Hnd). intros k Hin. now apply Hk.
  - apply NoDup_incl_length.
    + repeat constructor; simpl; intuition discriminate.
    + intros k Hin. now apply Hk.
Defined.

Module AggOrderFacts.
Import Frame SortFacts.

Lemma agg_leb_total a b : agg_leb a b = false -> agg_leb b a = true.
Proof.
  unfold agg_leb.
  destruct (Agg.Date a <? Agg.Date b) eqn:E1; [discriminate|].
  destruct (Agg.Date b <? Agg.Date a) eqn:E2; [reflexivity|].
  apply opt_leb_string_total.
Qed.

Lemma agg_leb_trans a b c :
  agg_leb a b = true -> agg_leb b c = true -> agg_leb a c = true.
Proof.
  unfold agg_leb.
  destruct (Agg.Date a <? Agg.Date b) eqn:E1, (Agg.Date b <? Agg.Date a) eqn:E2,
    (Agg.Date b <? Agg.Date c) eqn:E3, (Agg.Date c <? Agg.Date b) eqn:E4,
    (Agg.Date a <? Agg.Date c) eqn:E5, (Agg.Date c <? Agg.Date a) eqn:E6;
    try discriminate; try reflexivity;
    rewrite ?Z.ltb_lt, ?Z.ltb_ge in *; try lia;
    apply opt_leb_string_trans.
Qed.

Lemma agg_leb_spec a b :
  agg_leb a b = true <->
  Agg.Date a < Agg.Date b \/
  (Agg.Date a = Agg.Date b /\
   opt_leb String.leb (Agg.Room_Type a) (Agg.Room_Type b) = true).
Proof.
  unfold agg_leb.
  destruct (Agg.Date a <? Agg.Date b) eqn:E1; rewrite ?Z.ltb_lt, ?Z.ltb_ge in *.
  - split; auto.
  - destruct (Agg.Date b <? Agg.Date a) eqn:E2; rewrite ?Z.ltb_lt, ?Z.ltb_ge in *.
    + split; [discriminate | intros [H|[H _]]; lia].
    + split; [intros H; right; split; [lia | exact H] | intros [H|[_ H]]; [lia | exact H]].
Qed.

End AggOrderFacts.

(** X5. The aggregate table comes out in ascending order of date and,
    within a date, of room type: of any two of its rows the earlier one
    has the smaller date, or the same date and a room type that is not
    greater. *)
Theorem aggregate_sorted (src : list Stay.t) (excl : option (list string))
    (inv : option (list (string * Z))) (maint : option (list Maint.t)) :
  StronglySorted
    (fun a b =>
       Agg.Date a < Agg.Date b \/
       (Agg.Date a = Agg.Date b /\
        Frame.opt_leb String.leb (Agg.Room_Type a) (Agg.Room_Type b) = true))
    (build_feature_dataset src excl inv maint).
Proof.
  rewrite ShapeFacts.build_unfold.
  match goal with |- StronglySorted _ (Frame.sort_by agg_leb ?l) =>
    pose proof (SortFacts.sort_by_strongly agg_leb (fun _ => True)
                  (fun a b _ _ => AggOrderFacts.agg_leb_total a b)
                  (fun a b c _ _ _ => AggOrderFacts.agg_leb_trans a b c) l) as H;
    generalize dependent (Frame.sort_by agg_leb l)
  end.
  intros l H.
  assert (Hs : StronglySorted (fun a b => agg_leb a b = true) l).
  { apply H. apply Forall_forall. auto. }
  clear H. induction Hs as [|x xs Hxs IH Hx]; constructor; [exact IH|].
  rewrite Forall_forall in *. intros y Hy. apply AggOrderFacts.agg_leb_spec. auto.
Qed.

(** ** The overall occupancy series *)

Module OverallFacts.
Import Frame FrameFacts.

Lemma sum_present_const (l : list (option Z)) v :
  (forall x, In x l -> x = Some v) ->
  sum_present l = Z.of_nat (List.length l) * v.
Proof.
  unfold sum_present. induction l as [|x xs IH]; intros H; [reflexivity|].
  rewrite (H x) by (simpl; auto). cbn [dropna sum_Z fold_right List.length].
  unfold sum_Z in IH. rewrite IH by (intros y Hy; apply H; simpl; auto). lia.
Qed.

Lemma ratio_scale k sold available :
  0 < k -> 0 < available ->
  (inject_Z (k * sold) / inject_Z (k * available) ==
   inject_Z sold / inject_Z available)%Q.
Proof.
  intros Hk Ha. rewrite !inject_Z_mult. field. split.
  - intros H. change 0%Q with (inject_Z 0) in H. rewrite inject_Z_injective in H. lia.
  - intros H. change 0%Q with (inject_Z 0) in H. rewrite inject_Z_injective in H. lia.
Qed.

(** Clipping to [0, 1] and the minimum with 1 agree from 0 upwards. *)
Lemma clip01_Qmin x y :
  (x == y)%Q -> (0 <= y)%Q -> (clip01 x == Qmin 1 y)%Q.
Proof.
  intros Hxy Hy. unfold clip01.
  destruct (Qle_bool x 0) eqn:E0.
  - apply Qle_bool_iff in E0. rewrite Hxy in E0.
    assert (Hz : (y == 0)%Q) by (apply Qle_antisym; assumption).
    rewrite Hz. symmetry. apply Q.min_r. discriminate.
  - destruct (Qle_bool 1 x) eqn:E1.
    + apply Qle_bool_iff in E1. rewrite Hxy in E1. symmetry. now apply Q.min_l.
    + rewrite Hxy. symmetry. apply Q.min_r.
      destruct (Qlt_le_dec y 1) as [H|H]; [now apply Qlt_le_weak|].
      rewrite <- Hxy in H. apply Qle_bool_iff in H. congruence.
Qed.

End OverallFacts.

Module SeriesFacts.
Import Frame FrameFacts.

Lemma entry_facts excluded inv maint daily d :
  let e := daily_occ_entry excluded inv maint daily d in
  0 <= DailyOcc.total_rooms_sold e /\
  1 <= DailyOcc.available_inventory e /\
  DailyOcc.daily_occupancy_rate e =
    rate_of (DailyOcc.total_rooms_sold e) (DailyOcc.available_inventory e).
Proof.
  unfold daily_occ_entry. cbn [DailyOcc.total_rooms_sold
    DailyOcc.available_inventory DailyOcc.daily_occupancy_rate].
  split; [apply InventoryFacts.nunique_nonneg|]. split; [|reflexivity].
  unfold available_of. lia.
Qed.

(** The ratio of the sums over [k] rows that all hold the same counts. *)
Lemma overall_ratio_rows k sold available :
  (0 < k)%nat -> 0 <= sold -> 1 <= available ->
  exists q, overall_ratio (Z.of_nat k * sold) (Z.of_nat k * available) = Some q /\
            (q == rate_of sold available)%Q.
Proof.
  intros Hk Hs Ha. unfold overall_ratio.
  destruct (Z.of_nat k * available =? 0) eqn:E; [apply Z.eqb_eq in E; nia|].
  eexists. split; [reflexivity|].
  rewrite OccFacts.rate_of_Qmin. apply OverallFacts.clip01_Qmin.
  - rewrite Qred_correct. apply OverallFacts.ratio_scale; lia.
  - apply Qle_shift_div_l.
    + change 0%Q with (inject_Z 0). rewrite <- Zlt_Qlt. lia.
    + rewrite Qmult_0_l. change 0%Q with (inject_Z 0). rewrite <- Zle_Qle. exact Hs.
Qed.

End SeriesFacts.

(** X6. Read back from the aggregate table, the overall occupancy series
    has one entry per date of the table, and the entry is the daily
    occupancy rate of that date: the sums over the rows of a date repeat
    the same counts, so their ratio, clipped to [0, 1], is
    min(1, sold / available) again. *)
Theorem overall_series_is_daily_rate (src : list Stay.t)
    (excl : option (list string)) (inv : option (list (string * Z)))
    (maint : option (list Maint.t)) :
  let df := build_feature_dataset src excl inv maint in
  let series := build_overall_occupancy_series df in
  (forall d o,
      In (d, o) series ->
      (exists r, In r df /\ Agg.Date r = d) /\
      exists q,
        o = Some q /\
        (q == DailyOcc.daily_occupancy_rate
                (daily_occ_entry (excluded_set excl) inv maint
                                 (expand_stays_to_daily_rows src) d))%Q) /\
  (forall r, In r df -> exists o, In (Agg.Date r, o) series) /\
  NoDup (map fst series).
Proof.
  intros df series. split; [|split].
  - intros d o Hin. unfold series, build_overall_occupancy_series in Hin.
    apply in_map_iff in Hin. destruct Hin as [d' [Heq Hd]].
    injection Heq as -> <-.
    apply (proj1 (FrameFacts.In_sort_by _ _ _)) in Hd.
    apply (proj1 (FrameFacts.In_unique Z.eqb FrameFacts.Zeqb_eq _ _)) in Hd.
    apply in_map_iff in Hd. destruct Hd as [r0 [Hr0 Hin0]].
    split; [eauto|].
    set (rows := filter (fun r => Agg.Date r =? d) df).
    set (e := daily_occ_entry (excluded_set excl) inv maint
                              (expand_stays_to_daily_rows src) d).
    assert (Hrows : forall r, In r rows ->
              Agg.Rooms_Sold r = Some (DailyOcc.total_rooms_sold e) /\
              Agg.Available_Inventory r = Some (DailyOcc.available_inventory e)).
    { intros r Hr. apply filter_In in Hr. destruct Hr as [Hr Hd].
      apply Z.eqb_eq in Hd.
      destruct (BoundFacts.In_build_entry r src excl inv maint Hr)
        as [_ [Hs [_ [_ [_ Ha]]]]].
      rewrite Hd in Hs, Ha. auto. }
    assert (Hk : (0 < List.length rows)%nat).
    { assert (In r0 rows) as Hin by (apply filter_In; split; [exact Hin0 | now apply Z.eqb_eq]).
      destruct rows; [contradiction | simpl; lia]. }
    rewrite (OverallFacts.sum_present_const _ (DailyOcc.total_rooms_sold e)).
    2:{ intros x Hx. apply in_map_iff in Hx. destruct Hx as [r [<- Hr]].
        apply (Hrows r Hr). }
    rewrite (OverallFacts.sum_present_const _ (DailyOcc.available_inventory e)).
    2:{ intros x Hx. apply in_map_iff in Hx. destruct Hx as [r [<- Hr]].
        apply (Hrows r Hr). }
    rewrite !length_map.
    destruct (SeriesFacts.entry_facts (excluded_set excl) inv maint
                (expand_stays_to_daily_rows src) d) as [Hs [Ha Hrate]].
    fold e in Hs, Ha, Hrate. rewrite Hrate.
    apply SeriesFacts.overall_ratio_rows; assumption.
  - intros r Hr. unfold series, build_overall_occupancy_series.
    eexists. apply in_map_iff. exists (Agg.Date r). split; [reflexivity|].
    apply FrameFacts.In_sort_by.
    apply (FrameFacts.In_unique Z.eqb FrameFacts.Zeqb_eq). now apply in_map.
  - unfold series, build_overall_occupancy_series. rewrite map_map. simpl.
    rewrite map_id. apply ShapeFacts.NoDup_sort_by.
    apply (FrameFacts.NoDup_unique Z.eqb FrameFacts.Zeqb_eq).
Qed.

Lemma overall_series_is_daily_rate_witness :
  exists q,
    In (Time.ymd 2024 1 1, Some q)
       (build_overall_occupancy_series
          (build_feature_dataset full_house None full_house_inventory
                                 full_house_maintenance)) /\
    (q == 1)%Q.
Proof.
  assert (Hin : In (Time.ymd 2024 1 1, Some 1%Q)
                   (build_overall_occupancy_series
                      (build_feature_dataset full_house None full_house_inventory
                                             full_house_maintenance)))
    by (vm_compute; auto).
  destruct (proj1 (overall_series_is_daily_rate full_house None
                     full_house_inventory full_house_maintenance) _ _ Hin)
    as [_ [q [Hq Hrate]]].
  exists q. injection Hq as <-. split; [exact Hin | reflexivity].
Defined.

(** ** Holiday blocks *)

Module BlockFacts.
Import Np NpFacts.

Local Abbreviation at_ hol := (fun m : nat => nth m hol false).

Lemma count_same_app b l1 l2 :
  count_same b (l1 ++ l2) = count_same b l1 + count_same b l2.
Proof. unfold count_same. rewrite filter_app, length_app. lia. Qed.

Lemma count_same_nonneg b l : 0 <= count_same b l.
Proof. unfold count_same. lia. Qed.

Lemma count_same_one b : count_same b [(true, b)] = 1.
Proof. unfold count_same. simpl. now rewrite Z.eqb_refl. Qed.

Lemma count_same_none b l :
  (forall m h b', nth_error l m = Some (h, b') -> h = true -> b' <> b) ->
  count_same b l = 0.
Proof.
  intros H. unfold count_same. rewrite OccFacts.filter_none; [reflexivity|].
  intros [h b'] Hin. apply In_nth_error in Hin. destruct Hin as [m Hm].
  simpl. destruct h; [|reflexivity]. simpl. apply Z.eqb_neq. eapply H; eauto.
Qed.

Lemma split_at {A : Type} (l : list A) i x :
  nth_error l i = Some x -> l = firstn i l ++ x :: skipn (S i) l.
Proof.
  revert i. induction l as [|y ys IH]; intros [|i] H; try discriminate.
  - injection H as ->. reflexivity.
  - simpl. f_equal. now apply IH.
Qed.

Lemma firstn_succ {A : Type} (l : list A) i x :
  nth_error l i = Some x -> firstn (S i) l = firstn i l ++ [x].
Proof.
  revert i. induction l as [|y ys IH]; intros [|i] H; try discriminate.
  - injection H as ->. reflexivity.
  - simpl. f_equal. now apply IH.
Qed.

Lemma nth_error_firstn_lt {A : Type} (l : list A) i m x :
  nth_error (firstn i l) m = Some x -> (m < i)%nat /\ nth_error l m = Some x.
Proof.
  revert i m. induction l as [|y ys IH]; intros [|i] [|m] H; simpl in H;
    try discriminate.
  - split; [lia | exact H].
  - apply IH in H. destruct H. split; [lia | assumption].
Qed.

Lemma nth_error_skipn_ge {A : Type} (l : list A) k m :
  nth_error (skipn k l) m = nth_error l (k + m).
Proof.
  revert l. induction k as [|k IH]; intros l; [reflexivity|].
  destruct l as [|y ys]; [now destruct m | apply IH].
Qed.

(** The block ids: each one is the id before it, raised by one at a day
    that is no holiday. *)
Lemma cumsum_step hol : forall acc i b',
  nth_error (cumsum_not acc hol) (S i) = Some b' ->
  exists b h, nth_error (cumsum_not acc hol) i = Some b /\
              nth_error hol (S i) = Some h /\
              b' = b + (if h then 0 else 1).
Proof.
  induction hol as [|h0 t IH]; intros acc i b' H; [discriminate|].
  cbn [cumsum_not nth_error] in H.
  destruct i as [|i].
  - destruct t as [|h1 t']; [discriminate|].
    cbn [cumsum_not nth_error] in H. injection H as <-.
    exists (if h0 then acc else acc + 1), h1. repeat split.
    destruct h1; lia.
  - apply IH in H. destruct H as [b [h [H1 [H2 H3]]]].
    exists b, h. repeat split; assumption.
Qed.

Lemma cumsum_defined hol acc i h :
  nth_error hol i = Some h -> exists b, nth_error (cumsum_not acc hol) i = Some b.
Proof.
  intros H. destruct (nth_error (cumsum_not acc hol) i) eqn:E; [eauto|].
  apply nth_error_None in E. rewrite LengthFacts.length_cumsum_not in E.
  apply CalFacts.nth_error_lt in H. lia.
Qed.

Lemma cumsum_mono hol acc m j bm bj :
  (m <= j)%nat ->
  nth_error (cumsum_not acc hol) m = Some bm ->
  nth_error (cumsum_not acc hol) j = Some bj -> bm <= bj.
Proof.
  intros Hle Hm. revert bj. induction Hle as [|j Hle IH]; intros bj Hj.
  - assert (bm = bj) by congruence. lia.
  - apply cumsum_step in Hj. destruct Hj as [b [h [H1 [_ ->]]]].
    specialize (IH b H1). destruct h; lia.
Qed.

(** One cell of the block columns. *)
Lemma block_from_nth rest : forall seen total i h b,
  nth_error rest i = Some (h, b) ->
  nth_error (block_columns_from seen rest total) i =
  Some (if h then (count_same b total, count_same b (seen ++ firstn i rest) + 1)
        else (0, 0)).
Proof.
  induction rest as [|[h0 b0] t IH]; intros seen total i h b H; [now destruct i|].
  destruct i as [|i].
  - injection H as -> ->. cbn [block_columns_from nth_error firstn].
    now rewrite app_nil_r.
  - cbn [block_columns_from nth_error firstn]. cbn [nth_error] in H.
    rewrite (IH _ total i h b H). now rewrite <- app_assoc.
Qed.

End BlockFacts.

Module BlockRunFacts.
Import Np NpFacts BlockFacts.

Local Abbreviation at_ hol := (fun m : nat => nth m hol false).
Local Abbreviation ids hol := (cumsum_not 0 hol).
Local Abbreviation tagged hol := (combine hol (cumsum_not 0 hol)).

Lemma tagged_nth hol i h b :
  nth_error (tagged hol) i = Some (h, b) <->
  nth_error hol i = Some h /\ nth_error (ids hol) i = Some b.
Proof.
  rewrite nth_error_combine.
  destruct (nth_error hol i) as [h'|], (nth_error (ids hol) i) as [b'|];
    split; try discriminate; try (intros [H1 H2]; discriminate).
  - intros H. injection H as -> ->. auto.
  - intros [H1 H2]. congruence.
Qed.

Lemma block_cell hol i du da :
  nth_error (block_columns hol) i = Some (du, da) ->
  exists h b,
    nth_error hol i = Some h /\ nth_error (ids hol) i = Some b /\
    (du, da) = if h then (count_same b (tagged hol),
                          count_same b (firstn i (tagged hol)) + 1)
               else (0, 0).
Proof.
  intros H.
  assert (Hi : (i < List.length hol)%nat).
  { apply CalFacts.nth_error_lt in H.
    now rewrite LengthFacts.length_block_columns in H. }
  destruct (ContiguousFacts.nth_error_defined hol i Hi) as [h Hh].
  destruct (cumsum_defined hol 0 i h Hh) as [b Hb].
  exists h, b. split; [exact Hh|]. split; [exact Hb|].
  unfold block_columns in H.
  rewrite (block_from_nth (tagged hol) [] (tagged hol) i h b) in H
    by (apply tagged_nth; auto).
  simpl app in H. now injection H.
Qed.

(** A holiday counts itself: its rank is at most the size of its block. *)
Lemma rank_le_size hol i b :
  nth_error hol i = Some true -> nth_error (ids hol) i = Some b ->
  count_same b (firstn i (tagged hol)) + 1 <= count_same b (tagged hol).
Proof.
  intros Hh Hb.
  assert (Ht : nth_error (tagged hol) i = Some (true, b)) by (apply tagged_nth; auto).
  rewrite (split_at _ _ _ Ht) at 2.
  change ((true, b) :: skipn (S i) (tagged hol))
    with ([(true, b)] ++ skipn (S i) (tagged hol)).
  rewrite !count_same_app, count_same_one.
  pose proof (count_same_nonneg b (skipn (S i) (tagged hol))). lia.
Qed.

(** After a day that is no holiday a new block starts. *)
Lemma rank_at_start hol i b :
  nth_error hol i = Some true -> nth_error (ids hol) i = Some b ->
  match i with O => false | S j => at_ hol j end = false ->
  count_same b (firstn i (tagged hol)) = 0.
Proof.
  intros Hh Hb Hprev. destruct i as [|j]; [reflexivity|].
  apply count_same_none. intros m h b' Hm Ht.
  apply nth_error_firstn_lt in Hm. destruct Hm as [Hlt Hm].
  apply tagged_nth in Hm. destruct Hm as [Hhm Hbm]. subst h.
  destruct (cumsum_step hol 0 j b Hb) as [bj [h [Hbj [Hh' Hstep]]]].
  assert (h = true) by congruence. subst h.
  assert (Hm_ne : m <> j).
  { intros ->. rewrite (nth_error_nth _ _ false Hhm) in Hprev. discriminate. }
  destruct j as [|j']; [lia|].
  destruct (cumsum_step hol 0 j' bj Hbj) as [bj' [hj [Hbj' [Hhj Hstepj]]]].
  assert (hj = false).
  { rewrite (nth_error_nth _ _ false Hhj) in Hprev. exact Hprev. }
  subst hj.
  assert (b' <= bj') by (apply (cumsum_mono hol 0 m j'); [lia | assumption | assumption]).
  lia.
Qed.

(** Before a day that is no holiday the block ends. *)
Lemma size_at_end hol i b :
  nth_error hol i = Some true -> nth_error (ids hol) i = Some b ->
  at_ hol (S i) = false ->
  count_same b (tagged hol) = count_same b (firstn i (tagged hol)) + 1.
Proof.
  intros Hh Hb Hnext. cbv beta in Hnext.
  assert (Ht : nth_error (tagged hol) i = Some (true, b)) by (apply tagged_nth; auto).
  rewrite (split_at _ _ _ Ht) at 1.
  change ((true, b) :: skipn (S i) (tagged hol))
    with ([(true, b)] ++ skipn (S i) (tagged hol)).
  rewrite !count_same_app, count_same_one.
  rewrite (count_same_none b (skipn (S i) (tagged hol))); [lia|].
  intros m h b' Hm Htrue. rewrite nth_error_skipn_ge in Hm.
  apply tagged_nth in Hm. destruct Hm as [Hhm Hbm]. subst h.
  destruct (ContiguousFacts.nth_error_defined (ids hol) (S i)) as [b1 Hb1].
  { apply CalFacts.nth_error_lt in Hbm. lia. }
  destruct (cumsum_step hol 0 i b1 Hb1) as [b0 [h [Hb0 [Hh1 Hstep]]]].
  assert (b0 = b) by congruence. subst b0.
  assert (h = false).
  { rewrite (nth_error_nth _ _ false Hh1) in Hnext. exact Hnext. }
  subst h.
  assert (b1 <= b') by (apply (cumsum_mono hol 0 (S i) (S i + m)); [lia | assumption | assumption]).
  lia.
Qed.

(** Two holidays in a row share their block. *)
Lemma next_in_block hol i b b' :
  nth_error hol i = Some true -> nth_error (ids hol) i = Some b ->
  nth_error hol (S i) = Some true -> nth_error (ids hol) (S i) = Some b' ->
  b' = b /\
  count_same b (firstn (S i) (tagged hol)) =
  count_same b (firstn i (tagged hol)) + 1.
Proof.
  intros Hh Hb Hh' Hb'.
  destruct (cumsum_step hol 0 i b' Hb') as [b0 [h [Hb0 [Hh1 Hstep]]]].
  assert (b0 = b) by congruence. assert (h = true) by congruence. subst b0 h.
  split; [lia|].
  assert (Ht : nth_error (tagged hol) i = Some (true, b)) by (apply tagged_nth; auto).
  rewrite (firstn_succ _ _ _ Ht), count_same_app, count_same_one. reflexivity.
Qed.

End BlockRunFacts.

Module BlockFeatFacts.
Import Np NpFacts.

Lemma features_nth_blocks rows i r :
  nth_error (calendar_features rows) i = Some r ->
  let is_hol := is_holiday_final_of (map Cal.Is_NationalHoliday rows)
                                    (map Cal.Is_Weekend rows)
                                    (is_bridge_of (map seed_of rows)) in
  nth_error is_hol i = Some (Feat.Is_Holiday r) /\
  nth_error (block_columns is_hol) i =
    Some (Feat.Holiday_Duration r, Feat.Days_of_Holiday r).
Proof.
  intros H is_hol. unfold calendar_features in H. fold is_hol in H.
  rewrite nth_error_zip_with, !nth_error_combine in H.
  destruct (nth_error rows i) as [c|]; [|discriminate].
  destruct (nth_error (is_bridge_of (map seed_of rows)) i) as [br|]; [|discriminate].
  destruct (nth_error is_hol i) as [hol|]; [|discriminate].
  destruct (nth_error (block_columns is_hol) i) as [[du da]|]; [|discriminate].
  destruct (nth_error (distance_of is_hol) i) as [dst|]; [|discriminate].
  destruct (Time.civil (Time.date (Cal.Date c))) as [[y m] d].
  injection H as <-. split; reflexivity.
Qed.

End BlockFeatFacts.

Example long_weekend_blocks :
  map (fun r => (Feat.Holiday_Duration r, Feat.Days_of_Holiday r))
      (calendar_features long_weekend) =
  [(0, 0); (3, 1); (3, 2); (3, 3); (0, 0); (0, 0)].
Proof. vm_compute. reflexivity. Qed.

(** X7. Holiday blocks. Off a holiday both block columns are 0. On a
    holiday the day's rank in its block is at least 1 and at most the
    block's size; the rank is 1 when the day before is no holiday (or
    there is none); it grows by one, and the size stays, from a holiday to
    a holiday right after it; and the size equals the rank when the day
    after is no holiday (or there is none). So the size is the length of
    the run of consecutive holidays around the day, and the rank is the
    day's place in that run. *)
Theorem holiday_block_columns (rows : list Cal.t) (i : nat) (r : Feat.t) :
  nth_error (calendar_features rows) i = Some r ->
  (Feat.Is_Holiday r = false ->
   Feat.Holiday_Duration r = 0 /\ Feat.Days_of_Holiday r = 0) /\
  (Feat.Is_Holiday r = true ->
   1 <= Feat.Days_of_Holiday r <= Feat.Holiday_Duration r /\
   (CalSpec.prev (CalSpec.holiday_at rows) i = false -> Feat.Days_of_Holiday r = 1) /\
   (CalSpec.holiday_at rows (S i) = false ->
    Feat.Holiday_Duration r = Feat.Days_of_Holiday r) /\
   (forall r',
       nth_error (calendar_features rows) (S i) = Some r' ->
       Feat.Is_Holiday r' = true ->
       Feat.Days_of_Holiday r' = Feat.Days_of_Holiday r + 1 /\
       Feat.Holiday_Duration r' = Feat.Holiday_Duration r)).
Proof.
  intros Hr.
  destruct (BlockFeatFacts.features_nth_blocks rows i r Hr) as [Hh Hcell].
  set (is_hol := is_holiday_final_of (map Cal.Is_NationalHoliday rows)
                   (map Cal.Is_Weekend rows) (is_bridge_of (map seed_of rows))) in *.
  destruct (BlockRunFacts.block_cell is_hol i _ _ Hcell) as [h [b [Hh' [Hb Heq]]]].
  assert (h = Feat.Is_Holiday r) by congruence. subst h.
  split.
  - intros Hf. rewrite Hf in Heq. now injection Heq.
  - intros Ht. rewrite Ht in Heq, Hh'. injection Heq as Hdu Hda.
    pose proof (BlockRunFacts.rank_le_size is_hol i b Hh' Hb) as Hle.
    pose proof (BlockFacts.count_same_nonneg b (firstn i (combine is_hol (Np.cumsum_not 0 is_hol)))) as H0.
    split; [lia|]. split; [|split].
    + intros Hprev. rewrite Hda.
      rewrite (BlockRunFacts.rank_at_start is_hol i b Hh' Hb); [reflexivity|].
      destruct i as [|j]; [reflexivity|]. simpl in Hprev.
      now rewrite ContiguousFacts.holiday_at_nth in Hprev.
    + intros Hnext. rewrite ContiguousFacts.holiday_at_nth in Hnext.
      rewrite Hdu, Hda. now apply BlockRunFacts.size_at_end.
    + intros r' Hr' Ht'.
      destruct (BlockFeatFacts.features_nth_blocks rows (S i) r' Hr') as [Hh1 Hcell1].
      fold is_hol in Hh1, Hcell1. rewrite Ht' in Hh1.
      destruct (BlockRunFacts.block_cell is_hol (S i) _ _ Hcell1)
        as [h1 [b1 [Hh1' [Hb1 Heq1]]]].
      assert (h1 = true) by congruence. subst h1. injection Heq1 as Hdu1 Hda1.
      destruct (BlockRunFacts.next_in_block is_hol i b b1 Hh' Hb Hh1 Hb1) as [-> Hcnt].
      change (Feat.Days_of_Holiday r' =
              count_same b (firstn (S i) (combine is_hol (Np.cumsum_not 0 is_hol))) + 1)
        in Hda1.
      split; [rewrite Hda1, Hda, Hcnt; reflexivity | rewrite Hdu1, Hdu; reflexivity].
Qed.

Lemma holiday_block_columns_witness :
  exists r,
    nth_error (calendar_features long_weekend) 1 = Some r /\
    Feat.Days_of_Holiday r = 1 /\ 1 <= Feat.Holiday_Duration r.
Proof.
  assert (Hr : nth_error (calendar_features long_weekend) 1 =
               Some (Feat.mk (Time.of_date 1) None true false false false
                             false true 3 1 0 4 2 1 1970))
    by (vm_compute; reflexivity).
  destruct (holiday_block_columns long_weekend 1 _ Hr) as [_ Hhol].
  destruct (Hhol eq_refl) as [Hle [Hstart _]].
  eexists. split; [exact Hr|]. split.
  - apply Hstart. reflexivity.
  - cbn [Feat.Holiday_Duration Feat.Days_of_Holiday] in Hle |- *. lia.
Defined.

(** ** Rows of the combined table *)

Module CombinedRowFacts.
Import CombineFacts.

(** The rows of the second loop are built from rows of the merged frame. *)
Lemma forecast_part_rows occ arr fs :
  forecast_part occ arr = Some fs ->
  forall r, In r fs -> exists cols v, r = forecast_row cols v.
Proof.
  unfold forecast_part.
  destruct (with_dates occ) as [occ'|]; [|discriminate].
  destruct (with_dates arr) as [arr'|]; [|discriminate].
  intros H r Hr. injection H as <-. apply in_map_iff in Hr.
  destruct Hr as [v [<- _]]. eauto.
Qed.

End CombinedRowFacts.

(** X8. In the combined table a historical row has both error cells 0,
    its forecasted rate equal to its actual rate and its forecasted
    occupancy equal to its actual occupancy; a forecast row has its actual
    rate, its actual occupancy and both error cells empty. Every row has
    the fourteen cells of the combined schema and is of one of the two
    kinds. *)
Theorem combined_row_cells (occ arr hist out : frame) :
  combine_forecasts occ arr hist = Some out ->
  columns out = combined_columns /\
  exists hs fs,
    historical_part hist = Some hs /\ forecast_part occ arr = Some fs /\
    (forall r, In r (data out) <-> In r hs \/ In r fs) /\
    (forall r, In r (data out) -> List.length r = 14%nat) /\
    (forall r, In r hs ->
       Df.get combined_columns r "Error ARR" = VNum 0 /\
       Df.get combined_columns r "Error Occ" = VNum 0 /\
       Df.get combined_columns r "Forecasted ARR" =
         Df.get combined_columns r "Average Room Rate" /\
       Df.get combined_columns r "Forecasted Occ" =
         Df.get combined_columns r "Occ") /\
    (forall r, In r fs ->
       Df.get combined_columns r "Average Room Rate" = VNull /\
       Df.get combined_columns r "Occ" = VNull /\
       Df.get combined_columns r "Error ARR" = VNull /\
       Df.get combined_columns r "Error Occ" = VNull).
Proof.
  intros H. destruct (CombineFacts.combine_inv occ arr hist out H)
    as [hs [fs [Hhs [Hfs [_ [_ ->]]]]]].
  split; [reflexivity|]. exists hs, fs.
  split; [exact Hhs|]. split; [exact Hfs|].
  destruct (CombineFacts.historical_part_rows hist hs Hhs) as [_ Hrows].
  pose proof (CombinedRowFacts.forecast_part_rows occ arr fs Hfs) as Hfrows.
  assert (Hmem : forall r, In r (Frame.sort_by row_leb (hs ++ fs)) <->
                           In r hs \/ In r fs).
  { intros r. rewrite FrameFacts.In_sort_by. apply in_app_iff. }
  simpl data. split; [exact Hmem|]. split; [|split].
  - intros r Hr. apply Hmem in Hr. destruct Hr as [Hr|Hr].
    + destruct (Hrows r Hr) as [cols [v [-> _]]]. reflexivity.
    + destruct (Hfrows r Hr) as [cols [v ->]]. reflexivity.
  - intros r Hr. destruct (Hrows r Hr) as [cols [v [-> _]]]. repeat split.
  - intros r Hr. destruct (Hfrows r Hr) as [cols [v ->]]. repeat split.
Qed.

Lemma combined_row_cells_witness :
  Df.get combined_columns history_combined_row "Error ARR" = VNum 0 /\
  Df.get combined_columns forecast_combined_row "Error ARR" = VNull.
Proof.
  destruct (combined_row_cells occ_sample arr_sample history_sample _ combine_samples)
    as [_ [hs [fs [Hhs [Hfs [_ [_ [Hhist Hfc]]]]]]]].
  vm_compute in Hhs. injection Hhs as <-.
  vm_compute in Hfs. injection Hfs as <-.
  split.
  - apply (Hhist history_combined_row). left. reflexivity.
  - apply (Hfc forecast_combined_row). left. reflexivity.
Defined.

Module CombinedOrderFacts.
Import Frame SortFacts CombineFacts.

Lemma sort_key_cells r d t :
  sort_key r = Some (d, t) ->
  Df.get combined_columns r "Date" =
    match d with Some x => VTime x | None => VNull end /\
  Df.get combined_columns r "Room Type" =
    match t with Some s => VStr s | None => VNull end.
Proof.
  unfold sort_key.
  destruct (Df.get combined_columns r "Date"),
    (Df.get combined_columns r "Room Type");
    intros H; inversion H; subst; auto.
Qed.

Lemma row_leb_stands a b :
  has_key a -> has_key b -> row_leb a b = true -> stands_before a b.
Proof.
  unfold has_key, row_leb. intros Ha Hb.
  destruct (sort_key a) as [[da ta]|] eqn:Ea; [|congruence].
  destruct (sort_key b) as [[db tb]|] eqn:Eb; [|congruence].
  apply sort_key_cells in Ea, Eb. destruct Ea as [Ea1 Ea2], Eb as [Eb1 Eb2].
  unfold key_leb. simpl fst. simpl snd. intros Hleb x Hx.
  rewrite Hx in Eb1. destruct db as [y|]; [|discriminate].
  injection Eb1 as ->.
  destruct da as [z|]; simpl in Hleb; [|discriminate].
  exists z. split; [exact Ea1|].
  destruct (z <? y) eqn:E1; rewrite ?Z.ltb_lt, ?Z.ltb_ge in E1.
  - split; [lia|]. intros ->. lia.
  - destruct (y <? z) eqn:E2; rewrite ?Z.ltb_lt, ?Z.ltb_ge in E2; [discriminate|].
    split; [lia|]. intros _ sb Hsb. rewrite Hsb in Eb2.
    destruct tb as [s|]; [|discriminate]. injection Eb2 as ->.
    destruct ta as [sa|]; simpl in Hleb; [|discriminate].
    exists sa. auto.
Qed.

Lemma length_flat_map_ge {A B : Type} (f : A -> list B) l :
  (forall x, In x l -> f x <> []) ->
  (List.length l <= List.length (flat_map f l))%nat.
Proof.
  induction l as [|x xs IH]; intros H; [simpl; lia|].
  simpl. rewrite length_app.
  assert (f x <> []) by (apply H; simpl; auto).
  assert (List.length xs <= List.length (flat_map f xs))%nat
    by (apply IH; intros y Hy; apply H; simpl; auto).
  destruct (f x); [congruence | simpl; lia].
Qed.

Lemma with_dates_length df df' :
  with_dates df = Some df' -> List.length (data df') = List.length (data df).
Proof.
  unfold with_dates. destruct (Text.mem "Date" (columns df)); [|discriminate].
  destruct (traverse _ (data df)) as [rows|] eqn:E; [|discriminate].
  intros H. injection H as <-. simpl. apply (proj1 (traverse_spec _ _ _ E)).
Qed.

(** The left merge keeps every row of the rate forecast. *)
Lemma forecast_part_length occ arr fs :
  forecast_part occ arr = Some fs ->
  (List.length (data arr) <= List.length fs)%nat.
Proof.
  unfold forecast_part.
  destruct (with_dates occ) as [occ'|]; [|discriminate].
  destruct (with_dates arr) as [arr'|] eqn:Ea; [|discriminate].
  intros H. injection H as <-. rewrite length_map.
  rewrite <- (with_dates_length arr arr' Ea).
  unfold merge_left_on_date. simpl data.
  apply length_flat_map_ge. intros a _.
  destruct (filter _ (data occ')); [discriminate | discriminate].
Qed.

End CombinedOrderFacts.

(** X9. The combined table is in ascending order of date and, within a
    date, of room type, rows without a date last. It holds one row per
    historical row and at least one row per row of the rate forecast: the
    left merge drops no rate forecast, with or without an occupancy
    forecast for its date. *)
Theorem combined_sorted_and_counted (occ arr hist out : frame) :
  combine_forecasts occ arr hist = Some out ->
  StronglySorted stands_before (data out) /\
  (List.length (data hist) + List.length (data arr) <= List.length (data out))%nat /\
  exists fs, forecast_part occ arr = Some fs /\
             List.length (data out) = (List.length (data hist) + List.length fs)%nat.
Proof.
  intros H.
  destruct (RoundTripFacts.combined_sorted occ arr hist out H) as [Hs Hk].
  destruct (CombineFacts.combine_inv occ arr hist out H)
    as [hs [fs [Hhs [Hfs [_ [_ Hout]]]]]].
  destruct (CombineFacts.historical_part_rows hist hs Hhs) as [Hlen _].
  pose proof (CombinedOrderFacts.forecast_part_length occ arr fs Hfs) as Hfl.
  assert (Hl : List.length (data out) = (List.length (data hist) + List.length fs)%nat).
  { rewrite Hout. simpl data. rewrite FrameFacts.length_sort_by, length_app. lia. }
  split; [|split; [lia | exists fs; auto]].
  clear - Hs Hk. induction Hs as [|x xs Hxs IH Hx]; constructor.
  - apply IH. now inversion Hk.
  - inversion Hk as [|? ? Kx Kxs]; subst.
    rewrite Forall_forall in *. intros y Hy.
    apply CombinedOrderFacts.row_leb_stands; auto.
Qed.

Lemma combined_sorted_and_counted_witness :
  StronglySorted stands_before [history_combined_row; forecast_combined_row].
Proof.
  exact (proj1 (combined_sorted_and_counted occ_sample arr_sample history_sample _
                  combine_samples)).
Defined.

(** ** When the combiner fails *)

Module DefinedFacts.
Import CombineFacts.

Lemma lookup_set_same k d cols vals x :
  Df.lookup k cols vals = Some x -> Df.lookup k cols (Df.set k d cols vals) = Some d.
Proof.
  revert vals. induction cols as [|c cs IH]; intros [|v vs]; simpl; try discriminate.
  destruct (k =? c)%string eqn:E; simpl; rewrite ?E; [reflexivity | apply IH].
Qed.

Lemma lookup_set_other k k' d cols vals :
  k <> k' -> Df.lookup k cols (Df.set k' d cols vals) = Df.lookup k cols vals.
Proof.
  intros Hne. revert vals.
  induction cols as [|c cs IH]; intros [|v vs]; simpl; try reflexivity.
  destruct (k' =? c)%string eqn:E'; simpl.
  - destruct (k =? c)%string eqn:E; [|reflexivity].
    apply String.eqb_eq in E, E'. congruence.
  - destruct (k =? c)%string; [reflexivity | apply IH].
Qed.

Lemma lookup_app_l k cols vals cols' vals' x :
  Df.lookup k cols vals = Some x ->
  Df.lookup k (cols ++ cols') (vals ++ vals') = Some x.
Proof.
  revert vals. induction cols as [|c cs IH]; intros [|v vs]; simpl; try discriminate.
  destruct (k =? c)%string; [auto | apply IH].
Qed.

Lemma traverse_total {A B : Type} (f : A -> option B) l :
  (forall x, In x l -> exists y, f x = Some y) ->
  exists l', traverse f l = Some l'.
Proof.
  induction l as [|x xs IH]; intros H; [simpl; eauto|].
  destruct (H x) as [y Hy]; [simpl; auto|].
  destruct IH as [ys Hys]; [intros z Hz; apply H; simpl; auto|].
  simpl. rewrite Hy, Hys. eauto.
Qed.

(** On a dated frame the date conversion succeeds and keeps the dates
    and the room types of the rows. *)
Lemma with_dates_dated df :
  dated df ->
  exists df',
    with_dates df = Some df' /\ columns df' = columns df /\
    forall v', In v' (data df') ->
      (exists d, Df.lookup "Date" (columns df) v' = Some d /\ is_date d) /\
      exists v, In v (data df) /\
                Df.lookup "Room Type" (columns df) v' =
                Df.lookup "Room Type" (columns df) v.
Proof.
  intros [Hcol Hrows]. unfold with_dates. rewrite Hcol.
  destruct (traverse_total
              (fun vals =>
                 option_map (fun d => Df.set "Date" d (columns df) vals)
                            (to_datetime (Df.get (columns df) vals "Date")))
              (data df)) as [rows' Hrows'].
  { intros v Hv. destruct (Hrows v Hv) as [d [Hd Hdate]].
    unfold Df.get, Df.get_or. rewrite Hd, (to_datetime_fixed d Hdate).
    simpl. eauto. }
  rewrite Hrows'. simpl. eexists. split; [reflexivity|]. split; [reflexivity|].
  simpl. intros v' Hv'.
  destruct (proj2 (traverse_spec _ _ _ Hrows') v' Hv') as [v [Hv Hf]].
  destruct (Hrows v Hv) as [d [Hd Hdate]].
  unfold Df.get, Df.get_or in Hf. rewrite Hd, (to_datetime_fixed d Hdate) in Hf.
  simpl in Hf. injection Hf as <-. split.
  - exists d. split; [eapply lookup_set_same; eauto | exact Hdate].
  - exists v. split; [exact Hv|]. apply lookup_set_other. discriminate.
Qed.

Lemma sort_key_defined d t r :
  is_date d -> text_or_missing t ->
  Df.get combined_columns r "Date" = d ->
  Df.get combined_columns r "Room Type" = t ->
  exists k, sort_key r = Some k.
Proof.
  intros [->|[x ->]] [->|[s ->]] Hd Ht; unfold sort_key; rewrite Hd, Ht; eauto.
Qed.

End DefinedFacts.

Module DefinedFacts2.
Import CombineFacts DefinedFacts.

Lemma merged_row_left arr occ mv :
  In mv (data (merge_left_on_date arr occ)) ->
  exists a extra, In a (data arr) /\ mv = a ++ extra.
Proof.
  unfold merge_left_on_date. simpl data. intros H.
  apply in_flat_map in H. destruct H as [a [Ha H]].
  destruct (filter _ (data occ)) as [|m ms].
  - destruct H as [<-|[]]. eauto.
  - change (In mv (map (fun o => a ++ without_date (columns occ) o) (m :: ms))) in H.
    apply in_map_iff in H. destruct H as [o [<- _]]. eauto.
Qed.

Lemma has_key_forallb rows :
  (forall r, In r rows -> exists k, sort_key r = Some k) ->
  forallb (fun r => match sort_key r with Some _ => true | None => false end) rows = true.
Proof.
  intros H. apply forallb_forall. intros r Hr.
  destruct (H r Hr) as [k ->]. reflexivity.
Qed.

End DefinedFacts2.

(** X10. The combiner gives no table when one of its three inputs has no
    Date column, and none when there is neither a historical row nor a
    rate forecast row, for then the combined frame has no column to sort
    by. It gives a table whenever the three inputs have a date in every
    row, the historical and the rate forecast rows have a room type cell
    that is a text or missing, and there is at least one such row. *)
Theorem combine_forecasts_defined (occ arr hist : frame) :
  (Text.mem "Date" (columns hist) = false \/
   Text.mem "Date" (columns occ) = false \/
   Text.mem "Date" (columns arr) = false ->
   combine_forecasts occ arr hist = None) /\
  (data hist = [] -> data arr = [] -> combine_forecasts occ arr hist = None) /\
  (dated occ -> dated arr -> dated hist ->
   typed_rooms arr -> typed_rooms hist ->
   data hist <> [] \/ data arr <> [] ->
   exists out, combine_forecasts occ arr hist = Some out).
Proof.
  split; [|split].
  - assert (Hno : forall df, Text.mem "Date" (columns df) = false ->
                             with_dates df = None).
    { intros df Hdf. unfold with_dates. now rewrite Hdf. }
    unfold combine_forecasts, historical_part, forecast_part.
    intros [H|[H|H]]; rewrite (Hno _ H).
    + reflexivity.
    + now destruct (option_map _ (with_dates hist)).
    + destruct (option_map _ (with_dates hist)); [|reflexivity].
      now destruct (with_dates occ).
  - intros Hh Ha. unfold combine_forecasts.
    destruct (historical_part hist) as [hs|] eqn:Ehs; [|reflexivity].
    destruct (forecast_part occ arr) as [fs|] eqn:Efs; [|reflexivity].
    destruct (CombineFacts.historical_part_rows hist hs Ehs) as [Hlen _].
    rewrite Hh in Hlen. destruct hs; [|discriminate].
    unfold forecast_part in Efs.
    destruct (with_dates occ) as [occ'|]; [|discriminate].
    destruct (with_dates arr) as [arr'|] eqn:Ea; [|discriminate].
    pose proof (CombinedOrderFacts.with_dates_length arr arr' Ea) as Hl.
    rewrite Ha in Hl. injection Efs as <-.
    unfold merge_left_on_date. simpl data.
    destruct (data arr'); [reflexivity | discriminate].
  - intros Hocc Harr Hhist Tarr Thist Hne.
    destruct (DefinedFacts.with_dates_dated hist Hhist) as [hist' [Eh [Ch Rh]]].
    destruct (DefinedFacts.with_dates_dated occ Hocc) as [occ' [Eo [Co Ro]]].
    destruct (DefinedFacts.with_dates_dated arr Harr) as [arr' [Ea [Ca Ra]]].
    assert (Ehs : historical_part hist =
                  Some (map (historical_row (columns hist')) (data hist'))).
    { unfold historical_part. now rewrite Eh. }
    assert (Efs : forecast_part occ arr =
                  Some (map (forecast_row (columns (merge_left_on_date arr' occ')))
                            (data (merge_left_on_date arr' occ')))).
    { unfold forecast_part. now rewrite Eo, Ea. }
    set (hs := map (historical_row (columns hist')) (data hist')) in *.
    set (fs := map (forecast_row (columns (merge_left_on_date arr' occ')))
                   (data (merge_left_on_date arr' occ'))) in *.
    assert (Hkeys : forall r, In r (hs ++ fs) -> exists k, sort_key r = Some k).
    { intros r Hr. apply in_app_or in Hr. destruct Hr as [Hr|Hr].
      - apply in_map_iff in Hr. destruct Hr as [v' [<- Hv']].
        destruct (Rh v' Hv') as [[d [Hd Hdate]] [v [Hv Hrt]]].
        destruct (Thist v Hv) as [t [Ht Htext]].
        apply (DefinedFacts.sort_key_defined d t); auto.
        + rewrite Ch. unfold historical_row, Df.get, Df.get_or. simpl.
          now rewrite Hd.
        + rewrite Ch. unfold historical_row, Df.get, Df.get_or. simpl.
          now rewrite Hrt, Ht.
      - apply in_map_iff in Hr. destruct Hr as [mv [<- Hmv]].
        destruct (DefinedFacts2.merged_row_left arr' occ' mv Hmv)
          as [a' [extra [Ha' ->]]].
        destruct (Ra a' Ha') as [[d [Hd Hdate]] [a [Ha Hrt]]].
        destruct (Tarr a Ha) as [t [Ht Htext]].
        apply (DefinedFacts.sort_key_defined d t); auto.
        + unfold forecast_row, Df.get, Df.get_or, merge_left_on_date. simpl.
          rewrite Ca. now rewrite (DefinedFacts.lookup_app_l _ _ _ _ _ _ Hd).
        + unfold forecast_row, Df.get, Df.get_or, merge_left_on_date. simpl.
          rewrite Ca. rewrite Ht in Hrt.
          now rewrite (DefinedFacts.lookup_app_l _ _ _ _ _ _ Hrt). }
    assert (Hnonempty : hs ++ fs <> []).
    { intros Hnil. apply app_eq_nil in Hnil. destruct Hnil as [H1 H2].
      destruct Hne as [Hne|Hne].
      - apply Hne. apply length_zero_iff_nil.
        rewrite <- (CombinedOrderFacts.with_dates_length hist hist' Eh).
        unfold hs in H1. apply map_eq_nil in H1. now rewrite H1.
      - pose proof (CombinedOrderFacts.forecast_part_length occ arr fs Efs) as Hl.
        rewrite H2 in Hl. simpl in Hl. apply Hne. apply length_zero_iff_nil. lia. }
    unfold combine_forecasts. rewrite Ehs, Efs.
    destruct (hs ++ fs) as [|x xs] eqn:E; [congruence|].
    rewrite (DefinedFacts2.has_key_forallb _ Hkeys). eauto.
Qed.

Lemma combine_forecasts_defined_witness :
  (exists out, combine_forecasts occ_sample arr_sample history_sample = Some out) /\
  combine_forecasts (Df.mk ["Forecasted_Occ"%string] []) arr_sample history_sample = None.
Proof.
  destruct (combine_forecasts_defined occ_sample arr_sample history_sample)
    as [_ [_ Hsome]].
  destruct (combine_forecasts_defined (Df.mk ["Forecasted_Occ"%string] [])
              arr_sample history_sample) as [Hnone _].
  split.
  - apply Hsome.
    + split; [reflexivity|]. intros v [<-|[]].
      eexists. split; [reflexivity|]. right. eauto.
    + split; [reflexivity|]. intros v [<-|[]].
      eexists. split; [reflexivity|]. right. eauto.
    + split; [reflexivity|]. intros v [<-|[]].
      eexists. split; [reflexivity|]. right. eauto.
    + intros v [<-|[]]. eexists. split; [reflexivity|]. right. eauto.
    + intros v [<-|[]]. eexists. split; [reflexivity|]. right. eauto.
    + left. discriminate.
  - apply Hnone. right. left. reflexivity.
Defined.

(** ** The join of the two forecasts *)

Module JoinFacts.
Import CombineFacts DefinedFacts.

Lemma lookup_app_r k cols vals cols' vals' :
  List.length vals = List.length cols -> ~ In k cols ->
  Df.lookup k (cols ++ cols') (vals ++ vals') = Df.lookup k cols' vals'.
Proof.
  revert vals. induction cols as [|c cs IH]; intros [|v vs] Hl Hn;
    simpl in Hl; try discriminate; [reflexivity|].
  simpl. destruct (k =? c)%string eqn:E.
  - apply String.eqb_eq in E. exfalso. apply Hn. simpl. auto.
  - apply IH; [lia | intros H; apply Hn; simpl; auto].
Qed.

Lemma lookup_in k cols vals :
  In k cols -> List.length vals = List.length cols ->
  exists x, Df.lookup k cols vals = Some x.
Proof.
  revert vals. induction cols as [|c cs IH]; intros [|v vs] Hin Hl;
    simpl in Hl; try discriminate; [contradiction|].
  simpl. destruct (k =? c)%string eqn:E; [eauto|].
  apply IH; [|lia]. destruct Hin as [->|Hin]; [|exact Hin].
  rewrite String.eqb_refl in E. discriminate.
Qed.

Lemma lookup_nil k cols : Df.lookup k cols [] = None.
Proof. now destruct cols. Qed.

Lemma lookup_without_date k cols vals :
  k <> "Date"%string ->
  Df.lookup k (filter (fun c => negb (c =? "Date")%string) cols)
            (without_date cols vals) =
  Df.lookup k cols vals.
Proof.
  intros Hk. revert vals.
  induction cols as [|c cs IH]; intros [|v vs]; try reflexivity.
  - cbn [without_date]. now rewrite !lookup_nil.
  - cbn [filter without_date Df.lookup].
    destruct (c =? "Date")%string eqn:E; cbn [negb].
    + apply String.eqb_eq in E. subst c.
      destruct (k =? "Date")%string eqn:E'; [|apply IH].
      apply String.eqb_eq in E'. contradiction.
    + cbn [Df.lookup]. destruct (k =? c)%string; [reflexivity | apply IH].
Qed.

Lemma lookup_rename (rename : string -> string) k cs vs :
  (forall c, In c cs -> (k =? rename c)%string = (k =? c)%string) ->
  Df.lookup k (map rename cs) vs = Df.lookup k cs vs.
Proof.
  revert vs. induction cs as [|c cs' IH]; intros [|v vs'] H; simpl; try reflexivity.
  rewrite (H c) by (simpl; auto).
  destruct (k =? c)%string; [reflexivity|].
  apply IH. intros c' Hc'. apply H. simpl. auto.
Qed.

(** No column renamed by the merge is called Forecasted_Occ. *)
Lemma suffix_occ c : (c ++ "_occ")%string <> "Forecasted_Occ"%string.
Proof.
  intros H.
  do 15 (destruct c as [|? c];
         [discriminate H | simpl in H; first [discriminate H | injection H as _ H]]).
Qed.

Lemma rename_keeps_forecasted_occ arr_cols c :
  Text.mem "Forecasted_Occ" arr_cols = false ->
  ("Forecasted_Occ" =? (if Text.mem c arr_cols then c ++ "_occ" else c))%string =
  ("Forecasted_Occ" =? c)%string.
Proof.
  intros Hno. destruct (Text.mem c arr_cols) eqn:E.
  - destruct ("Forecasted_Occ" =? c)%string eqn:Ec.
    + apply String.eqb_eq in Ec. subst c. congruence.
    + apply String.eqb_neq. intros H. symmetry in H. now apply suffix_occ in H.
  - reflexivity.
Qed.

Lemma lookup_all_null k cols (l : list string) :
  match Df.lookup k cols (map (fun _ => VNull) l) with
  | Some v => v
  | None => VNull
  end = VNull.
Proof.
  revert l. induction cols as [|c cs IH]; intros [|x l]; simpl; try reflexivity.
  destruct (k =? c)%string; [reflexivity | apply IH].
Qed.

Lemma set_same k d cols vals :
  Df.lookup k cols vals = Some d -> Df.set k d cols vals = vals.
Proof.
  revert vals. induction cols as [|c cs IH]; intros [|x xs] H; try reflexivity.
  cbn [Df.lookup] in H. cbn [Df.set].
  destruct (k =? c)%string.
  - injection H as ->. reflexivity.
  - f_equal. now apply IH.
Qed.

(** On a dated frame the date conversion changes nothing. *)
Lemma with_dates_id df : dated df -> with_dates df = Some df.
Proof.
  intros [Hcol Hrows]. unfold with_dates. rewrite Hcol.
  rewrite (traverse_id _ (data df)).
  - simpl. now destruct df.
  - intros v Hv. destruct (Hrows v Hv) as [d [Hd Hdate]].
    unfold Df.get, Df.get_or. rewrite Hd, (to_datetime_fixed d Hdate).
    cbn [option_map]. f_equal. now apply set_same.
Qed.

Lemma flat_map_singletons {A B : Type} (f : A -> list B) l :
  (forall a, In a l -> List.length (f a) = 1%nat) ->
  List.length (flat_map f l) = List.length l.
Proof.
  induction l as [|a l IH]; intros H; [reflexivity|].
  cbn [flat_map]. rewrite length_app, (H a) by (simpl; auto).
  cbn [List.length]. rewrite IH; [lia|]. intros b Hb. apply H. simpl. auto.
Qed.

(** At most one element passes a test that fixes a key without
    duplicates. *)
Lemma filter_at_most_one {A B : Type} (g : A -> B) (p : A -> bool) l :
  NoDup (map g l) ->
  (forall x y, In x l -> In y l -> p x = true -> p y = true -> g x = g y) ->
  (List.length (filter p l) <= 1)%nat.
Proof.
  induction l as [|x l IH]; intros Hnd Heq; [simpl; lia|].
  cbn [map] in Hnd. apply NoDup_cons_iff in Hnd. destruct Hnd as [Hx Hnd].
  assert (IH' : (List.length (filter p l) <= 1)%nat).
  { apply IH; [exact Hnd|]. intros a b Ha Hb. apply Heq; simpl; auto. }
  cbn [filter]. destruct (p x) eqn:Ex; [|exact IH'].
  destruct (filter p l) as [|y ys] eqn:Ef; [simpl; lia|].
  exfalso. apply Hx.
  assert (Hy : In y (filter p l)) by (rewrite Ef; simpl; auto).
  apply filter_In in Hy. destruct Hy as [Hy Hpy].
  rewrite (Heq x y) by (simpl; auto). now apply in_map.
Qed.

Lemma date_eqb_same a b d :
  is_date a -> is_date b ->
  value_eqb a d = true -> value_eqb b d = true -> a = b.
Proof.
  intros [->|[s ->]] [->|[t ->]]; destruct d; cbn [value_eqb]; intros H1 H2;
    try discriminate; try reflexivity.
  apply Z.eqb_eq in H1, H2. congruence.
Qed.

Lemma get_dated df v :
  dated df -> In v (data df) -> is_date (Df.get (columns df) v "Date").
Proof.
  intros [_ H] Hv. destruct (H v Hv) as [d [Hd Hdate]].
  unfold Df.get, Df.get_or. now rewrite Hd.
Qed.

(** A column of the left frame is read from the left row. *)
Lemma lookup_left_column k cols vals cols' vals' :
  List.length vals = List.length cols -> In k cols ->
  Df.lookup k (cols ++ cols') (vals ++ vals') = Df.lookup k cols vals.
Proof.
  revert vals. induction cols as [|c cs IH]; intros [|v vs] Hl Hin;
    simpl in Hl; try discriminate; [contradiction|].
  cbn [app Df.lookup]. destruct (k =? c)%string eqn:E; [reflexivity|].
  apply IH; [lia|]. destruct Hin as [->|Hin]; [|exact Hin].
  rewrite String.eqb_refl in E. discriminate.
Qed.

End JoinFacts.

(** X11. The forecast rows of the combined table come from a left join of
    the rate forecast with the occupancy forecast on the date. When both
    frames have a date in every row, the rate forecast has one cell per
    column and no Forecasted_Occ column of its own, every forecast row
    stems from a rate forecast row and carries its date; its forecast
    occupancy is that of an occupancy row of the same date, and is missing
    only when no occupancy row has that date. When the dates of the
    occupancy forecast are pairwise distinct there is exactly one forecast
    row per rate forecast row. *)
Theorem forecast_rows_left_join (occ arr : frame) :
  dated occ -> dated arr -> rectangular arr ->
  Text.mem "Forecasted_Occ" (columns arr) = false ->
  exists rows,
    forecast_part occ arr = Some rows /\
    (forall row, In row rows ->
       exists a, In a (data arr) /\
         Df.get combined_columns row "Date" = Df.get (columns arr) a "Date" /\
         ((exists o, In o (data occ) /\ same_date occ arr o a = true /\
                     Df.get combined_columns row "Forecasted Occ" =
                     Df.get (columns occ) o "Forecasted_Occ") \/
          ((forall o, In o (data occ) -> same_date occ arr o a = false) /\
           Df.get combined_columns row "Forecasted Occ" = VNull))) /\
    (NoDup (date_cells occ) -> List.length rows = List.length (data arr)).
Proof.
  intros Hocc Harr Hrect Hno.
  unfold forecast_part.
  rewrite (JoinFacts.with_dates_id occ Hocc), (JoinFacts.with_dates_id arr Harr).
  eexists. split; [reflexivity|]. split.
  - intros row Hrow. apply in_map_iff in Hrow. destruct Hrow as [m [<- Hm]].
    unfold merge_left_on_date in Hm. cbn [data] in Hm.
    apply in_flat_map in Hm. destruct Hm as [a [Ha Hm]].
    exists a. split; [exact Ha|].
    pose proof (Hrect a Ha) as Hlen.
    assert (Hdate_in : In "Date"%string (columns arr)).
    { apply TextFacts.mem_In. exact (proj1 Harr). }
    assert (Hnot : ~ In "Forecasted_Occ"%string (columns arr)).
    { intros H. apply TextFacts.mem_In in H. congruence. }
    change (Df.get combined_columns (forecast_row (columns (merge_left_on_date arr occ)) m) "Date")
      with (Df.get (columns (merge_left_on_date arr occ)) m "Date").
    change (Df.get combined_columns (forecast_row (columns (merge_left_on_date arr occ)) m)
                   "Forecasted Occ")
      with (Df.get (columns (merge_left_on_date arr occ)) m "Forecasted_Occ").
    unfold merge_left_on_date. cbn [columns].
    fold (same_date occ arr) in Hm.
    destruct (filter (fun o => value_eqb (Df.get (columns occ) o "Date")
                                         (Df.get (columns arr) a "Date"))
                     (data occ)) as [|o1 os] eqn:Ef.
    + destruct Hm as [<-|[]]. unfold Df.get, Df.get_or. split.
      * now rewrite JoinFacts.lookup_left_column.
      * right. split.
        -- intros o Ho. unfold same_date.
           destruct (value_eqb _ _) eqn:E; [|reflexivity].
           assert (Hin : In o []).
           { rewrite <- Ef. apply filter_In. now split. }
           destruct Hin.
        -- rewrite JoinFacts.lookup_app_r by assumption.
           apply JoinFacts.lookup_all_null.
    + apply in_map_iff in Hm. destruct Hm as [o [<- Ho]].
      rewrite <- Ef in Ho. apply filter_In in Ho. destruct Ho as [Ho Hsame].
      unfold Df.get, Df.get_or. split.
      * now rewrite JoinFacts.lookup_left_column.
      * left. exists o. split; [exact Ho|]. split; [exact Hsame|].
        rewrite JoinFacts.lookup_app_r by assumption.
        rewrite JoinFacts.lookup_rename.
        -- rewrite JoinFacts.lookup_without_date by discriminate. reflexivity.
        -- intros c _. now apply JoinFacts.rename_keeps_forecasted_occ.
  - intros Hnd. rewrite length_map. unfold merge_left_on_date. cbn [data].
    apply JoinFacts.flat_map_singletons. intros a Ha.
    pose proof (JoinFacts.filter_at_most_one
                  (fun v => Df.get (columns occ) v "Date")
                  (fun o => value_eqb (Df.get (columns occ) o "Date")
                                      (Df.get (columns arr) a "Date"))
                  (data occ) Hnd) as Hle.
    destruct (filter _ (data occ)) as [|o1 os]; [reflexivity|].
    rewrite length_map.
    assert (H1 : (List.length (o1 :: os) <= 1)%nat).
    { apply Hle. intros x y Hx Hy Hpx Hpy.
      apply (JoinFacts.date_eqb_same _ _ (Df.get (columns arr) a "Date"));
        auto using JoinFacts.get_dated. }
    destruct os; [reflexivity | simpl in H1; lia].
Qed.

(** The sample forecast: one rate row, one occupancy row of the same
    date. *)
Lemma forecast_rows_left_join_witness :
  exists rows,
    forecast_part occ_sample arr_sample = Some rows /\
    List.length rows = List.length (data arr_sample).
Proof.
  assert (Hocc : dated occ_sample).
  { split; [reflexivity|]. intros v Hv. simpl in Hv.
    destruct Hv as [<-|[]]. eexists. split; [reflexivity|]. right. eauto. }
  assert (Harr : dated arr_sample).
  { split; [reflexivity|]. intros v Hv. simpl in Hv.
    destruct Hv as [<-|[]]. eexists. split; [reflexivity|]. right. eauto. }
  assert (Hrect : rectangular arr_sample).
  { intros v Hv. simpl in Hv. destruct Hv as [<-|[]]. reflexivity. }
  destruct (forecast_rows_left_join occ_sample arr_sample Hocc Harr Hrect eq_refl)
    as [rows [Hrows [_ Hlen]]].
  exists rows. split; [exact Hrows|]. apply Hlen.
  unfold date_cells. cbn [occ_sample data map].
  constructor; [intros [] | constructor].
Defined.

(** ** The days of the future calendar *)

Module RangeFacts.

Lemma date_range_empty start stop : stop < start -> Time.date_range start stop = [].
Proof.
  intros H. unfold Time.date_range.
  assert (Hq : (stop - start) / Time.day_ns < 0).
  { apply Z.div_lt_upper_bound; [exact TimeFacts.day_ns_pos | lia]. }
  replace (Z.to_nat ((stop - start) / Time.day_ns + 1)) with 0%nat by lia.
  reflexivity.
Qed.

Lemma length_date_range start stop :
  start <= stop ->
  Z.of_nat (List.length (Time.date_range start stop)) =
  (stop - start) / Time.day_ns + 1.
Proof.
  intros H. unfold Time.date_range. rewrite length_map, length_seq.
  assert (0 <= (stop - start) / Time.day_ns).
  { apply Z.div_pos; [lia | exact TimeFacts.day_ns_pos]. }
  lia.
Qed.

Lemma nth_date_range start stop i d :
  nth_error (Time.date_range start stop) i = Some d ->
  d = start + Z.of_nat i * Time.day_ns /\ d <= stop.
Proof.
  intros H. unfold Time.date_range in H.
  rewrite nth_error_map in H.
  destruct (nth_error (seq 0 _) i) as [k|] eqn:Ek; [|discriminate].
  injection H as <-.
  assert (Hlt : (i < List.length (seq 0 (Z.to_nat ((stop - start) / Time.day_ns + 1))))%nat).
  { apply nth_error_Some. congruence. }
  rewrite length_seq in Hlt.
  rewrite nth_error_nth' with (d := 0%nat) in Ek by (now rewrite length_seq).
  rewrite seq_nth in Ek by exact Hlt. injection Ek as <-.
  split; [reflexivity|]. cbn [Nat.add].
  assert (Hq : Z.of_nat i <= (stop - start) / Time.day_ns) by lia.
  pose proof TimeFacts.day_ns_pos as Hp.
  pose proof (Z.mul_div_le (stop - start) Time.day_ns Hp) as Hm.
  nia.
Qed.

(** The columns a feature row copies or derives from its own calendar
    row. *)
Lemma features_nth_base rows i r :
  nth_error (calendar_features rows) i = Some r ->
  exists c,
    nth_error rows i = Some c /\
    Feat.Date r = Cal.Date c /\
    Feat.Occupancy_Rate r = Cal.Occupancy_Rate c /\
    Feat.Is_Weekend r = Cal.Is_Weekend c /\
    Feat.Day_of_Week r = Time.weekday (Cal.Date c).
Proof.
  intros H. unfold calendar_features in H.
  rewrite NpFacts.nth_error_zip_with in H.
  destruct (nth_error rows i) as [c|] eqn:Ec; [|discriminate].
  match type of H with
  | match ?x with _ => _ end = _ => destruct x as [[[[br hol] [du da]] dst]|]; [|discriminate]
  end.
  destruct (Time.civil (Time.date (Cal.Date c))) as [[y m] d] eqn:Eciv.
  injection H as <-. exists c. repeat split.
Qed.

Lemma future_row_base holidays date :
  Cal.Date (future_row holidays date) = date /\
  Cal.Occupancy_Rate (future_row holidays date) = None /\
  Cal.Is_Weekend (future_row holidays date) = (5 <=? Time.weekday date).
Proof. unfold future_row. destruct (holiday_info holidays date); repeat split. Qed.

(** A row of the future calendar before the feature columns are added. *)
Lemma future_rows_nth holidays start_date i c :
  nth_error (future_rows holidays start_date) i = Some c ->
  Cal.Date c = start_2026 start_date + Z.of_nat i * Time.day_ns /\
  Cal.Date c <= end_2026 /\
  Cal.Occupancy_Rate c = None /\
  Cal.Is_Weekend c = (5 <=? Time.weekday (Cal.Date c)).
Proof.
  intros Hc. unfold future_rows in Hc. rewrite nth_error_map in Hc.
  destruct (nth_error (Time.date_range _ _) i) as [d|] eqn:Ed; [|discriminate].
  injection Hc as <-.
  destruct (future_row_base holidays d) as [H1 [H2 H3]].
  destruct (nth_date_range _ _ _ _ Ed) as [Hi Hle].
  rewrite H1, H2, H3. repeat split; assumption.
Qed.

Lemma length_future_rows holidays start_date :
  start_2026 start_date <= end_2026 ->
  Z.of_nat (List.length (future_rows holidays start_date)) =
  (end_2026 - start_2026 start_date) / Time.day_ns + 1 /\
  (0 < List.length (future_rows holidays start_date))%nat.
Proof.
  intros H. unfold future_rows. rewrite length_map.
  pose proof (length_date_range _ _ H) as Hlen. split; [exact Hlen|].
  pose proof TimeFacts.day_ns_pos.
  assert (0 <= (end_2026 - start_2026 start_date) / Time.day_ns)
    by (apply Z.div_pos; lia).
  lia.
Qed.

End RangeFacts.

(** X12. The future calendar exists exactly when its first day is not
    after 31 December 2026. It then has one row per day: row [i] is dated
    [i] days after the first day and never after the last day of 2026,
    carries no occupancy, and is flagged a weekend exactly when its day of
    the week is Saturday or Sunday. *)
Theorem future_calendar_days (holidays : list Holiday.t) (start_date : option Z) :
  (end_2026 < start_2026 start_date ->
   _future_calendar_2026 holidays start_date = None) /\
  (start_2026 start_date <= end_2026 ->
   exists feats,
     _future_calendar_2026 holidays start_date = Some feats /\
     Z.of_nat (List.length feats) =
       (end_2026 - start_2026 start_date) / Time.day_ns + 1 /\
     forall i r, nth_error feats i = Some r ->
       Feat.Date r = start_2026 start_date + Z.of_nat i * Time.day_ns /\
       Feat.Date r <= end_2026 /\
       Feat.Occupancy_Rate r = None /\
       Feat.Is_Weekend r = (5 <=? Feat.Day_of_Week r)).
Proof.
  split.
  - intros H. unfold _future_calendar_2026, future_rows.
    now rewrite RangeFacts.date_range_empty.
  - intros H. exists (calendar_features (future_rows holidays start_date)).
    destruct (RangeFacts.length_future_rows holidays start_date H) as [Hlen Hpos].
    split; [|split].
    + unfold _future_calendar_2026.
      destruct (future_rows holidays start_date); [|reflexivity].
      cbn [List.length] in Hpos. lia.
    + now rewrite LengthFacts.length_calendar_features.
    + intros i r Hr.
      destruct (RangeFacts.features_nth_base _ i r Hr)
        as [c [Hc [Hd [Ho [Hw Hdow]]]]].
      destruct (RangeFacts.future_rows_nth holidays start_date i c Hc)
        as [H1 [H2 [H3 H4]]].
      rewrite Hd, Ho, Hw, Hdow. repeat split; assumption.
Qed.

(** The calendar from 30 December 2026 has two rows; one from 1 January
    2027 does not exist. *)
Lemma future_calendar_days_witness :
  _future_calendar_2026 year_end_holidays (Some (Time.of_date (Time.ymd 2027 1 1))) = None /\
  exists feats,
    _future_calendar_2026 year_end_holidays year_end_start = Some feats /\
    List.length feats = 2%nat.
Proof.
  split.
  - apply (proj1 (future_calendar_days year_end_holidays
                    (Some (Time.of_date (Time.ymd 2027 1 1))))).
    reflexivity.
  - destruct (proj2 (future_calendar_days year_end_holidays year_end_start))
      as [feats [Hf [Hlen _]]].
    + vm_compute. discriminate.
    + exists feats. split; [exact Hf|].
      apply Nat2Z.inj. rewrite Hlen. reflexivity.
Defined.

(** ** The grouped rows of the historical frame *)

Module OrderingFacts.

Section Ordering.
Context {A : Type} (cmp : A -> A -> comparison).
Hypothesis Hord : ordering cmp.

Lemma cmp_refl a : cmp a a = Eq.
Proof.
  destruct Hord as [Ha _]. specialize (Ha a a).
  destruct (cmp a a); simpl in Ha; congruence.
Qed.

Lemma cmp_eq_r a b c : cmp b c = Eq -> cmp a b = cmp a c.
Proof.
  destruct Hord as [Ha [He _]]. intros H.
  assert (Hcb : cmp c b = Eq) by (rewrite Ha, H; reflexivity).
  pose proof (He c b a Hcb) as H1. rewrite (Ha a c), (Ha a b) in H1.
  destruct (cmp a b), (cmp a c); simpl in H1; congruence.
Qed.

Lemma cmp_gt_lt a b : cmp a b = Gt -> cmp b a = Lt.
Proof. destruct Hord as [Ha _]. intros H. now rewrite Ha, H. Qed.

End Ordering.

Lemma lex_eq c1 c2 : lex c1 c2 = Eq -> c1 = Eq /\ c2 = Eq.
Proof. destruct c1; simpl; intros H; try discriminate. auto. Qed.

Lemma lex_lt c1 c2 : lex c1 c2 = Lt -> c1 = Lt \/ (c1 = Eq /\ c2 = Lt).
Proof. destruct c1; simpl; intros H; try discriminate; auto. Qed.

(** Comparing by one key, then by another, orders. *)
Lemma ordering_lex {A : Type} (c1 c2 : A -> A -> comparison) :
  ordering c1 -> ordering c2 -> ordering (fun a b => lex (c1 a b) (c2 a b)).
Proof.
  intros H1 H2. split; [|split].
  - intros a b. destruct H1 as [A1 _], H2 as [A2 _].
    rewrite A1, A2. now destruct (c1 a b).
  - intros a b c H. apply lex_eq in H. destruct H as [E1 E2].
    destruct H1 as [_ [L1 _]], H2 as [_ [L2 _]].
    now rewrite (L1 a b c E1), (L2 a b c E2).
  - intros a b c Hab Hbc.
    apply lex_lt in Hab. apply lex_lt in Hbc.
    destruct Hab as [Hab|[Eab Hab]], Hbc as [Hbc|[Ebc Hbc]].
    + destruct H1 as [_ [_ T1]]. now rewrite (T1 a b c).
    + now rewrite <- (cmp_eq_r c1 H1 a b c Ebc), Hab.
    + destruct H1 as [_ [L1 _]]. now rewrite (L1 a b c Eab), Hbc.
    + destruct H1 as [_ [L1 _]]. rewrite (L1 a b c Eab), Ebc. simpl.
      destruct H2 as [_ [_ T2]]. now apply (T2 a b c).
Qed.

Lemma ordering_on {A B : Type} (f : A -> B) (cmp : B -> B -> comparison) :
  ordering cmp -> ordering (fun a b => cmp (f a) (f b)).
Proof.
  intros [Ha [He Ht]]. split; [|split].
  - intros a b. apply Ha.
  - intros a b c. apply He.
  - intros a b c. apply Ht.
Qed.

Lemma ordering_Z : ordering Z.compare.
Proof.
  split; [|split].
  - intros a b. apply Z.compare_antisym.
  - intros a b c H. apply Z.compare_eq in H. now subst.
  - intros a b c. rewrite !Z.compare_lt_iff. lia.
Qed.

Lemma ordering_bool : ordering bool_compare.
Proof.
  split; [|split].
  - now intros [|] [|].
  - now intros [|] [|] [|].
  - now intros [|] [|] [|].
Qed.

Lemma ordering_rate : ordering rate_compare.
Proof.
  split; [|split].
  - intros [x|] [y|]; simpl; try reflexivity. symmetry. apply Qcompare_antisym.
  - intros [x|] [y|] [z|]; simpl; intros H; try discriminate; try reflexivity.
    apply Qeq_alt in H. now rewrite H.
  - intros [x|] [y|] [z|]; simpl; intros H1 H2; try discriminate; try reflexivity.
    apply Qlt_alt in H1, H2. apply Qlt_alt. now apply Qlt_trans with y.
Qed.

(** The order of the group keys orders. *)
Lemma ordering_hist : ordering hist_compare.
Proof.
  unfold hist_compare.
  apply (ordering_lex (fun a b => Hist.Date a ?= Hist.Date b));
    [exact (ordering_on Hist.Date _ ordering_Z)|].
  apply (ordering_lex
           (fun a b => rate_compare (Hist.Occupancy_Rate a) (Hist.Occupancy_Rate b)));
    [exact (ordering_on Hist.Occupancy_Rate _ ordering_rate)|].
  apply (ordering_lex
           (fun a b => bool_compare (Hist.Is_Holiday a) (Hist.Is_Holiday b)));
    [exact (ordering_on Hist.Is_Holiday _ ordering_bool)|].
  apply (ordering_lex
           (fun a b => bool_compare (Hist.Is_Weekend a) (Hist.Is_Weekend b)));
    [exact (ordering_on Hist.Is_Weekend _ ordering_bool)|].
  apply (ordering_lex
           (fun a b => bool_compare (Hist.Is_Event a) (Hist.Is_Event b)));
    [exact (ordering_on Hist.Is_Event _ ordering_bool)|].
  exact (ordering_on Hist.Is_SchoolHoliday _ ordering_bool).
Qed.

Lemma hist_lt_date a b : hist_compare a b = Lt -> Hist.Date a <= Hist.Date b.
Proof.
  unfold hist_compare. intros H. apply lex_lt in H.
  destruct H as [H|[H _]].
  - apply (proj1 (Z.compare_lt_iff _ _)) in H. lia.
  - apply Z.compare_eq in H. lia.
Qed.

End OrderingFacts.

Module GroupFacts.
Import Frame OrderingFacts.

Section Groups.
Context {A : Type} (cmp : A -> A -> comparison).
Hypothesis Hord : ordering cmp.

Local Abbreviation eqb := (fun a b => match cmp a b with Eq => true | _ => false end).
Local Abbreviation leb := (fun a b => match cmp a b with Gt => false | _ => true end).
Local Abbreviation below := (fun a b => cmp a b = Lt).

(** What [unique] keeps was there, and differs from all seen before. *)
Lemma unique_from_sound x seen l :
  In x (unique_from eqb seen l) ->
  In x l /\ forall s, In s seen -> cmp x s <> Eq.
Proof.
  revert seen. induction l as [|y ys IH]; intros seen H; [destruct H|].
  cbn [unique_from] in H.
  destruct (existsb _ seen) eqn:E.
  - destruct (IH _ H) as [H1 H2]. split; [now right | exact H2].
  - destruct H as [->|H].
    + split; [now left|]. intros s Hs Hc.
      assert (Ht : existsb (fun b => match cmp x b with Eq => true | _ => false end) seen = true).
      { apply existsb_exists. exists s. split; [exact Hs | now rewrite Hc]. }
      congruence.
    + destruct (IH _ H) as [H1 H2]. split; [now right|].
      intros s Hs. apply H2. now right.
Qed.

(** Every element is seen before or has an equal among those kept. *)
Lemma unique_from_complete x seen l :
  In x l ->
  (exists s, In s seen /\ cmp x s = Eq) \/
  (exists y, In y (unique_from eqb seen l) /\ cmp x y = Eq).
Proof.
  revert seen. induction l as [|y ys IH]; intros seen H; [destruct H|].
  cbn [unique_from].
  destruct (existsb _ seen) eqn:E.
  - destruct H as [->|H].
    + left. apply existsb_exists in E. destruct E as [s [Hs Hc]].
      exists s. split; [exact Hs|]. now destruct (cmp x s).
    + apply IH, H.
  - destruct H as [->|H].
    + right. exists x. split; [now left | now apply cmp_refl].
    + destruct (IH (y :: seen) H) as [[s [[<-|Hs] Hc]]|[z [Hz Hc]]].
      * right. exists y. split; [now left | exact Hc].
      * left. eauto.
      * right. exists z. split; [now right | exact Hc].
Qed.

(** No two of the kept elements are equal. *)
Lemma unique_from_distinct seen l :
  ForallOrdPairs (fun a b => cmp b a <> Eq) (unique_from eqb seen l).
Proof.
  revert seen. induction l as [|y ys IH]; intros seen; cbn [unique_from];
    [constructor|].
  destruct (existsb _ seen); [apply IH|].
  constructor; [|apply IH].
  apply Forall_forall. intros z Hz.
  apply unique_from_sound in Hz. destruct Hz as [_ Hz]. apply Hz. now left.
Qed.

Lemma insert_below x l :
  StronglySorted below l -> Forall (fun y => cmp y x <> Eq) l ->
  StronglySorted below (insert_sorted leb x l).
Proof.
  intros Hs Hx. induction Hs as [|y ys Hys IH Hy]; cbn [insert_sorted].
  - constructor; constructor.
  - inversion Hx as [|? ? Hyx Hxs]; subst.
    destruct (cmp x y) eqn:E.
    + exfalso. apply Hyx. destruct Hord as [Ha _]. now rewrite Ha, E.
    + constructor; [now constructor|].
      constructor; [exact E|].
      rewrite Forall_forall in *. intros z Hz.
      destruct Hord as [_ [_ Ht]]. apply (Ht x y z E), Hy, Hz.
    + constructor; [now apply IH|].
      rewrite Forall_forall in *. intros z Hz.
      apply FrameFacts.In_insert_sorted in Hz. destruct Hz as [->|Hz].
      * now apply cmp_gt_lt.
      * now apply Hy.
Qed.

(** Sorting elements no two of which are equal puts them in strictly
    increasing order. *)
Lemma sort_distinct l :
  ForallOrdPairs (fun a b => cmp b a <> Eq) l ->
  StronglySorted below (sort_by leb l).
Proof.
  induction 1 as [|x xs Hx Hxs IH]; cbn [sort_by]; [constructor|].
  apply insert_below; [exact IH|].
  rewrite Forall_forall in *. intros y Hy.
  apply FrameFacts.In_sort_by in Hy. now apply Hx.
Qed.

End Groups.

Lemma sorted_weaken {A : Type} (R R' : A -> A -> Prop) l :
  (forall a b, In a l -> In b l -> R a b -> R' a b) ->
  StronglySorted R l -> StronglySorted R' l.
Proof.
  intros H Hs. induction Hs as [|x xs Hxs IH Hx]; constructor.
  - apply IH. intros a b Ha Hb. apply H; now right.
  - rewrite Forall_forall in *. intros y Hy. apply H; [now left | now right | auto].
Qed.

Lemma sorted_map_on {A B : Type} (f : A -> B) (R : B -> B -> Prop) l :
  StronglySorted (fun a b => R (f a) (f b)) l -> StronglySorted R (map f l).
Proof.
  induction 1 as [|x xs Hxs IH Hx]; cbn [map]; constructor; [exact IH|].
  rewrite Forall_forall in *. intros y Hy. apply in_map_iff in Hy.
  destruct Hy as [z [<- Hz]]. auto.
Qed.

Lemma Permutation_insert_sorted {A : Type} (leb : A -> A -> bool) x l :
  Permutation (insert_sorted leb x l) (x :: l).
Proof.
  induction l as [|y ys IH]; cbn [insert_sorted]; [reflexivity|].
  destruct (leb x y); [reflexivity|].
  rewrite IH. apply perm_swap.
Qed.

Lemma Permutation_sort_by {A : Type} (leb : A -> A -> bool) l :
  Permutation (sort_by leb l) l.
Proof.
  induction l as [|x xs IH]; cbn [sort_by]; [reflexivity|].
  rewrite Permutation_insert_sorted. now constructor.
Qed.

(** Rows in ascending order of a key without duplicates are in strictly
    ascending order. *)
Lemma strict_of_NoDup {A : Type} (key : A -> Z) l :
  StronglySorted (fun a b => key a <= key b) l -> NoDup (map key l) ->
  StronglySorted (fun a b => key a < key b) l.
Proof.
  induction 1 as [|x xs Hxs IH Hx]; cbn [map]; intros Hnd; constructor.
  - apply IH. now inversion Hnd.
  - inversion Hnd as [|? ? Hnotin _]; subst.
    rewrite Forall_forall in *. intros y Hy.
    specialize (Hx y Hy).
    assert (key x <> key y).
    { intros E. apply Hnotin. rewrite E. now apply in_map. }
    lia.
Qed.

Lemma NoDup_of_strict {A : Type} (key : A -> Z) l :
  StronglySorted (fun a b => key a < key b) l -> NoDup (map key l).
Proof.
  induction 1 as [|x xs Hxs IH Hx]; cbn [map]; constructor; [|exact IH].
  intros Hin. apply in_map_iff in Hin. destruct Hin as [y [E Hy]].
  rewrite Forall_forall in Hx. specialize (Hx y Hy). lia.
Qed.

(** Two lists in strictly ascending order of a key that hold the same
    rows are the same list. *)
Lemma strict_sorted_unique {A : Type} (key : A -> Z) l1 l2 :
  StronglySorted (fun a b => key a < key b) l1 ->
  StronglySorted (fun a b => key a < key b) l2 ->
  (forall x, In x l1 <-> In x l2) -> l1 = l2.
Proof.
  intros H1. revert l2. induction H1 as [|x xs Hxs IH Hx]; intros l2 H2 Hsame.
  - destruct l2 as [|y ys]; [reflexivity|].
    destruct (proj2 (Hsame y) (or_introl eq_refl)).
  - destruct H2 as [|y ys Hys Hy].
    + destruct (proj1 (Hsame x) (or_introl eq_refl)).
    + rewrite Forall_forall in Hx, Hy.
      assert (E : x = y).
      { destruct (proj1 (Hsame x) (or_introl eq_refl)) as [E|Hin]; [now symmetry|].
        destruct (proj2 (Hsame y) (or_introl eq_refl)) as [E|Hin']; [exact E|].
        specialize (Hx y Hin'). specialize (Hy x Hin). lia. }
      subst y. f_equal. apply IH; [exact Hys|].
      intros z. split; intros Hz.
      * destruct (proj1 (Hsame z) (or_intror Hz)) as [E|Hin]; [|exact Hin].
        subst z. specialize (Hx x Hz). lia.
      * destruct (proj2 (Hsame z) (or_intror Hz)) as [E|Hin]; [|exact Hin].
        subst z. specialize (Hy x Hz). lia.
Qed.

(** Insertion by date is a sort by date, from either end of the list. *)
Lemma insertion_sorted l :
  StronglySorted (fun a b => Cal.Date a <= Cal.Date b)
                 (sort_by (fun a b => Cal.Date a <=? Cal.Date b) l).
Proof.
  apply (sorted_weaken (fun a b => (Cal.Date a <=? Cal.Date b) = true)).
  - intros a b _ _ H. now apply Z.leb_le.
  - apply (SortFacts.sort_by_strongly _ (fun _ => True)).
    + intros a b _ _ H. apply Z.leb_le. apply Z.leb_gt in H. lia.
    + intros a b c _ _ _ Hab Hbc. apply Z.leb_le.
      apply Z.leb_le in Hab, Hbc. lia.
    + apply Forall_forall. auto.
Qed.

Lemma insertion_sorts_by_date : sorts_by_date insertion_by_date.
Proof.
  intros l. split; [apply Permutation_sort_by | apply insertion_sorted].
Qed.

Lemma insertion_rev_sorts_by_date : sorts_by_date insertion_by_date_rev.
Proof.
  intros l. unfold insertion_by_date_rev. split; [|apply insertion_sorted].
  rewrite Permutation_sort_by. symmetry. apply Permutation_rev.
Qed.

End GroupFacts.

Example enrich_rows_tie_order :
  enrich_rows insertion_by_date hist_tie <> enrich_rows insertion_by_date_rev hist_tie.
Proof. vm_compute. discriminate. Qed.

(** X13. The feature builder groups the historical frame: whatever order
    the sort by date leaves the rows of one date in, its rows are, in
    ascending order of date, a rearrangement of the renamed rows of a list
    of historical rows that have an occupancy rate and that differ
    pairwise in the six grouped columns, so that no combination appears
    twice; every historical row with a rate has its combination in the
    list. When the rated rows of one date agree on the other five columns
    the rows are that list itself and the dates strictly increase: one row
    per date. *)
Theorem enrich_rows_grouped (sort_values : list Cal.t -> list Cal.t)
    (df : list Hist.t) :
  sorts_by_date sort_values ->
  exists groups,
    Permutation (enrich_rows sort_values df) (map rename_holiday groups) /\
    StronglySorted (fun a b => hist_compare a b = Lt) groups /\
    (forall g, In g groups -> In g df /\ rated g) /\
    (forall r, In r df -> rated r ->
               exists g, In g groups /\ hist_compare r g = Eq) /\
    StronglySorted (fun a b => Cal.Date a <= Cal.Date b)
                   (enrich_rows sort_values df) /\
    ((forall r1 r2, In r1 df -> In r2 df -> rated r1 -> rated r2 ->
                    Hist.Date r1 = Hist.Date r2 -> hist_compare r1 r2 = Eq) ->
     enrich_rows sort_values df = map rename_holiday groups /\
     StronglySorted (fun a b => Cal.Date a < Cal.Date b)
                    (enrich_rows sort_values df)).
Proof.
  intros Hsort.
  set (present := filter (fun r => match Hist.Occupancy_Rate r with
                                   | Some _ => true | None => false end) df).
  set (groups := Frame.sort_by hist_leb (Frame.unique hist_eqb present)).
  assert (Hstrict : StronglySorted (fun a b => hist_compare a b = Lt) groups).
  { apply (GroupFacts.sort_distinct hist_compare OrderingFacts.ordering_hist).
    apply (GroupFacts.unique_from_distinct hist_compare). }
  assert (Hin : forall g, In g groups -> In g df /\ rated g).
  { intros g Hg. apply FrameFacts.In_sort_by in Hg.
    apply (GroupFacts.unique_from_sound hist_compare) in Hg.
    destruct Hg as [Hg _]. apply filter_In in Hg. destruct Hg as [Hg Hr].
    split; [exact Hg|]. unfold rated. now destruct (Hist.Occupancy_Rate g). }
  assert (Hperm : Permutation (enrich_rows sort_values df) (map rename_holiday groups)).
  { unfold enrich_rows. fold present. fold groups. apply Hsort. }
  assert (Hdates : StronglySorted (fun a b => Cal.Date a <= Cal.Date b)
                                  (enrich_rows sort_values df)).
  { unfold enrich_rows. apply Hsort. }
  exists groups. split; [exact Hperm|]. split; [exact Hstrict|].
  split; [exact Hin|]. split; [|split; [exact Hdates|]].
  - intros r Hr Hrated.
    assert (Hp : In r present).
    { apply filter_In. split; [exact Hr|].
      unfold rated in Hrated. now destruct (Hist.Occupancy_Rate r). }
    destruct (GroupFacts.unique_from_complete hist_compare
                OrderingFacts.ordering_hist r [] present Hp)
      as [[s [[] _]]|[y [Hy Hc]]].
    exists y. split; [|exact Hc]. now apply FrameFacts.In_sort_by.
  - intros Hagree.
    assert (Hgroups : StronglySorted (fun a b => Cal.Date a < Cal.Date b)
                                     (map rename_holiday groups)).
    { apply GroupFacts.sorted_map_on.
      apply (GroupFacts.sorted_weaken (fun a b => hist_compare a b = Lt));
        [|exact Hstrict].
      intros a b Ha Hb Hlt. cbn [rename_holiday Cal.Date].
      pose proof (OrderingFacts.hist_lt_date a b Hlt) as Hle.
      destruct (Z.eq_dec (Hist.Date a) (Hist.Date b)) as [E|E]; [|lia].
      destruct (Hin a Ha) as [Ha1 Ha2]. destruct (Hin b Hb) as [Hb1 Hb2].
      rewrite (Hagree a b Ha1 Hb1 Ha2 Hb2 E) in Hlt. discriminate. }
    assert (Hout : StronglySorted (fun a b => Cal.Date a < Cal.Date b)
                                  (enrich_rows sort_values df)).
    { apply GroupFacts.strict_of_NoDup; [exact Hdates|].
      apply (Permutation_NoDup (l := map Cal.Date (map rename_holiday groups))).
      - apply Permutation_map. now symmetry.
      - now apply GroupFacts.NoDup_of_strict. }
    split; [|exact Hout].
    apply (GroupFacts.strict_sorted_unique Cal.Date); [exact Hout | exact Hgroups|].
    intros x. split; intros Hx.
    + exact (Permutation_in x Hperm Hx).
    + exact (Permutation_in x (Permutation_sym Hperm) Hx).
Qed.

(** Two days of history listed three times give two rows, in order of
    date, also under a sort that turns rows of one date around. *)
Lemma enrich_rows_grouped_witness :
  StronglySorted (fun a b => Cal.Date a < Cal.Date b)
                 (enrich_rows insertion_by_date_rev hist_days) /\
  map Cal.Date (enrich_rows insertion_by_date_rev hist_days) =
  [Time.of_date (Time.ymd 2025 9 1); Time.of_date (Time.ymd 2025 9 2)].
Proof.
  destruct (enrich_rows_grouped insertion_by_date_rev hist_days
              GroupFacts.insertion_rev_sorts_by_date)
    as [groups [_ [_ [_ [_ [_ H]]]]]].
  split; [|reflexivity].
  apply H. intros r1 r2 H1 H2 R1 R2.
  cbn [hist_days In] in H1, H2.
  destruct H1 as [<-|[<-|[<-|[<-|[]]]]]; destruct H2 as [<-|[<-|[<-|[<-|[]]]]];
    intros Hd; try reflexivity; try (now elim R1); try (now elim R2);
    vm_compute in Hd; discriminate.
Defined.

(** ** The dates that are forecast *)

Module ForecastDateFacts.
Import OrderingFacts.

Lemma fold_max_ge l a : a <= fold_left Z.max l a.
Proof.
  revert a. induction l as [|x xs IH]; intros a; cbn [fold_left]; [lia|].
  specialize (IH (Z.max a x)). lia.
Qed.

Lemma fold_max_bound l a x : In x (a :: l) -> x <= fold_left Z.max l a.
Proof.
  revert a. induction l as [|y ys IH]; intros a H.
  - destruct H as [->|[]]. cbn [fold_left]. lia.
  - cbn [fold_left]. destruct H as [->|[->|H]].
    + pose proof (fold_max_ge ys (Z.max x y)). lia.
    + pose proof (fold_max_ge ys (Z.max a x)). lia.
    + apply IH. now right.
Qed.

Lemma fold_max_in l a : In (fold_left Z.max l a) (a :: l).
Proof.
  revert a. induction l as [|y ys IH]; intros a; cbn [fold_left]; [now left|].
  destruct (IH (Z.max a y)) as [H|H].
  - rewrite <- H. destruct (Z.max_spec a y) as [[_ ->]|[_ ->]];
      [right; now left | now left].
  - right. now right.
Qed.

Lemma hist_eq_date a b : hist_compare a b = Eq -> Hist.Date a = Hist.Date b.
Proof.
  unfold hist_compare. intros H. apply lex_eq in H. destruct H as [H _].
  now apply Z.compare_eq.
Qed.

(** The dates of the enriched history are the dates of the rated rows,
    whatever the order of the sort. *)
Lemma enrich_dates sort_values df d :
  (forall l, Permutation (sort_values l) l) ->
  In d (map Feat.Date (_build_enrich_calendar_features sort_values df)) <->
  exists r, In r df /\ rated r /\ Hist.Date r = d.
Proof.
  intros Hperm.
  assert (Hfeat : forall rows, map Feat.Date (calendar_features rows) = map Cal.Date rows).
  { intros rows. apply nth_error_ext. intros i. rewrite !nth_error_map.
    destruct (nth_error (calendar_features rows) i) as [r|] eqn:E.
    - destruct (RangeFacts.features_nth_base rows i r E) as [c [Hc [Hd _]]].
      rewrite Hc. cbn [option_map]. now rewrite Hd.
    - apply nth_error_None in E. rewrite LengthFacts.length_calendar_features in E.
      apply nth_error_None in E. now rewrite E. }
  unfold _build_enrich_calendar_features. rewrite Hfeat. unfold enrich_rows.
  rewrite in_map_iff. split.
  - intros [c [<- Hc]]. apply (Permutation_in c (Hperm _)) in Hc.
    apply in_map_iff in Hc. destruct Hc as [g [<- Hg]].
    apply FrameFacts.In_sort_by in Hg.
    apply (GroupFacts.unique_from_sound hist_compare) in Hg.
    destruct Hg as [Hg _]. apply filter_In in Hg. destruct Hg as [Hg Hr].
    exists g. split; [exact Hg|]. split; [|reflexivity].
    unfold rated. now destruct (Hist.Occupancy_Rate g).
  - intros [r [Hr [Hrated <-]]].
    assert (Hp : In r (filter (fun r => match Hist.Occupancy_Rate r with
                                        | Some _ => true | None => false end) df)).
    { apply filter_In. split; [exact Hr|].
      unfold rated in Hrated. now destruct (Hist.Occupancy_Rate r). }
    destruct (GroupFacts.unique_from_complete hist_compare ordering_hist r [] _ Hp)
      as [[s [[] _]]|[y [Hy Hc]]].
    exists (rename_holiday y). split.
    + cbn [rename_holiday Cal.Date]. symmetry. now apply hist_eq_date.
    + apply (Permutation_in _ (Permutation_sym (Hperm _))).
      apply in_map. now apply FrameFacts.In_sort_by.
Qed.

End ForecastDateFacts.

(** X14. The predictor forecasts on the future calendar that starts the
    day after the latest date of a historical row with an occupancy rate,
    whatever order the sort by date leaves the rows of one date in.
    So every forecast date is later than every such historical date and
    no later than the last day of 2026, and the first forecast date is one
    day after a historical date. There is no forecast when no historical
    row has a rate, and none when a rated historical row is dated less
    than a day before the start of 31 December 2026 or later, for the
    calendar would then start after its end. *)
Theorem forecast_after_history (sort_values : list Cal.t -> list Cal.t)
    (hist_df : list Hist.t) (holidays : list Holiday.t) :
  sorts_by_date sort_values ->
  (forall feats, forecast_calendar sort_values hist_df holidays = Some feats ->
     (forall f r, In f feats -> In r hist_df -> rated r ->
                  Hist.Date r < Feat.Date f <= end_2026) /\
     (exists f r, nth_error feats 0 = Some f /\ In r hist_df /\ rated r /\
                  Feat.Date f = Hist.Date r + Time.day_ns)) /\
  ((forall r, In r hist_df -> ~ rated r) ->
   forecast_calendar sort_values hist_df holidays = None) /\
  (forall r, In r hist_df -> rated r -> end_2026 - Time.day_ns < Hist.Date r ->
             forecast_calendar sort_values hist_df holidays = None).
Proof.
  intros Hsort.
  assert (Hperm : forall l, Permutation (sort_values l) l) by (intros l; apply Hsort).
  assert (Hstart : forall start,
             latest_hist_date (_build_enrich_calendar_features sort_values hist_df) = Some start ->
             (forall r, In r hist_df -> rated r -> Hist.Date r + Time.day_ns <= start) /\
             (exists r, In r hist_df /\ rated r /\ start = Hist.Date r + Time.day_ns)).
  { intros start H. unfold latest_hist_date in H.
    pose proof (fun d => ForecastDateFacts.enrich_dates sort_values hist_df d Hperm) as Hd.
    destruct (map Feat.Date (_build_enrich_calendar_features sort_values hist_df)) as [|d ds];
      [discriminate|].
    injection H as <-. split.
    - intros r Hr Hrated.
      assert (Hin : In (Hist.Date r) (d :: ds)) by (apply Hd; eauto).
      apply ForecastDateFacts.fold_max_bound in Hin. lia.
    - destruct (proj1 (Hd _) (ForecastDateFacts.fold_max_in ds d))
        as [r [Hr [Hrated He]]].
      exists r. rewrite He. auto. }
  assert (Hlate : forall start, end_2026 < start ->
                                _future_calendar_2026 holidays (Some start) = None).
  { intros start H. unfold _future_calendar_2026, future_rows.
    now rewrite RangeFacts.date_range_empty. }
  split; [|split].
  - intros feats H. unfold forecast_calendar in H.
    destruct (latest_hist_date _) as [start|] eqn:Es; [|discriminate].
    destruct (Hstart start eq_refl) as [Hub [r0 [Hr0 [Hrated0 Hs0]]]].
    destruct (Z_lt_le_dec end_2026 start) as [Hlt|Hle];
      [rewrite (Hlate start Hlt) in H; discriminate|].
    destruct (RangeFacts.length_future_rows holidays (Some start) Hle) as [_ Hpos].
    assert (Hfeats : feats = calendar_features (future_rows holidays (Some start))).
    { unfold _future_calendar_2026 in H.
      destruct (future_rows holidays (Some start)); [discriminate | now injection H]. }
    assert (Hrows : forall i f, nth_error feats i = Some f ->
                                Feat.Date f = start + Z.of_nat i * Time.day_ns /\
                                Feat.Date f <= end_2026).
    { intros i f Hi. rewrite Hfeats in Hi.
      destruct (RangeFacts.features_nth_base _ i f Hi) as [c [Hc [Hd _]]].
      destruct (RangeFacts.future_rows_nth holidays (Some start) i c Hc)
        as [H1 [H2 _]].
      rewrite Hd. split; [exact H1 | exact H2]. }
    split.
    + intros f r Hf Hr Hrated. apply In_nth_error in Hf.
      destruct Hf as [i Hi]. destruct (Hrows i f Hi) as [Hdate Hend].
      split; [|exact Hend].
      specialize (Hub r Hr Hrated).
      pose proof TimeFacts.day_ns_pos. nia.
    + destruct (nth_error feats 0) as [f|] eqn:E0.
      * exists f, r0. destruct (Hrows 0%nat f E0) as [Hdate _].
        repeat split; auto. lia.
      * apply nth_error_None in E0.
        rewrite Hfeats, LengthFacts.length_calendar_features in E0. lia.
  - intros Hnone. unfold forecast_calendar, latest_hist_date.
    pose proof (fun d => ForecastDateFacts.enrich_dates sort_values hist_df d Hperm) as Hd.
    destruct (map Feat.Date (_build_enrich_calendar_features sort_values hist_df)) as [|d ds];
      [reflexivity|].
    destruct (proj1 (Hd d) (or_introl eq_refl)) as [r [Hr [Hrated _]]].
    now elim (Hnone r Hr).
  - intros r Hr Hrated Hlater. unfold forecast_calendar.
    destruct (latest_hist_date _) as [start|] eqn:Es; [|reflexivity].
    destruct (Hstart start eq_refl) as [Hub _]. specialize (Hub r Hr Hrated).
    apply Hlate. lia.
Qed.

(** History up to 2 September 2025: the first forecast date is the day
    after. *)
Lemma forecast_after_history_witness :
  exists feats f,
    forecast_calendar insertion_by_date hist_days [] = Some feats /\
    nth_error feats 0 = Some f /\
    Feat.Date f = Time.of_date (Time.ymd 2025 9 3).
Proof.
  destruct (forecast_calendar insertion_by_date hist_days []) as [feats|] eqn:E;
    [|vm_compute in E; discriminate].
  destruct (proj1 (forecast_after_history insertion_by_date hist_days []
                  GroupFacts.insertion_sorts_by_date) feats E)
    as [Hafter [f [r [Hf [Hr [Hrated Hd]]]]]].
  exists feats, f. split; [reflexivity|]. split; [exact Hf|].
  assert (Hlow : Hist.Date (Hist.mk (Time.of_date (Time.ymd 2025 9 2)) (Some (1 # 2))
                                     false false false false) < Feat.Date f).
  { apply (Hafter f _ (nth_error_In _ _ Hf)); [now left | discriminate]. }
  cbn [hist_days In] in Hr.
  destruct Hr as [<-|[<-|[<-|[<-|[]]]]]; rewrite Hd in *; cbn [Hist.Date] in *;
    try reflexivity; try (now elim Hrated);
    vm_compute in Hlow; discriminate.
Defined.
